(** * A shallow embedding of the Silicon Labs sleeptimer service

    Source: [platform/service/sleeptimer/src/sl_sleeptimer.c].

    The delta list is an intrusive singly linked list threaded through
    caller-owned handles.  Handles live in a store indexed by address
    ([gmap positive handle]); a C pointer is an [option addr], [None] being
    [NULL].  Unsigned C integers are [Z] with the wrap-around written out.
    Loops that chase [next] pointers take a fuel argument and return [None]
    when the fuel runs out (a cyclic list makes the C loop spin forever) or
    when a pointer outside the store is dereferenced.

    [CORE_ENTER_ATOMIC]/[CORE_EXIT_ATOMIC] only mask interrupts; in this
    sequential model they have no effect and are left out.  The wall-clock
    part is modelled with [SL_SLEEPTIMER_WALLCLOCK_CONFIG] enabled. *)

From Stdlib Require Import ZArith Lia List Bool.
From stdpp Require Import base tactics option list gmap.

Local Open Scope Z_scope.

(** ** Machine integers *)

Definition UINT32_MAX : Z := 4294967295.

Definition wrap8 (z : Z) : Z := z mod 2 ^ 8.
Definition wrap16 (z : Z) : Z := z mod 2 ^ 16.
Definition wrap32 (z : Z) : Z := z mod 2 ^ 32.
Definition wrap64 (z : Z) : Z := z mod 2 ^ 64.

Definition is_u8 (z : Z) : Prop := 0 <= z < 2 ^ 8.
Definition is_u16 (z : Z) : Prop := 0 <= z < 2 ^ 16.
Definition is_u32 (z : Z) : Prop := 0 <= z < 2 ^ 32.

(** ** Data model *)

Definition addr : Type := positive.
Definition callback_id : Type := positive.

(** Modelled from the spec: the status codes of [sl_status.h] (section 6,
    "Status codes"); the header is not part of the sources. *)
Inductive sl_status_t : Type :=
| SL_STATUS_OK
| SL_STATUS_NULL_POINTER
| SL_STATUS_INVALID_PARAMETER
| SL_STATUS_INVALID_STATE
| SL_STATUS_NOT_READY
| SL_STATUS_EMPTY.

#[global] Instance sl_status_eq_dec : EqDecision sl_status_t.
Proof. solve_decision. Defined.

(** Modelled from the spec: the timer handle of [sl_sleeptimer.h] (section 3,
    "Timer Handle"); the fields are the ones the source reads and writes.
    [callback] is a function pointer ([None] is [NULL]), [callback_data] the
    opaque payload. *)
Record sl_sleeptimer_timer_handle_t : Type := mk_handle {
  callback_data : Z;
  priority : Z;
  option_flags : Z;
  next : option addr;
  callback : option callback_id;
  timeout_periodic : Z;
  delta : Z
}.

Definition set_delta (d : Z) (h : sl_sleeptimer_timer_handle_t) :=
  mk_handle (callback_data h) (priority h) (option_flags h) (next h)
            (callback h) (timeout_periodic h) d.

Definition set_next (n : option addr) (h : sl_sleeptimer_timer_handle_t) :=
  mk_handle (callback_data h) (priority h) (option_flags h) n
            (callback h) (timeout_periodic h) (delta h).

(** The fields of a handle that the list operations never touch. *)
Definition attrs (h : sl_sleeptimer_timer_handle_t) :=
  (callback_data h, priority h, option_flags h, callback h, timeout_periodic h).

(** Modelled from the spec: the event masks of [sl_sleeptimer_hal.h]
    (section 6, "Mask bits: OVERFLOW, COMPARE"). *)
Definition SLEEPTIMER_EVENT_OF : Z := 1.
Definition SLEEPTIMER_EVENT_COMP : Z := 2.

(** The file-scope variables of [sl_sleeptimer.c], the store of handles, and
    the registers of the hardware timer behind the HAL. *)
Record state : Type := mk_state {
  heap : gmap addr sl_sleeptimer_timer_handle_t;
  overflow_counter : Z;
  second_count : Z;
  overflow_tick_rest : Z;
  tz_offset : Z;
  calculated_tick_rest : Z;
  calculated_sec_count : Z;
  timer_head : option addr;
  last_delta_update_count : Z;
  is_sleeptimer_initialized : bool;
  max_millisecond_conversion : Z;
  hal_counter : Z;
  hal_compare : Z;
  hal_int_enabled : Z
}.

Definition set_heap v s :=
  mk_state v (overflow_counter s) (second_count s) (overflow_tick_rest s)
    (tz_offset s) (calculated_tick_rest s) (calculated_sec_count s)
    (timer_head s) (last_delta_update_count s) (is_sleeptimer_initialized s)
    (max_millisecond_conversion s) (hal_counter s) (hal_compare s)
    (hal_int_enabled s).
Definition set_overflow_counter v s :=
  mk_state (heap s) v (second_count s) (overflow_tick_rest s)
    (tz_offset s) (calculated_tick_rest s) (calculated_sec_count s)
    (timer_head s) (last_delta_update_count s) (is_sleeptimer_initialized s)
    (max_millisecond_conversion s) (hal_counter s) (hal_compare s)
    (hal_int_enabled s).
Definition set_second_count v s :=
  mk_state (heap s) (overflow_counter s) v (overflow_tick_rest s)
    (tz_offset s) (calculated_tick_rest s) (calculated_sec_count s)
    (timer_head s) (last_delta_update_count s) (is_sleeptimer_initialized s)
    (max_millisecond_conversion s) (hal_counter s) (hal_compare s)
    (hal_int_enabled s).
Definition set_overflow_tick_rest v s :=
  mk_state (heap s) (overflow_counter s) (second_count s) v
    (tz_offset s) (calculated_tick_rest s) (calculated_sec_count s)
    (timer_head s) (last_delta_update_count s) (is_sleeptimer_initialized s)
    (max_millisecond_conversion s) (hal_counter s) (hal_compare s)
    (hal_int_enabled s).
Definition set_tz_offset v s :=
  mk_state (heap s) (overflow_counter s) (second_count s) (overflow_tick_rest s)
    v (calculated_tick_rest s) (calculated_sec_count s)
    (timer_head s) (last_delta_update_count s) (is_sleeptimer_initialized s)
    (max_millisecond_conversion s) (hal_counter s) (hal_compare s)
    (hal_int_enabled s).
Definition set_calculated_tick_rest v s :=
  mk_state (heap s) (overflow_counter s) (second_count s) (overflow_tick_rest s)
    (tz_offset s) v (calculated_sec_count s)
    (timer_head s) (last_delta_update_count s) (is_sleeptimer_initialized s)
    (max_millisecond_conversion s) (hal_counter s) (hal_compare s)
    (hal_int_enabled s).
Definition set_calculated_sec_count v s :=
  mk_state (heap s) (overflow_counter s) (second_count s) (overflow_tick_rest s)
    (tz_offset s) (calculated_tick_rest s) v
    (timer_head s) (last_delta_update_count s) (is_sleeptimer_initialized s)
    (max_millisecond_conversion s) (hal_counter s) (hal_compare s)
    (hal_int_enabled s).
Definition set_timer_head v s :=
  mk_state (heap s) (overflow_counter s) (second_count s) (overflow_tick_rest s)
    (tz_offset s) (calculated_tick_rest s) (calculated_sec_count s)
    v (last_delta_update_count s) (is_sleeptimer_initialized s)
    (max_millisecond_conversion s) (hal_counter s) (hal_compare s)
    (hal_int_enabled s).
Definition set_last_delta_update_count v s :=
  mk_state (heap s) (overflow_counter s) (second_count s) (overflow_tick_rest s)
    (tz_offset s) (calculated_tick_rest s) (calculated_sec_count s)
    (timer_head s) v (is_sleeptimer_initialized s)
    (max_millisecond_conversion s) (hal_counter s) (hal_compare s)
    (hal_int_enabled s).
Definition set_is_sleeptimer_initialized v s :=
  mk_state (heap s) (overflow_counter s) (second_count s) (overflow_tick_rest s)
    (tz_offset s) (calculated_tick_rest s) (calculated_sec_count s)
    (timer_head s) (last_delta_update_count s) v
    (max_millisecond_conversion s) (hal_counter s) (hal_compare s)
    (hal_int_enabled s).
Definition set_max_millisecond_conversion v s :=
  mk_state (heap s) (overflow_counter s) (second_count s) (overflow_tick_rest s)
    (tz_offset s) (calculated_tick_rest s) (calculated_sec_count s)
    (timer_head s) (last_delta_update_count s) (is_sleeptimer_initialized s)
    v (hal_counter s) (hal_compare s)
    (hal_int_enabled s).
Definition set_hal_counter v s :=
  mk_state (heap s) (overflow_counter s) (second_count s) (overflow_tick_rest s)
    (tz_offset s) (calculated_tick_rest s) (calculated_sec_count s)
    (timer_head s) (last_delta_update_count s) (is_sleeptimer_initialized s)
    (max_millisecond_conversion s) v (hal_compare s)
    (hal_int_enabled s).
Definition set_hal_compare v s :=
  mk_state (heap s) (overflow_counter s) (second_count s) (overflow_tick_rest s)
    (tz_offset s) (calculated_tick_rest s) (calculated_sec_count s)
    (timer_head s) (last_delta_update_count s) (is_sleeptimer_initialized s)
    (max_millisecond_conversion s) (hal_counter s) v
    (hal_int_enabled s).
Definition set_hal_int_enabled v s :=
  mk_state (heap s) (overflow_counter s) (second_count s) (overflow_tick_rest s)
    (tz_offset s) (calculated_tick_rest s) (calculated_sec_count s)
    (timer_head s) (last_delta_update_count s) (is_sleeptimer_initialized s)
    (max_millisecond_conversion s) (hal_counter s) (hal_compare s)
    v.

(** ** Hardware abstraction layer

    Modelled from the spec: the operations of [sl_sleeptimer_hal.h]
    (section 6, "Hardware Abstraction"): the counter register is read, the
    compare register is written, and interrupt sources are masked by bit.
    The counter is a register of the state: whoever lets time pass (the
    environment, a callback) changes [hal_counter]. *)

Definition sleeptimer_hal_init_timer (s : state) : state := set_hal_counter 0 s.
Definition sleeptimer_hal_get_counter (s : state) : Z := hal_counter s.
Definition sleeptimer_hal_set_compare (v : Z) (s : state) : state :=
  set_hal_compare v s.
Definition sleeptimer_hal_enable_int (mask : Z) (s : state) : state :=
  set_hal_int_enabled (Z.lor (hal_int_enabled s) mask) s.
Definition sleeptimer_hal_disable_int (mask : Z) (s : state) : state :=
  set_hal_int_enabled (Z.ldiff (hal_int_enabled s) mask) s.

(** A callback invocation, as the dispatcher and [create_timer] perform it. *)
Inductive event : Type :=
| Invoke (cb : callback_id) (handle : addr) (data : Z).


(** ** The scheduler *)

Section Sleeptimer.

(** [sleeptimer_hal_get_timer_frequency()]: ticks per second, constant over
    the lifetime of the program. *)
Variable timer_frequency : Z.

(** What running a user callback does to the state.  Callbacks run with
    interrupts enabled and may call back into the service, so any state
    transformer is allowed; time passing during a callback shows as a change
    of [hal_counter]. *)
Variable run_callback : callback_id -> addr -> Z -> state -> state.

Definition sleeptimer_hal_get_timer_frequency : Z := timer_frequency.

(** [sl_sleeptimer_init] *)
Definition sl_sleeptimer_init (s : state) : sl_status_t * state :=
  if is_sleeptimer_initialized s then (SL_STATUS_OK, s)
  else
    let s := set_timer_head None s in
    let s := set_last_delta_update_count 0 s in
    let s := set_overflow_counter 0 s in
    let s := sleeptimer_hal_init_timer s in
    let s := sleeptimer_hal_enable_int SLEEPTIMER_EVENT_OF s in
    let s := set_second_count 0 s in
    let s := set_calculated_tick_rest
               (wrap32 ((UINT32_MAX + 1) mod sleeptimer_hal_get_timer_frequency)) s in
    let s := set_calculated_sec_count
               (wrap32 ((UINT32_MAX + 1) / sleeptimer_hal_get_timer_frequency)) s in
    let s := set_max_millisecond_conversion
               (wrap32 ((UINT32_MAX * 1000) / sleeptimer_hal_get_timer_frequency)) s in
    let s := set_is_sleeptimer_initialized true s in
    (SL_STATUS_OK, s).

(** The loop of [sl_sleeptimer_is_timer_running]:
    [while (current != NULL && !*running)]. *)
Fixpoint is_timer_running_loop (fuel : nat)
    (hp : gmap addr sl_sleeptimer_timer_handle_t)
    (handle : addr) (current : option addr) : option bool :=
  match current with
  | None => Some false
  | Some c =>
    if decide (c = handle) then Some true
    else match fuel with
         | O => None
         | S fuel' =>
           ch ← hp !! c;
           is_timer_running_loop fuel' hp handle (next ch)
         end
  end.

(** [sl_sleeptimer_is_timer_running]; [running] is the cell behind the
    output pointer ([None] for a [NULL] pointer).  The function reads the
    list and writes nothing but that cell. *)
Definition sl_sleeptimer_is_timer_running (fuel : nat)
    (handle : option addr) (running : option bool) (s : state)
    : option (sl_status_t * option bool) :=
  match handle, running with
  | Some h, Some _ =>
    r ← is_timer_running_loop fuel (heap s) h (timer_head s);
    Some (SL_STATUS_OK, Some r)
  | _, _ => Some (SL_STATUS_NULL_POINTER, running)
  end.

(** [set_comparator_for_next_timer]; it dereferences [timer_head]. *)
Definition set_comparator_for_next_timer (s : state) : option state :=
  hd ← timer_head s;
  hh ← heap s !! hd;
  let compare_value := wrap32 (last_delta_update_count s + delta hh) in
  Some (sleeptimer_hal_set_compare compare_value
          (sleeptimer_hal_enable_int SLEEPTIMER_EVENT_COMP s)).

(** [update_first_timer_delta] *)
Definition update_first_timer_delta (s : state) : option state :=
  let current_cnt := sleeptimer_hal_get_counter s in
  match timer_head s with
  | Some hd =>
    hh ← heap s !! hd;
    let time_diff := wrap32 (current_cnt - last_delta_update_count s) in
    if delta hh >=? time_diff then
      Some (set_last_delta_update_count current_cnt
              (set_heap (<[hd := set_delta (wrap32 (delta hh - time_diff)) hh]> (heap s)) s))
    else
      Some (set_heap (<[hd := set_delta 0 hh]> (heap s))
              (set_last_delta_update_count (wrap32 (current_cnt - delta hh)) s))
  | None => Some (set_last_delta_update_count current_cnt s)
  end.

(** The loop condition of [delta_list_insert_timer], disjunct by disjunct. *)
Definition insert_continue (local_handle_delta : Z)
    (hh ch : sl_sleeptimer_timer_handle_t) : bool :=
  (local_handle_delta >=? delta ch)
  || (delta ch =? 0)
  || ((wrap32 (local_handle_delta - delta ch) =? 0)
      && (priority hh >? priority ch)).

(** The search loop of [delta_list_insert_timer]; every iteration also
    stores the running remainder into [handle->delta]. *)
Fixpoint insert_walk (fuel : nat) (handle : addr)
    (hp : gmap addr sl_sleeptimer_timer_handle_t)
    (local_handle_delta : Z) (prev current : option addr)
    : option (gmap addr sl_sleeptimer_timer_handle_t * Z * option addr * option addr) :=
  match current with
  | None => Some (hp, local_handle_delta, prev, current)
  | Some c =>
    ch ← hp !! c;
    hh ← hp !! handle;
    if insert_continue local_handle_delta hh ch then
      match fuel with
      | O => None
      | S fuel' =>
        let local' := wrap32 (local_handle_delta - delta ch) in
        insert_walk fuel' handle (<[handle := set_delta local' hh]> hp)
                    local' (Some c) (next ch)
      end
    else Some (hp, local_handle_delta, prev, current)
  end.

(** [delta_list_insert_timer] *)
Definition delta_list_insert_timer (fuel : nat) (handle : addr) (timeout : Z)
    (s : state) : option state :=
  hh ← heap s !! handle;
  let hp0 := <[handle := set_delta timeout hh]> (heap s) in
  match timer_head s with
  | Some hd =>
    '(hp1, local_handle_delta, prev, current) ←
        insert_walk fuel handle hp0 timeout None (Some hd);
    '(hp2, head2) ←
        match prev with
        | Some p =>
          ph ← hp1 !! p;
          Some (<[p := set_next (Some handle) ph]> hp1, timer_head s)
        | None => Some (hp1, Some handle)
        end;
    hh2 ← hp2 !! handle;
    let hp3 := <[handle := set_next current hh2]> hp2 in
    hp4 ←
        match current with
        | Some c =>
          ch ← hp3 !! c;
          Some (<[c := set_delta (wrap32 (delta ch - local_handle_delta)) ch]> hp3)
        | None => Some hp3
        end;
    Some (set_timer_head head2 (set_heap hp4 s))
  | None =>
    Some (set_timer_head (Some handle)
            (set_heap (<[handle := set_next None (set_delta timeout hh)]> (heap s)) s))
  end.

(** The search loop of [delta_list_remove_timer]. *)
Fixpoint remove_walk (fuel : nat)
    (hp : gmap addr sl_sleeptimer_timer_handle_t) (handle : addr)
    (prev current : option addr) : option (option addr * option addr) :=
  match current with
  | None => Some (prev, current)
  | Some c =>
    if decide (c = handle) then Some (prev, current)
    else match fuel with
         | O => None
         | S fuel' =>
           ch ← hp !! c;
           remove_walk fuel' hp handle (Some c) (next ch)
         end
  end.

(** [delta_list_remove_timer] *)
Definition delta_list_remove_timer (fuel : nat) (handle : addr) (s : state)
    : option (sl_status_t * state) :=
  '(prev, current) ← remove_walk fuel (heap s) handle None (timer_head s);
  if decide (current = Some handle) then
    hh ← heap s !! handle;
    s1 ← match prev with
          | Some p =>
            ph ← heap s !! p;
            Some (set_heap (<[p := set_next (next hh) ph]> (heap s)) s)
          | None => Some (set_timer_head (next hh) s)
          end;
    hh1 ← heap s1 !! handle;
    match next hh1 with
    | Some n =>
      nh ← heap s1 !! n;
      Some (SL_STATUS_OK,
            set_heap (<[n := set_delta (wrap32 (delta nh + delta hh1)) nh]> (heap s1)) s1)
    | None => Some (SL_STATUS_OK, s1)
    end
  else Some (SL_STATUS_INVALID_STATE, s).

(** [handle->callback(handle, handle->callback_data)] behind its [NULL]
    test; the invocation is logged. *)
Definition invoke_callback (handle : addr) (s : state)
    : option (list event * state) :=
  hh ← heap s !! handle;
  match callback hh with
  | Some cb =>
    Some ([Invoke cb handle (callback_data hh)],
          run_callback cb handle (callback_data hh) s)
  | None => Some ([], s)
  end.

(** The tail of [create_timer]: age the head, insert, and reprogram the
    comparator when the handle became the head. *)
Definition create_timer_arm (fuel : nat) (handle : addr) (timeout_initial : Z)
    (s : state) : option state :=
  s1 ← update_first_timer_delta s;
  s2 ← delta_list_insert_timer fuel handle timeout_initial s1;
  if decide (timer_head s2 = Some handle) then set_comparator_for_next_timer s2
  else Some s2.

(** [create_timer] *)
Definition create_timer (fuel : nat) (handle : addr)
    (timeout_initial timeout_periodic : Z)
    (cb : option callback_id) (cb_data : Z)
    (prio : Z) (flags : Z) (s : state)
    : option (list event * sl_status_t * state) :=
  hh ← heap s !! handle;
  let hh1 := mk_handle cb_data prio flags None cb timeout_periodic (delta hh) in
  let s1 := set_heap (<[handle := hh1]> (heap s)) s in
  if timeout_initial =? 0 then
    let s2 := set_heap (<[handle := set_delta 0 hh1]> (heap s1)) s1 in
    '(tr, s3) ← invoke_callback handle s2;
    if timeout_periodic =? 0 then Some (tr, SL_STATUS_OK, s3)
    else
      s4 ← create_timer_arm fuel handle timeout_periodic s3;
      Some (tr, SL_STATUS_OK, s4)
  else
    s4 ← create_timer_arm fuel handle timeout_initial s1;
    Some ([], SL_STATUS_OK, s4).

(** [sl_sleeptimer_start_timer] *)
Definition sl_sleeptimer_start_timer (fuel : nat) (handle : option addr)
    (timeout : Z) (cb : option callback_id) (cb_data : Z)
    (prio : Z) (flags : Z) (s : state)
    : option (list event * sl_status_t * state) :=
  match handle with
  | None => Some ([], SL_STATUS_NULL_POINTER, s)
  | Some h =>
    '(_, is_running) ← sl_sleeptimer_is_timer_running fuel handle (Some false) s;
    if decide (is_running = Some true) then Some ([], SL_STATUS_NOT_READY, s)
    else create_timer fuel h timeout 0 cb cb_data prio flags s
  end.

(** [sl_sleeptimer_start_periodic_timer] *)
Definition sl_sleeptimer_start_periodic_timer (fuel : nat) (handle : option addr)
    (timeout : Z) (cb : option callback_id) (cb_data : Z)
    (prio : Z) (flags : Z) (s : state)
    : option (list event * sl_status_t * state) :=
  match handle with
  | None => Some ([], SL_STATUS_NULL_POINTER, s)
  | Some h =>
    '(_, is_running) ← sl_sleeptimer_is_timer_running fuel handle (Some false) s;
    if decide (is_running = Some true) then Some ([], SL_STATUS_INVALID_STATE, s)
    else create_timer fuel h timeout timeout cb cb_data prio flags s
  end.

(** [sl_sleeptimer_stop_timer] *)
Definition sl_sleeptimer_stop_timer (fuel : nat) (handle : option addr)
    (s : state) : option (sl_status_t * state) :=
  match handle with
  | None => Some (SL_STATUS_NULL_POINTER, s)
  | Some h =>
    s1 ← update_first_timer_delta s;
    let set_comparator := bool_decide (timer_head s1 = Some h) in
    let s2 := if set_comparator
              then sleeptimer_hal_disable_int SLEEPTIMER_EVENT_COMP s1 else s1 in
    '(error, s3) ← delta_list_remove_timer fuel h s2;
    if decide (error = SL_STATUS_OK) then
      if set_comparator && bool_decide (timer_head s3 <> None) then
        s4 ← set_comparator_for_next_timer s3;
        Some (SL_STATUS_OK, s4)
      else Some (SL_STATUS_OK, s3)
    else Some (error, s3)
  end.


(** [sl_sleeptimer_restart_periodic_timer] *)
Definition sl_sleeptimer_restart_periodic_timer (fuel : nat) (handle : option addr)
    (timeout : Z) (cb : option callback_id) (cb_data : Z)
    (prio : Z) (flags : Z) (s : state)
    : option (list event * sl_status_t * state) :=
  match handle with
  | None => Some ([], SL_STATUS_NULL_POINTER, s)
  | Some h =>
    '(_, s1) ← sl_sleeptimer_stop_timer fuel handle s;
    create_timer fuel h timeout timeout cb cb_data prio flags s1
  end.

(** The summing loop of [sl_sleeptimer_get_timer_time_remaining]:
    [while (current != handle && current != NULL)], accumulating into the
    cell behind the output pointer. *)
Fixpoint time_remaining_loop (fuel : nat)
    (hp : gmap addr sl_sleeptimer_timer_handle_t) (handle : addr)
    (time : Z) (current : option addr) : option (Z * option addr) :=
  match current with
  | None => Some (time, current)
  | Some c =>
    if decide (c = handle) then Some (time, current)
    else match fuel with
         | O => None
         | S fuel' =>
           ch ← hp !! c;
           time_remaining_loop fuel' hp handle (wrap32 (time + delta ch)) (next ch)
         end
  end.

(** [sl_sleeptimer_get_timer_time_remaining]; [time] is the cell behind the
    output pointer ([None] for [NULL]), returned with its final content. *)
Definition sl_sleeptimer_get_timer_time_remaining (fuel : nat)
    (handle : option addr) (time : option Z) (s : state)
    : option (sl_status_t * option Z * state) :=
  match handle, time with
  | Some h, Some _ =>
    s1 ← update_first_timer_delta s;
    hh ← heap s1 !! h;
    '(t, current) ← time_remaining_loop fuel (heap s1) h (delta hh) (timer_head s1);
    if decide (current = Some h) then
      let elapsed := wrap32 (sleeptimer_hal_get_counter s1 - last_delta_update_count s1) in
      if t >? elapsed
      then Some (SL_STATUS_OK, Some (wrap32 (t - elapsed)), s1)
      else Some (SL_STATUS_OK, Some 0, s1)
    else Some (SL_STATUS_NOT_READY, Some t, s1)
  | _, _ => Some (SL_STATUS_NULL_POINTER, time, s)
  end.

(** The loop of [sl_sleeptimer_get_remaining_time_of_first_timer]; the sum
    is kept in a local and stored through the pointer on a match only. *)
Fixpoint first_timer_loop (fuel : nat)
    (hp : gmap addr sl_sleeptimer_timer_handle_t) (flags : Z)
    (time : Z) (current : option addr) : option (option Z) :=
  match current with
  | None => Some None
  | Some c =>
    ch ← hp !! c;
    let time' := wrap32 (time + delta ch) in
    if option_flags ch =? flags then Some (Some time')
    else match fuel with
         | O => None
         | S fuel' => first_timer_loop fuel' hp flags time' (next ch)
         end
  end.

(** [sl_sleeptimer_get_remaining_time_of_first_timer]; [time_remaining] is
    the previous content of the output cell.  No global is written. *)
Definition sl_sleeptimer_get_remaining_time_of_first_timer (fuel : nat)
    (flags : Z) (time_remaining : Z) (s : state)
    : option (sl_status_t * Z) :=
  r ← first_timer_loop fuel (heap s) flags 0 (timer_head s);
  match r with
  | Some t => Some (SL_STATUS_OK, t)
  | None => Some (SL_STATUS_EMPTY, time_remaining)
  end.

(** [sl_sleeptimer_get_tick_count] and [sl_sleeptimer_get_tick_count64] *)
Definition sl_sleeptimer_get_tick_count (s : state) : Z :=
  sleeptimer_hal_get_counter s.

Definition sl_sleeptimer_get_tick_count64 (s : state) : Z :=
  Z.lor (sleeptimer_hal_get_counter s) (Z.shiftl (overflow_counter s) 32).

Definition sl_sleeptimer_get_timer_frequency : Z :=
  sleeptimer_hal_get_timer_frequency.

(** ** Interrupt dispatch *)

(** The inner loop of the compare branch: among the timers whose cumulated
    deltas fit into [delta_tot_temp], keep the one of smallest [priority]
    (the first of them on a tie, the comparison being strict). *)
Fixpoint expired_scan (fuel : nat)
    (hp : gmap addr sl_sleeptimer_timer_handle_t)
    (delta_tot_temp : Z) (current : addr) (temp : option addr) : option addr :=
  match temp with
  | None => Some current
  | Some t =>
    th ← hp !! t;
    if delta_tot_temp >=? delta th then
      match fuel with
      | O => None
      | S fuel' =>
        ch ← hp !! current;
        let current' := if priority ch >? priority th then t else current in
        expired_scan fuel' hp (wrap32 (delta_tot_temp - delta th)) current' (next th)
      end
    else Some current
  end.

(** The outer loop of the compare branch,
    [while ((timer_head) && (delta_tot >= timer_head->delta))].  [fuel]
    bounds its iterations, [wfuel] the list walks inside one iteration.  The
    result carries the callbacks invoked, in order, and the final values of
    [delta_tot] and [current_cnt]. *)
Fixpoint dispatch_loop (fuel wfuel : nat) (delta_tot current_cnt : Z)
    (s : state) : option (list event * Z * Z * state) :=
  match timer_head s with
  | None => Some ([], delta_tot, current_cnt, s)
  | Some hd =>
    hh ← heap s !! hd;
    if delta_tot >=? delta hh then
      match fuel with
      | O => None
      | S fuel' =>
        let s1 := set_last_delta_update_count current_cnt s in
        current ← expired_scan wfuel (heap s1) delta_tot hd (Some hd);
        ch ← heap s1 !! current;
        let delta_tot1 := wrap32 (delta_tot - delta ch) in
        let s2 := set_heap (<[current := set_delta 0 ch]> (heap s1)) s1 in
        '(_, s3) ← delta_list_remove_timer wfuel current s2;
        ch3 ← heap s3 !! current;
        s4 ← (if timeout_periodic ch3 =? 0 then Some s3
              else delta_list_insert_timer wfuel current (timeout_periodic ch3) s3);
        '(tr, s5) ← invoke_callback current s4;
        let new_cnt := sleeptimer_hal_get_counter s5 in
        let delta_tot2 := wrap32 (delta_tot1 + (new_cnt - current_cnt)) in
        '(tr', dt, cc, s6) ← dispatch_loop fuel' wfuel delta_tot2 new_cnt s5;
        Some (tr ++ tr', dt, cc, s6)
      end
    else Some ([], delta_tot, current_cnt, s)
  end.

(** The overflow branch of [process_timer_irq]. *)
Definition process_overflow (s : state) : option state :=
  let timer_freq := sl_sleeptimer_get_timer_frequency in
  let s := set_overflow_tick_rest
             (wrap32 (overflow_tick_rest s + calculated_tick_rest s)) s in
  let s := if overflow_tick_rest s >=? timer_freq
           then set_overflow_tick_rest (wrap32 (overflow_tick_rest s - timer_freq))
                  (set_second_count (wrap32 (second_count s + 1)) s)
           else s in
  let s := set_second_count (wrap32 (second_count s + calculated_sec_count s)) s in
  let s := set_overflow_counter (wrap8 (overflow_counter s + 1)) s in
  s ← update_first_timer_delta s;
  set_comparator_for_next_timer s.

(** The compare branch of [process_timer_irq]. *)
Definition process_compare (fuel wfuel : nat) (s : state)
    : option (list event * state) :=
  let current_cnt := sleeptimer_hal_get_counter s in
  let delta_tot := wrap32 (current_cnt - last_delta_update_count s) in
  '(tr, delta_tot, current_cnt, s1) ← dispatch_loop fuel wfuel delta_tot current_cnt s;
  match timer_head s1 with
  | Some hd =>
    hh ← heap s1 !! hd;
    let s2 := set_heap (<[hd := set_delta (wrap32 (delta hh - delta_tot)) hh]> (heap s1)) s1 in
    let s3 := set_last_delta_update_count current_cnt s2 in
    s4 ← set_comparator_for_next_timer s3;
    Some (tr, s4)
  | None => Some (tr, sleeptimer_hal_disable_int SLEEPTIMER_EVENT_COMP s1)
  end.

(** [process_timer_irq] *)
Definition process_timer_irq (fuel wfuel : nat) (local_flag : Z) (s : state)
    : option (list event * state) :=
  s1 ← (if Z.land local_flag SLEEPTIMER_EVENT_OF =? 0 then Some s
        else process_overflow s);
  if Z.land local_flag SLEEPTIMER_EVENT_COMP =? 0 then Some ([], s1)
  else process_compare fuel wfuel s1.

(** ** Tick arithmetic *)

(** [sl_sleeptimer_ms_to_tick]: the product is formed in 32 bits. *)
Definition sl_sleeptimer_ms_to_tick (time_ms : Z) : Z :=
  wrap32 (wrap32 (time_ms * sleeptimer_hal_get_timer_frequency) / 1000 + 1).

(** [sl_sleeptimer_ms32_to_tick]: the product is formed in 64 bits; [tick]
    is the previous content of the output cell. *)
Definition sl_sleeptimer_ms32_to_tick (time_ms : Z) (tick : Z) (s : state)
    : sl_status_t * Z :=
  if time_ms <=? max_millisecond_conversion s then
    (SL_STATUS_OK,
     wrap32 (wrap64 (wrap64 (time_ms * sleeptimer_hal_get_timer_frequency) / 1000 + 1)))
  else (SL_STATUS_INVALID_PARAMETER, tick).

(** ** Wall clock *)

Definition TIME_UNIX_EPOCH : Z := 1970.
Definition TIME_NTP_EPOCH : Z := 1900.
Definition TIME_ZIGBEE_EPOCH : Z := 2000.
Definition TIME_NTP_UNIX_EPOCH_DIFF : Z := TIME_UNIX_EPOCH - TIME_NTP_EPOCH.
Definition TIME_ZIGBEE_UNIX_EPOCH_DIFF : Z := TIME_ZIGBEE_EPOCH - TIME_UNIX_EPOCH.
Definition TIME_DAY_COUNT_NTP_TO_UNIX_EPOCH : Z := TIME_NTP_UNIX_EPOCH_DIFF * 365 + 17.
Definition TIME_DAY_COUNT_ZIGBEE_TO_UNIX_EPOCH : Z := TIME_ZIGBEE_UNIX_EPOCH_DIFF * 365 + 7.
Definition TIME_SEC_PER_DAY : Z := 60 * 60 * 24.
Definition TIME_NTP_EPOCH_OFFSET_SEC : Z := TIME_DAY_COUNT_NTP_TO_UNIX_EPOCH * TIME_SEC_PER_DAY.
Definition TIME_ZIGBEE_EPOCH_OFFSET_SEC : Z := TIME_DAY_COUNT_ZIGBEE_TO_UNIX_EPOCH * TIME_SEC_PER_DAY.
Definition TIME_DAY_PER_YEAR : Z := 365.
Definition TIME_SEC_PER_YEAR : Z := TIME_SEC_PER_DAY * TIME_DAY_PER_YEAR.
Definition TIME_UNIX_TIMESTAMP_MAX : Z := 2147483647.
Definition TIME_UNIX_YEAR_MAX : Z := 2038 - TIME_NTP_EPOCH.

(** [TIME_LEAP_DAYS_UP_TO_YEAR(year)] on an operand promoted to [int]: the
    division truncates towards zero. *)
Definition TIME_LEAP_DAYS_UP_TO_YEAR (year : Z) : Z := Z.quot (year - 3) 4 + 1.

Inductive sl_sleeptimer_time_format_t : Type :=
| TIME_FORMAT_UNIX
| TIME_FORMAT_NTP
| TIME_FORMAT_ZIGBEE_CLUSTER.

(** Modelled from the spec: the calendar date of [sl_sleeptimer.h]
    (section 4.4: year offset from 1900, month counted from 0, [time_zone]
    a signed number of seconds); the month constants are those of
    [sl_sleeptimer_month_t]. *)
Record sl_sleeptimer_date_t : Type := mk_date {
  sec : Z;
  min : Z;
  hour : Z;
  month_day : Z;
  month : Z;
  year : Z;
  day_of_week : Z;
  day_of_year : Z;
  time_zone : Z
}.

Definition MONTH_JANUARY : Z := 0.
Definition MONTH_DECEMBER : Z := 11.

Definition days_in_month_table : list (list Z) :=
  [ [31; 28; 31; 30; 31; 30; 31; 31; 30; 31; 30; 31];
    [31; 29; 31; 30; 31; 30; 31; 31; 30; 31; 30; 31] ].

Definition days_in_month_row (leap : bool) : list Z :=
  default [] (days_in_month_table !! (if leap then 1 else 0)%nat).

(** [days_in_month[leap][m]]; [None] when the column is outside the row. *)
Definition days_in_month (leap : bool) (m : Z) : option Z :=
  if m <? 0 then None else days_in_month_row leap !! Z.to_nat m.

(** [is_leap_year] *)
Definition is_leap_year (y : Z) : bool :=
  (y mod 4 =? 0) && (negb (y mod 100 =? 0) || (y mod 400 =? 0)).

(** [compute_day_of_week] *)
Definition compute_day_of_week (day : Z) : Z := wrap32 (day + 4) mod 7.

(** [is_valid_time]; [time] is unsigned, [time_zone] signed. *)
Definition is_valid_time (time : Z) (format : sl_sleeptimer_time_format_t)
    (tz : Z) : bool :=
  let valid_time :=
    ((tz <? 0) && (time >? wrap32 (Z.abs tz)))
    || ((tz >=? 0) && (time <=? wrap32 (UINT32_MAX - tz))) in
  match format with
  | TIME_FORMAT_UNIX =>
    if time >? TIME_UNIX_TIMESTAMP_MAX then false else valid_time
  | TIME_FORMAT_NTP =>
    if time >=? TIME_NTP_EPOCH_OFFSET_SEC then valid_time && true else false
  | TIME_FORMAT_ZIGBEE_CLUSTER =>
    if time <=? wrap32 (TIME_UNIX_TIMESTAMP_MAX - TIME_ZIGBEE_EPOCH_OFFSET_SEC)
    then valid_time && true else false
  end.

(** [is_valid_date]; the table is read only once the month passed its
    range test, as the short-circuit of the source has it. *)
Definition is_valid_date (date : option sl_sleeptimer_date_t) : bool :=
  match date with
  | None => false
  | Some d =>
    if (year d >? TIME_UNIX_YEAR_MAX) || (month d >? MONTH_DECEMBER) then false
    else
      match days_in_month (is_leap_year (year d)) (month d) with
      | None => false
      | Some dim =>
        if (month_day d =? 0) || (month_day d >? dim)
           || (hour d >? 23) || (min d >? 59) || (sec d >? 59)
        then false
        else if year d =? TIME_UNIX_YEAR_MAX then
          if month d >? MONTH_JANUARY then false
          else if month_day d >? 19 then false
          else if hour d >? 3 then false
          else if min d >? 14 then false
          else if sec d >? 7 then false
          else true
        else true
      end
  end.

(** [sl_sleeptimer_get_time] *)
Definition sl_sleeptimer_get_time (s : state) : Z :=
  let cnt := sleeptimer_hal_get_counter s in
  let freq := sl_sleeptimer_get_timer_frequency in
  let time := wrap32 (second_count s + cnt / freq) in
  if wrap32 (cnt mod freq + overflow_tick_rest s) >=? freq
  then wrap32 (time + 1) else time.

(** [sl_sleeptimer_set_time]; on the late refusal the two stores before the
    test have already happened. *)
Definition sl_sleeptimer_set_time (time : Z) (s : state) : sl_status_t * state :=
  if negb (is_valid_time time TIME_FORMAT_UNIX 0) then
    (SL_STATUS_INVALID_PARAMETER, s)
  else
    let freq := sl_sleeptimer_get_timer_frequency in
    let cnt := sleeptimer_hal_get_counter s in
    let s := set_second_count time s in
    let s := set_overflow_tick_rest 0 s in
    let counter_sec := cnt / freq in
    if second_count s >=? counter_sec then
      (SL_STATUS_OK, set_second_count (wrap32 (second_count s - counter_sec)) s)
    else (SL_STATUS_INVALID_PARAMETER, s).

(** The month loop of [sl_sleeptimer_convert_time_to_date], walking the row
    of the table from column [current_month] on; running off the row is a
    read outside the table. *)
Fixpoint month_loop (row : list Z) (time current_month : Z) : option (Z * Z) :=
  match row with
  | [] => None
  | dim :: row' =>
    if time >=? dim
    then month_loop row' (wrap32 (time - dim)) (wrap8 (current_month + 1))
    else Some (time, current_month)
  end.

(** [sl_sleeptimer_convert_time_to_date]; [date] is the previous content of
    the output structure. *)
Definition sl_sleeptimer_convert_time_to_date (time : Z) (tz : Z)
    (date : sl_sleeptimer_date_t) : option (sl_status_t * sl_sleeptimer_date_t) :=
  if negb (is_valid_time time TIME_FORMAT_UNIX tz) then
    Some (SL_STATUS_INVALID_PARAMETER, date)
  else
    let d_sec := wrap8 (time mod 60) in
    let time := time / 60 in
    let d_min := wrap8 (time mod 60) in
    let time := time / 60 in
    let d_hour := wrap8 (time mod 24) in
    let time := time / 24 in
    let d_day_of_week := compute_day_of_week time in
    let full_year := wrap8 (time / TIME_DAY_PER_YEAR) in
    let '(full_year, leap_day) :=
      if full_year >? 2 then
        let leap_day := wrap8 (TIME_LEAP_DAYS_UP_TO_YEAR full_year) in
        let full_year := wrap8 (wrap32 (time - leap_day) / TIME_DAY_PER_YEAR) in
        let leap_day := wrap8 (TIME_LEAP_DAYS_UP_TO_YEAR full_year) in
        (full_year, leap_day)
      else (full_year, 0) in
    let d_year := wrap16 (TIME_NTP_UNIX_EPOCH_DIFF + full_year) in
    let leap_year_flag := is_leap_year d_year in
    let time := wrap32 (wrap32 (time - leap_day) - wrap32 (TIME_DAY_PER_YEAR * full_year)) in
    let d_day_of_year := wrap16 (time + 1) in
    '(time, current_month) ← month_loop (days_in_month_row leap_year_flag) time 0;
    Some (SL_STATUS_OK,
          mk_date d_sec d_min d_hour (wrap8 (time + 1)) current_month d_year
                  d_day_of_week d_day_of_year tz).

(** The [for] loop of [sl_sleeptimer_convert_date_to_time]: add the lengths
    of the months before [month] to the 16-bit [month_days]. *)
Fixpoint add_month_days (row : list Z) (n : nat) (month_days : Z) : option Z :=
  match n with
  | O => Some month_days
  | S n' =>
    match row with
    | [] => None
    | dim :: row' => add_month_days row' n' (wrap16 (month_days + dim))
    end
  end.

(** [sl_sleeptimer_convert_date_to_time]; [time] is the previous content of
    the output cell. *)
Definition sl_sleeptimer_convert_date_to_time (date : option sl_sleeptimer_date_t)
    (time : Z) : option (sl_status_t * Z) :=
  match date with
  | Some d =>
    if negb (is_valid_date date) then Some (SL_STATUS_INVALID_PARAMETER, time)
    else
      let full_year := wrap8 (wrap32 (year d - TIME_NTP_UNIX_EPOCH_DIFF)) in
      let mon := wrap8 (month d) in
      let time := wrap32 (full_year * TIME_SEC_PER_YEAR) in
      let month_days :=
        if full_year >? 2 then wrap8 (TIME_LEAP_DAYS_UP_TO_YEAR full_year) else 0 in
      let leap_year_flag := is_leap_year (year d) in
      month_days ← add_month_days (days_in_month_row leap_year_flag)
                                  (Z.to_nat mon) month_days;
      let month_days := wrap16 (month_days + (month_day d - 1)) in
      let time := wrap32 (time + wrap32 (month_days * TIME_SEC_PER_DAY)) in
      let time := wrap32 (time + (3600 * hour d + 60 * min d + sec d)) in
      let time := wrap32 (time + time_zone d) in
      Some (SL_STATUS_OK, time)
  | None => Some (SL_STATUS_INVALID_PARAMETER, time)
  end.

(** [sl_sleeptimer_convert_unix_time_to_ntp]; the last argument is the
    previous content of the output cell. *)
Definition sl_sleeptimer_convert_unix_time_to_ntp (time : Z) (ntp_time : Z)
    : sl_status_t * Z :=
  let temp_ntp_time := wrap32 (time + TIME_NTP_EPOCH_OFFSET_SEC) in
  if negb (is_valid_time temp_ntp_time TIME_FORMAT_NTP 0)
  then (SL_STATUS_INVALID_PARAMETER, ntp_time)
  else (SL_STATUS_OK, temp_ntp_time).

(** [sl_sleeptimer_convert_ntp_time_to_unix] *)
Definition sl_sleeptimer_convert_ntp_time_to_unix (ntp_time : Z) (time : Z)
    : sl_status_t * Z :=
  let temp_time := wrap32 (ntp_time - TIME_NTP_EPOCH_OFFSET_SEC) in
  if negb (is_valid_time temp_time TIME_FORMAT_UNIX 0)
  then (SL_STATUS_INVALID_PARAMETER, time)
  else (SL_STATUS_OK, temp_time).

(** [sl_sleeptimer_convert_unix_time_to_zigbee] *)
Definition sl_sleeptimer_convert_unix_time_to_zigbee (time : Z) (zigbee_time : Z)
    : sl_status_t * Z :=
  let temp_zigbee_time := wrap32 (time - TIME_ZIGBEE_EPOCH_OFFSET_SEC) in
  if negb (is_valid_time temp_zigbee_time TIME_FORMAT_ZIGBEE_CLUSTER 0)
  then (SL_STATUS_INVALID_PARAMETER, zigbee_time)
  else (SL_STATUS_OK, temp_zigbee_time).

(** [sl_sleeptimer_convert_zigbee_time_to_unix] *)
Definition sl_sleeptimer_convert_zigbee_time_to_unix (zigbee_time : Z) (time : Z)
    : sl_status_t * Z :=
  let temp_time := wrap32 (zigbee_time + TIME_ZIGBEE_EPOCH_OFFSET_SEC) in
  if negb (is_valid_time temp_time TIME_FORMAT_UNIX 0)
  then (SL_STATUS_INVALID_PARAMETER, time)
  else (SL_STATUS_OK, temp_time).

End Sleeptimer.

(** * Verification *)

(** ** Machine arithmetic *)

Lemma wrap32_range z : 0 <= wrap32 z < 2 ^ 32.
Proof. unfold wrap32. apply Z.mod_pos_bound. lia. Qed.

Lemma wrap32_small z : 0 <= z < 2 ^ 32 -> wrap32 z = z.
Proof. intros. unfold wrap32. apply Z.mod_small. lia. Qed.

Lemma wrap32_idemp z : wrap32 (wrap32 z) = wrap32 z.
Proof. apply wrap32_small, wrap32_range. Qed.

Lemma wrap32_add_l a b : wrap32 (wrap32 a + b) = wrap32 (a + b).
Proof. unfold wrap32. apply Zplus_mod_idemp_l. Qed.

Lemma wrap32_add_r a b : wrap32 (a + wrap32 b) = wrap32 (a + b).
Proof. unfold wrap32. apply Zplus_mod_idemp_r. Qed.

Lemma wrap32_sub_l a b : wrap32 (wrap32 a - b) = wrap32 (a - b).
Proof. unfold wrap32. apply Zminus_mod_idemp_l. Qed.

Lemma wrap32_sub_r a b : wrap32 (a - wrap32 b) = wrap32 (a - b).
Proof. unfold wrap32. apply Zminus_mod_idemp_r. Qed.

(** ** The delta list as a chain through the store *)

(** [lseg hp p l q]: following [next] from pointer [p] visits exactly the
    handles [l], in order, and arrives at pointer [q]. *)
Fixpoint lseg (hp : gmap addr sl_sleeptimer_timer_handle_t)
    (p : option addr) (l : list addr) (q : option addr) : Prop :=
  match l with
  | [] => p = q
  | a :: l' => p = Some a /\ exists h, hp !! a = Some h /\ lseg hp (next h) l' q
  end.

(** Invariant 1 of the spec: a chain from the head that ends in [NULL]. *)
Definition chain hp (p : option addr) (l : list addr) : Prop := lseg hp p l None.

Definition delta_at (hp : gmap addr sl_sleeptimer_timer_handle_t) (a : addr) : Z :=
  from_option delta 0 (hp !! a).

Definition priority_at (hp : gmap addr sl_sleeptimer_timer_handle_t) (a : addr) : Z :=
  from_option priority 0 (hp !! a).

(** A well-formed delta list: the handles [l] chained from [timer_head],
    every [delta] a 32-bit value. *)
Definition delta_list (s : state) (l : list addr) : Prop :=
  chain (heap s) (timer_head s) l /\
  Forall (fun a => is_u32 (delta_at (heap s) a)) l.

(** Sum of the deltas from the head of [l] through [a]. *)
Fixpoint cum (d : addr -> Z) (a : addr) (l : list addr) : Z :=
  match l with
  | [] => 0
  | b :: l' => d b + (if decide (b = a) then 0 else cum d a l')
  end.

Definition head_ptr (l : list addr) : option addr := head l.

Lemma lseg_app hp p l1 l2 q :
  lseg hp p (l1 ++ l2) q <-> exists m, lseg hp p l1 m /\ lseg hp m l2 q.
Proof.
  revert p. induction l1 as [|a l1 IH]; intros p; simpl.
  - split; [intros H; exists p; done | intros (m & -> & H); done].
  - split.
    + intros (-> & h & Hh & Hl). apply IH in Hl as (m & H1 & H2).
      exists m. split; [|done]. split; [done|]. exists h. done.
    + intros (m & (-> & h & Hh & H1) & H2). split; [done|].
      exists h. split; [done|]. apply IH. exists m. done.
Qed.

Lemma lseg_head hp p l q : lseg hp p l q -> l <> [] -> p = head_ptr l.
Proof. destruct l; [done|]. intros (-> & _) _. done. Qed.

Lemma chain_head hp p l : chain hp p l -> p = head_ptr l.
Proof. destruct l; [done|]. intros (-> & _). done. Qed.

(** Only the [next] fields of the handles on the segment matter. *)
Lemma lseg_frame hp hp' p l q :
  (forall a, a ∈ l -> next <$> hp' !! a = next <$> hp !! a) ->
  lseg hp p l q -> lseg hp' p l q.
Proof.
  revert p. induction l as [|a l IH]; intros p Hf; simpl; [done|].
  intros (-> & h & Hh & Hl). split; [done|].
  pose proof (Hf a ltac:(left)) as Ha. rewrite Hh in Ha. simpl in Ha.
  destruct (hp' !! a) as [h'|] eqn:Hh'; simpl in Ha; [|done].
  exists h'. split; [done|]. injection Ha as ->.
  apply IH; [|done]. intros b Hb. apply Hf. by right.
Qed.

Lemma chain_functional hp p l1 l2 : chain hp p l1 -> chain hp p l2 -> l1 = l2.
Proof.
  unfold chain. revert p l2. induction l1 as [|a l1 IH]; intros p [|b l2]; simpl.
  - done.
  - intros -> (? & _). done.
  - intros (-> & _) ?. done.
  - intros (-> & h & Hh & H1) (Heq & h' & Hh' & H2). injection Heq as <-.
    rewrite Hh in Hh'. injection Hh' as <-. f_equal. eauto.
Qed.

Lemma chain_NoDup hp p l : chain hp p l -> NoDup l.
Proof.
  unfold chain. revert p. induction l as [|a l IH]; intros p; simpl.
  - constructor.
  - intros (-> & h & Hh & Hl). constructor; [|eauto].
    intros Hin. apply list_elem_of_split in Hin as (l1 & l2 & ->).
    pose proof Hl as Hl'. apply lseg_app in Hl' as (m & _ & H2).
    simpl in H2. destruct H2 as (-> & h' & Hh' & H2).
    rewrite Hh in Hh'. injection Hh' as <-.
    pose proof (chain_functional _ _ _ _ Hl H2) as Heq.
    apply (f_equal length) in Heq. rewrite length_app in Heq. simpl in Heq. lia.
Qed.

Lemma lseg_lookup hp p l q a : lseg hp p l q -> a ∈ l -> is_Some (hp !! a).
Proof.
  revert p. induction l as [|b l IH]; intros p; simpl; [intros _ H; inversion H|].
  intros (-> & h & Hh & Hl) Hin. apply elem_of_cons in Hin as [->|Hin]; eauto.
Qed.

(** ** The read-only walks *)

Lemma is_timer_running_loop_spec hp handle l : forall p fuel,
  chain hp p l -> (length l <= fuel)%nat ->
  is_timer_running_loop fuel hp handle p = Some (bool_decide (handle ∈ l)).
Proof.
  unfold chain. induction l as [|a l IH]; intros p fuel Hc Hf; simpl in *.
  - subst p. destruct fuel; done.
  - destruct Hc as (-> & h & Hh & Hl).
    destruct fuel as [|fuel]; [lia|]. simpl.
    destruct (decide (a = handle)) as [->|Hne].
    + rewrite bool_decide_eq_true_2; [done|left].
    + rewrite Hh. simpl. rewrite (IH _ fuel Hl) by lia.
      f_equal. apply bool_decide_ext. rewrite elem_of_cons.
      split; [auto | intros [?|?]; [congruence | done]].
Qed.

(** Where the search of [delta_list_remove_timer] stops. *)
Definition last_or (prev : option addr) (l : list addr) : option addr :=
  match last l with Some x => Some x | None => prev end.

Lemma last_or_cons prev a l : last_or prev (a :: l) = last_or (Some a) l.
Proof.
  unfold last_or. destruct l as [|b l]; [done|].
  rewrite last_cons. destruct (last (b :: l)) eqn:E; [done|].
  apply last_None in E. done.
Qed.

Lemma remove_walk_found hp handle l1 l2 : forall p prev fuel,
  chain hp p (l1 ++ handle :: l2) -> handle ∉ l1 -> (length l1 <= fuel)%nat ->
  remove_walk fuel hp handle prev p = Some (last_or prev l1, Some handle).
Proof.
  unfold chain. induction l1 as [|a l1 IH]; intros p prev fuel Hc Hn Hf; simpl in *.
  - destruct Hc as (-> & _). destruct fuel; simpl; rewrite decide_True; done.
  - destruct Hc as (-> & h & Hh & Hl).
    apply not_elem_of_cons in Hn as [Hne Hn].
    destruct fuel as [|fuel]; [lia|]. simpl.
    rewrite decide_False by done. rewrite Hh. simpl.
    rewrite (IH _ (Some a) fuel Hl Hn) by lia. by rewrite last_or_cons.
Qed.

Lemma remove_walk_missing hp handle l : forall p prev fuel,
  chain hp p l -> handle ∉ l -> (length l <= fuel)%nat ->
  remove_walk fuel hp handle prev p = Some (last_or prev l, None).
Proof.
  unfold chain. induction l as [|a l IH]; intros p prev fuel Hc Hn Hf; simpl in *.
  - subst p. destruct fuel; done.
  - destruct Hc as (-> & h & Hh & Hl).
    apply not_elem_of_cons in Hn as [Hne Hn].
    destruct fuel as [|fuel]; [lia|]. simpl.
    rewrite decide_False by done. rewrite Hh. simpl.
    rewrite (IH _ (Some a) fuel Hl Hn) by lia. by rewrite last_or_cons.
Qed.

(** The accumulator of [sl_sleeptimer_get_timer_time_remaining] after the
    handles [l] were added to it. *)
Definition acc_deltas hp (time : Z) (l : list addr) : Z :=
  foldl (fun acc a => wrap32 (acc + delta_at hp a)) time l.

Lemma time_remaining_loop_found hp handle l1 l2 : forall p time fuel,
  chain hp p (l1 ++ handle :: l2) -> handle ∉ l1 -> (length l1 <= fuel)%nat ->
  time_remaining_loop fuel hp handle time p = Some (acc_deltas hp time l1, Some handle).
Proof.
  unfold chain. induction l1 as [|a l1 IH]; intros p time fuel Hc Hn Hf; simpl in *.
  - destruct Hc as (-> & _). destruct fuel; simpl; rewrite decide_True; done.
  - destruct Hc as (-> & h & Hh & Hl).
    apply not_elem_of_cons in Hn as [Hne Hn].
    destruct fuel as [|fuel]; [lia|]. simpl.
    rewrite decide_False by done. rewrite Hh. simpl.
    rewrite (IH _ _ fuel Hl Hn) by lia.
    replace (delta h) with (delta_at hp a) by (unfold delta_at; by rewrite Hh). done.
Qed.

Lemma time_remaining_loop_missing hp handle l : forall p time fuel,
  chain hp p l -> handle ∉ l -> (length l <= fuel)%nat ->
  time_remaining_loop fuel hp handle time p = Some (acc_deltas hp time l, None).
Proof.
  unfold chain. induction l as [|a l IH]; intros p time fuel Hc Hn Hf; simpl in *.
  - subst p. destruct fuel; done.
  - destruct Hc as (-> & h & Hh & Hl).
    apply not_elem_of_cons in Hn as [Hne Hn].
    destruct fuel as [|fuel]; [lia|]. simpl.
    rewrite decide_False by done. rewrite Hh. simpl.
    rewrite (IH _ _ fuel Hl Hn) by lia.
    replace (delta h) with (delta_at hp a) by (unfold delta_at; by rewrite Hh). done.
Qed.

Definition sum_deltas hp (l : list addr) : Z :=
  foldr (fun a acc => delta_at hp a + acc) 0 l.

Lemma acc_deltas_wrap hp l : forall time,
  wrap32 (acc_deltas hp time l) = wrap32 (time + sum_deltas hp l).
Proof.
  unfold acc_deltas. induction l as [|a l IH]; intros time; simpl.
  - f_equal. lia.
  - rewrite IH. rewrite wrap32_add_l. f_equal. lia.
Qed.

Lemma acc_deltas_u32 hp l time :
  is_u32 time -> acc_deltas hp time l = wrap32 (time + sum_deltas hp l).
Proof.
  intros Ht. rewrite <- acc_deltas_wrap. symmetry. apply wrap32_small.
  unfold acc_deltas. destruct l as [|a l] using rev_ind; simpl; [done|].
  rewrite foldl_app. simpl. apply wrap32_range.
Qed.
(** ** Removal *)

(** [s'] differs from [s] in the store and the head pointer at most. *)
Definition same_globals (s s' : state) : Prop :=
  s' = set_timer_head (timer_head s') (set_heap (heap s') s).


Lemma same_globals_trans s1 s2 s3 :
  same_globals s1 s2 -> same_globals s2 s3 -> same_globals s1 s3.
Proof. unfold same_globals. intros -> ->. by destruct s1. Qed.

Lemma lseg_snoc hp p l a q :
  lseg hp p (l ++ [a]) q <->
  lseg hp p l (Some a) /\ exists h, hp !! a = Some h /\ next h = q.
Proof.
  rewrite lseg_app. simpl. split.
  - intros (m & H1 & -> & h & Hh & Hq). eauto.
  - intros (H1 & h & Hh & Hq). exists (Some a). eauto.
Qed.

Lemma delta_list_remove_timer_spec fuel s l1 X l2 :
  chain (heap s) (timer_head s) (l1 ++ X :: l2) ->
  (length l1 <= fuel)%nat ->
  exists s',
    delta_list_remove_timer fuel X s = Some (SL_STATUS_OK, s') /\
    chain (heap s') (timer_head s') (l1 ++ l2) /\
    same_globals s s' /\
    (forall a, attrs <$> heap s' !! a = attrs <$> heap s !! a) /\
    (forall a, head l2 <> Some a -> delta_at (heap s') a = delta_at (heap s) a) /\
    (forall n, head l2 = Some n ->
       delta_at (heap s') n = wrap32 (delta_at (heap s) n + delta_at (heap s) X)) /\
    heap s' !! X = heap s !! X.
Proof.
  intros Hc Hf. pose proof (chain_NoDup _ _ _ Hc) as Hnd.
  apply NoDup_app in Hnd as (Hnd1 & Hdisj & Hnd2).
  apply NoDup_cons in Hnd2 as (HX2 & Hnd2).
  assert (HX1 : X ∉ l1) by (intros H; apply (Hdisj _ H); left).
  unfold delta_list_remove_timer.
  rewrite (remove_walk_found _ _ _ _ _ _ _ Hc HX1 Hf). simpl.
  rewrite decide_True by done.
  unfold chain in Hc. apply lseg_app in Hc as (m & Hc1 & Hc2).
  simpl in Hc2. destruct Hc2 as (-> & hh & HhX & Hc2).
  rewrite HhX. simpl.
  destruct l1 as [|p l1 _] using rev_ind.
  - (* the head is removed *)
    simpl in Hc1. unfold last_or. simpl. rewrite HhX. simpl.
    destruct l2 as [|n l2]; simpl in Hc2.
    + rewrite Hc2. eexists. split; [done|]. simpl.
      split; [done|]. split; [by destruct s|]. repeat split; done.
    + destruct Hc2 as (Hn & nh & Hnh & Hc2). rewrite Hn. simpl. rewrite Hnh. simpl.
      eexists. split; [done|]. simpl.
      assert (HnX : n <> X) by (intros ->; apply HX2; left).
      apply NoDup_cons in Hnd2 as (Hn2 & _).
      split; [|split; [by destruct s|repeat split]].
      * split; [done|]. eexists. rewrite lookup_insert_eq. split; [done|]. simpl.
        eapply lseg_frame; [|exact Hc2]. intros a Ha.
        rewrite lookup_insert_ne; [done|]. intros ->. done.
      * intros a. destruct (decide (a = n)) as [->|Hne].
        -- rewrite lookup_insert_eq, Hnh. done.
        -- by rewrite lookup_insert_ne.
      * intros a Ha. unfold delta_at. rewrite lookup_insert_ne; [done|]. congruence.
      * intros n' [= <-]. unfold delta_at. rewrite lookup_insert_eq, Hnh, HhX. done.
      * by rewrite lookup_insert_ne.
  - (* the handle has a predecessor [p] *)
    apply lseg_snoc in Hc1 as (Hc1 & ph & Hph & Hpn).
    unfold last_or. rewrite last_snoc. rewrite Hph. simpl.
    assert (HpX : p <> X) by (intros ->; apply HX1; apply elem_of_app; right; left).
    rewrite lookup_insert_ne by done. rewrite HhX. simpl.
    apply NoDup_app in Hnd1 as (Hnd1 & Hp1 & _).
    assert (Hpl1 : p ∉ l1) by (intros H; apply (Hp1 _ H); left).
    assert (Hpl2 : p ∉ l2).
    { intros H. apply (Hdisj p); [apply elem_of_app; right; left | by right]. }
    destruct l2 as [|n l2]; simpl in Hc2.
    + rewrite Hc2. eexists. split; [done|]. simpl.
      split; [|split; [by destruct s|repeat split]].
      * rewrite app_nil_r. apply lseg_snoc. split.
        -- eapply lseg_frame; [|exact Hc1]. intros a Ha.
           rewrite lookup_insert_ne; [done|]. intros ->. done.
        -- eexists. rewrite lookup_insert_eq. done.
      * intros a. destruct (decide (a = p)) as [->|Hne].
        -- rewrite lookup_insert_eq, Hph. done.
        -- by rewrite lookup_insert_ne.
      * intros a _. unfold delta_at. destruct (decide (a = p)) as [->|Hne].
        -- rewrite lookup_insert_eq, Hph. done.
        -- by rewrite lookup_insert_ne.
      * intros n' Hn'. discriminate Hn'.
      * by rewrite lookup_insert_ne.
    + destruct Hc2 as (Hn & nh & Hnh & Hc2). rewrite Hn. simpl.
      assert (Hnp : n <> p) by (intros ->; apply Hpl2; left).
      assert (HnX : n <> X) by (intros ->; apply HX2; left).
      apply NoDup_cons in Hnd2 as (Hn2 & _).
      rewrite lookup_insert_ne by done. rewrite Hnh. simpl.
      eexists. split; [done|]. simpl.
      split; [|split; [by destruct s|repeat split]].
      * unfold chain. rewrite <- app_assoc. apply lseg_app. exists (Some p). split.
        -- eapply lseg_frame; [|exact Hc1]. intros a Ha.
           rewrite !lookup_insert_ne; [done| |]; intros E; rewrite <- E in Ha; [done|].
           apply (Hdisj n); [apply elem_of_app; by left | right; left].
        -- simpl. split; [done|]. eexists. rewrite lookup_insert_ne by done.
           rewrite lookup_insert_eq. split; [done|]. simpl.
           split; [done|]. eexists. rewrite lookup_insert_eq. split; [done|]. simpl.
           eapply lseg_frame; [|exact Hc2]. intros a Ha.
           rewrite !lookup_insert_ne; [done| |]; intros E; rewrite <- E in Ha; [|done].
           apply Hpl2. by right.
      * intros a. destruct (decide (a = n)) as [->|Hne].
        -- rewrite lookup_insert_eq, Hnh. done.
        -- rewrite lookup_insert_ne by done. destruct (decide (a = p)) as [->|Hne'].
           ++ rewrite lookup_insert_eq, Hph. done.
           ++ by rewrite lookup_insert_ne.
      * intros a Ha. unfold delta_at. rewrite lookup_insert_ne by congruence.
        destruct (decide (a = p)) as [->|Hne'].
        -- rewrite lookup_insert_eq, Hph. done.
        -- by rewrite lookup_insert_ne.
      * intros n' [= <-]. unfold delta_at. rewrite lookup_insert_eq, Hnh, HhX. done.
      * by rewrite !lookup_insert_ne.
Qed.

Lemma delta_list_remove_timer_missing fuel s l X :
  chain (heap s) (timer_head s) l -> X ∉ l -> (length l <= fuel)%nat ->
  delta_list_remove_timer fuel X s = Some (SL_STATUS_INVALID_STATE, s).
Proof.
  intros Hc HX Hf. unfold delta_list_remove_timer.
  rewrite (remove_walk_missing _ _ _ _ _ _ Hc HX Hf). done.
Qed.
(** ** Insertion *)

Lemma insert_continue_u32 local hh ch :
  is_u32 local -> is_u32 (delta ch) ->
  insert_continue local hh ch = (delta ch <=? local).
Proof.
  unfold insert_continue, is_u32, wrap32. intros Hl Hd.
  destruct (Z.leb_spec (delta ch) local) as [Hle|Hgt].
  - replace (local >=? delta ch) with true by (symmetry; rewrite Z.geb_leb; lia). done.
  - replace (local >=? delta ch) with false by (symmetry; rewrite Z.geb_leb; lia).
    replace (delta ch =? 0) with false by lia. simpl.
    replace ((local - delta ch) mod 2 ^ 32) with (local - delta ch + 2 ^ 32).
    + replace (local - delta ch + 2 ^ 32 =? 0) with false by lia. done.
    + apply Z.mod_unique with (-1); lia.
Qed.

Lemma set_delta_set_delta d1 d2 h : set_delta d1 (set_delta d2 h) = set_delta d1 h.
Proof. done. Qed.

Lemma set_delta_id h : set_delta (delta h) h = h.
Proof. by destruct h. Qed.

Lemma delta_at_insert_ne hp a b h : a <> b -> delta_at (<[a := h]> hp) b = delta_at hp b.
Proof. intros. unfold delta_at. by rewrite lookup_insert_ne. Qed.

Lemma delta_at_insert_eq hp a h : delta_at (<[a := h]> hp) a = delta h.
Proof. unfold delta_at. by rewrite lookup_insert_eq. Qed.

Lemma sum_deltas_ext hp hp' l :
  (forall a, a ∈ l -> delta_at hp' a = delta_at hp a) ->
  sum_deltas hp' l = sum_deltas hp l.
Proof.
  induction l as [|a l IH]; intros H; simpl; [done|].
  rewrite H by left. rewrite IH; [done|]. intros b Hb. apply H. by right.
Qed.

Lemma sum_deltas_app hp l1 l2 :
  sum_deltas hp (l1 ++ l2) = sum_deltas hp l1 + sum_deltas hp l2.
Proof. induction l1 as [|a l1 IH]; simpl; lia. Qed.

Lemma insert_walk_spec handle l : forall hp hh local prev p fuel,
  chain hp p l -> handle ∉ l ->
  hp !! handle = Some hh -> delta hh = local -> is_u32 local ->
  Forall (fun a => is_u32 (delta_at hp a)) l ->
  (length l <= fuel)%nat ->
  exists l1 l2 local',
    l = l1 ++ l2 /\
    insert_walk fuel handle hp local prev p =
      Some (<[handle := set_delta local' hh]> hp, local', last_or prev l1, head l2) /\
    local' = local - sum_deltas hp l1 /\ 0 <= local' /\
    (forall c, head l2 = Some c -> local' < delta_at hp c).
Proof.
  unfold chain.
  induction l as [|a l IH]; intros hp hh local prev p fuel Hc Hn Hh Hd Hu Hall Hf;
    simpl in *.
  - subst p. exists [], [], local. simpl.
    rewrite <- Hd, set_delta_id, insert_id by done. unfold is_u32 in Hu.
    destruct fuel; repeat split; try done; lia.
  - destruct Hc as (-> & ah & Hah & Hl).
    apply not_elem_of_cons in Hn as [Hne Hn].
    apply Forall_cons in Hall as [Hua Hall].
    assert (Hda : delta_at hp a = delta ah) by (unfold delta_at; by rewrite Hah).
    rewrite Hda in Hua.
    destruct fuel as [|fuel]; [lia|]. simpl. rewrite Hah, Hh. simpl.
    rewrite insert_continue_u32 by done.
    destruct (Z.leb_spec (delta ah) local) as [Hle|Hgt].
    + set (local1 := wrap32 (local - delta ah)).
      assert (Hl1 : local1 = local - delta ah).
      { apply wrap32_small. unfold is_u32 in *. lia. }
      destruct (IH (<[handle := set_delta local1 hh]> hp) (set_delta local1 hh)
                  local1 (Some a) (next ah) fuel) as (l1 & l2 & local' & -> & Hw & Hl' & Hpos & Hlt).
      * eapply lseg_frame; [|exact Hl]. intros b Hb.
        rewrite lookup_insert_ne; [done|]. intros ->. done.
      * done.
      * by rewrite lookup_insert_eq.
      * done.
      * rewrite Hl1. unfold is_u32 in *. lia.
      * apply Forall_forall. intros b Hb.
        rewrite delta_at_insert_ne; [|intros ->; done].
        by apply (proj1 (Forall_forall _ _) Hall).
      * lia.
      * exists (a :: l1), l2, local'. split; [done|]. rewrite Hw.
        rewrite insert_insert_eq, set_delta_set_delta, last_or_cons.
        split; [done|]. split; [|split; [done|]].
        -- simpl. rewrite Hda. rewrite Hl'. rewrite Hl1.
           rewrite (sum_deltas_ext hp); [lia|]. intros b Hb.
           rewrite delta_at_insert_ne; [done|]. intros ->. apply Hn.
           apply elem_of_app. by left.
        -- intros c Hc. specialize (Hlt c Hc).
           rewrite delta_at_insert_ne in Hlt; [done|]. intros ->. apply Hn.
           apply elem_of_app. right. destruct l2; [done|]. injection Hc as ->. left.
    + exists [], (a :: l), local. simpl. subst local.
      rewrite set_delta_id, insert_id by done.
      unfold is_u32 in Hu. repeat split; try done; try lia.
      intros c [= <-]. lia.
Qed.
(** The store after [delta_list_insert_timer] put [handle] between the
    handles [l1] and [l2], with [local'] ticks left of its timeout. *)
Definition inserted_store (hp : gmap addr sl_sleeptimer_timer_handle_t)
    (handle : addr) (hh : sl_sleeptimer_timer_handle_t) (local' : Z)
    (l1 l2 : list addr) (a : addr) : option sl_sleeptimer_timer_handle_t :=
  if decide (a = handle) then Some (set_next (head l2) (set_delta local' hh))
  else if decide (head l2 = Some a)
       then (fun h => set_delta (delta h - local') h) <$> hp !! a
       else if decide (last l1 = Some a)
            then set_next (Some handle) <$> hp !! a
            else hp !! a.

Lemma chain_nil_inv hp l : chain hp None l -> l = [].
Proof. destruct l; [done|]. intros (? & _). done. Qed.

Lemma delta_list_insert_timer_lookup fuel s l handle hh timeout :
  delta_list s l -> handle ∉ l -> heap s !! handle = Some hh ->
  is_u32 timeout -> (length l <= fuel)%nat ->
  exists s' l1 l2 local',
    delta_list_insert_timer fuel handle timeout s = Some s' /\
    l = l1 ++ l2 /\
    local' = timeout - sum_deltas (heap s) l1 /\ 0 <= local' /\
    (forall c, head l2 = Some c -> local' < delta_at (heap s) c) /\
    timer_head s' = (if l1 is [] then Some handle else timer_head s) /\
    same_globals s s' /\
    forall a, heap s' !! a = inserted_store (heap s) handle hh local' l1 l2 a.
Proof.
  intros [Hc Hall] Hn Hh Hu Hf. unfold delta_list_insert_timer. rewrite Hh. simpl.
  destruct (timer_head s) as [hd|] eqn:Hhd.
  - set (hp0 := <[handle := set_delta timeout hh]> (heap s)).
    destruct (insert_walk_spec handle l hp0 (set_delta timeout hh) timeout None
                (Some hd) fuel) as (l1 & l2 & local' & -> & Hw & Hl' & Hpos & Hlt).
    + eapply lseg_frame; [|exact Hc]. intros b Hb. unfold hp0.
      rewrite lookup_insert_ne; [done|]. intros ->. done.
    + done.
    + unfold hp0. by rewrite lookup_insert_eq.
    + done.
    + done.
    + apply Forall_forall. intros b Hb. unfold hp0.
      rewrite delta_at_insert_ne; [|intros ->; done].
      by apply (proj1 (Forall_forall _ _) Hall).
    + done.
    + rewrite Hw. clear Hw. simpl. unfold hp0 in *. clear hp0.
      rewrite insert_insert_eq, set_delta_set_delta.
      assert (Hsum : sum_deltas (<[handle:=set_delta timeout hh]> (heap s)) l1
                     = sum_deltas (heap s) l1).
      { apply sum_deltas_ext. intros b Hb. apply delta_at_insert_ne.
        intros ->. apply Hn, elem_of_app. by left. }
      rewrite Hsum in Hl'. clear Hsum.
      assert (Hlt' : forall c, head l2 = Some c -> local' < delta_at (heap s) c).
      { intros c Hc2. specialize (Hlt c Hc2).
        rewrite delta_at_insert_ne in Hlt; [done|]. intros ->. apply Hn.
        apply elem_of_app. right. destruct l2; [done|]. injection Hc2 as ->. left. }
      clear Hlt.
      pose proof (chain_NoDup _ _ _ Hc) as Hnd.
      apply NoDup_app in Hnd as (Hnd1 & Hdisj & Hnd2).
      destruct l1 as [|p l1 _] using rev_ind.
      * (* the handle becomes the head *)
        unfold last_or. simpl. rewrite lookup_insert_eq. simpl.
        rewrite insert_insert_eq.
        destruct l2 as [|c l2]; [simpl in Hc; unfold chain in Hc; simpl in Hc; done|].
        simpl in Hn. apply not_elem_of_cons in Hn as [Hne Hn].
        simpl. rewrite lookup_insert_ne by done.
        destruct Hc as (_ & ch & Hch & _). rewrite Hch. simpl.
        eexists _, [], (c :: l2), local'. split; [done|]. simpl.
        repeat split; try done; try (by destruct s).
        -- intros a. unfold inserted_store. simpl.
           pose proof (Hlt' c eq_refl) as Hlt. unfold delta_at in Hlt.
           rewrite Hch in Hlt. simpl in Hlt.
           destruct (decide (a = handle)) as [->|Ha].
           ++ rewrite lookup_insert_ne by done. by rewrite lookup_insert_eq.
           ++ destruct (decide (Some c = Some a)) as [[= <-]|Hca].
              ** rewrite lookup_insert_eq, Hch. simpl. f_equal. f_equal.
                 apply wrap32_small.
                 apply Forall_cons in Hall as [Hu1 _]. unfold delta_at in Hu1.
                 rewrite Hch in Hu1. simpl in Hu1. unfold is_u32 in *. lia.
              ** rewrite !lookup_insert_ne by congruence. done.
      * (* the handle follows [p] *)
        unfold last_or. rewrite last_snoc.
        assert (Hph : p <> handle).
        { intros ->. apply Hn. apply elem_of_app. left. apply elem_of_app. right. left. }
        rewrite lookup_insert_ne by done.
        unfold chain in Hc. apply lseg_app in Hc as (m & Hc1 & Hc2).
        apply lseg_snoc in Hc1 as (Hc1 & ph & Hp & Hpn). rewrite Hp. simpl.
        rewrite lookup_insert_ne by done. rewrite lookup_insert_eq. simpl.
        apply NoDup_app in Hnd1 as (Hnd1 & Hp1 & _).
        destruct l2 as [|c l2].
        -- simpl. eexists _, (l1 ++ [p]), [], local'. split; [done|].
           repeat split; try done; try (by destruct s); try (by destruct l1).
           ++ intros a. simpl. unfold inserted_store. simpl. rewrite last_snoc.
              destruct (decide (a = handle)) as [->|Ha].
              ** by rewrite lookup_insert_eq.
              ** rewrite lookup_insert_ne by done.
                 destruct (decide (Some p = Some a)) as [[= <-]|Hpa].
                 --- rewrite lookup_insert_eq, Hp. done.
                 --- rewrite !lookup_insert_ne by congruence. done.
        -- assert (Hch : c <> handle).
           { intros ->. apply Hn. apply elem_of_app. right. left. }
           assert (Hcp : c <> p).
           { intros ->. apply (Hdisj p); [apply elem_of_app; right; left | left]. }
           simpl in Hc2. destruct Hc2 as (-> & ch & Hch' & Hc2).
           simpl. rewrite !lookup_insert_ne by done. rewrite Hch'. simpl.
           eexists _, (l1 ++ [p]), (c :: l2), local'. split; [done|].
           repeat split; try done; try (by destruct s); try (by destruct l1).
           ++ intros a. simpl. unfold inserted_store. simpl. rewrite last_snoc.
              pose proof (Hlt' c eq_refl) as Hlt. unfold delta_at in Hlt.
              rewrite Hch' in Hlt. simpl in Hlt.
              destruct (decide (a = handle)) as [->|Ha].
              ** rewrite lookup_insert_ne by done. by rewrite lookup_insert_eq.
              ** destruct (decide (Some c = Some a)) as [[= <-]|Hca].
                 --- rewrite lookup_insert_eq, Hch'. simpl. f_equal. f_equal.
                     apply wrap32_small.
                     apply Forall_app in Hall as [_ Hall].
                     apply Forall_cons in Hall as [Hu1 _]. unfold delta_at in Hu1.
                     rewrite Hch' in Hu1. simpl in Hu1. unfold is_u32 in *. lia.
                 --- rewrite lookup_insert_ne by congruence.
                     rewrite lookup_insert_ne by done.
                     destruct (decide (Some p = Some a)) as [[= <-]|Hpa].
                     +++ rewrite lookup_insert_eq, Hp. done.
                     +++ rewrite !lookup_insert_ne by congruence. done.
  - apply chain_nil_inv in Hc as ->.
    eexists _, [], [], timeout. split; [done|]. simpl.
    unfold is_u32 in Hu. repeat split; try done; try lia; try (by destruct s).
    + intros a. unfold inserted_store. simpl.
      destruct (decide (a = handle)) as [->|Ha].
      * by rewrite lookup_insert_eq.
      * by rewrite lookup_insert_ne.
Qed.
Lemma delta_list_insert_timer_spec fuel s l handle timeout :
  delta_list s l -> handle ∉ l -> is_Some (heap s !! handle) ->
  is_u32 timeout -> (length l <= fuel)%nat ->
  exists s' l1 l2,
    delta_list_insert_timer fuel handle timeout s = Some s' /\
    l = l1 ++ l2 /\
    delta_list s' (l1 ++ handle :: l2) /\
    same_globals s s' /\
    (forall a, attrs <$> heap s' !! a = attrs <$> heap s !! a) /\
    delta_at (heap s') handle = timeout - sum_deltas (heap s) l1 /\
    0 <= delta_at (heap s') handle /\
    (forall a, a <> handle -> head l2 <> Some a ->
       delta_at (heap s') a = delta_at (heap s) a) /\
    (forall c, head l2 = Some c ->
       delta_at (heap s') c = delta_at (heap s) c - delta_at (heap s') handle /\
       0 < delta_at (heap s') c).
Proof.
  intros Hdl Hn [hh Hh] Hu Hf.
  destruct (delta_list_insert_timer_lookup fuel s l handle hh timeout Hdl Hn Hh Hu Hf)
    as (s' & l1 & l2 & local' & Hins & -> & Hl' & Hpos & Hlt & Hhead & Hsg & Hlk).
  destruct Hdl as [Hc Hall].
  pose proof (chain_NoDup _ _ _ Hc) as Hnd.
  apply NoDup_app in Hnd as (Hnd1 & Hdisj & Hnd2).
  assert (Hn1 : handle ∉ l1) by (intros H; apply Hn, elem_of_app; by left).
  assert (Hn2 : handle ∉ l2) by (intros H; apply Hn, elem_of_app; by right).
  assert (Hdh : delta_at (heap s') handle = local').
  { unfold delta_at. rewrite Hlk. unfold inserted_store. by rewrite decide_True. }
  assert (Hsame : forall a, a <> handle -> head l2 <> Some a ->
            delta_at (heap s') a = delta_at (heap s) a).
  { intros a Ha Hhd. unfold delta_at. rewrite Hlk. unfold inserted_store.
    rewrite decide_False by done. rewrite decide_False by done.
    destruct (decide (last l1 = Some a)); [|done]. by destruct (heap s !! a). }
  assert (Hhd2 : forall c, head l2 = Some c ->
            delta_at (heap s') c = delta_at (heap s) c - local').
  { intros c Hc2. unfold delta_at. rewrite Hlk. unfold inserted_store.
    assert (c <> handle).
    { intros ->. apply Hn2. destruct l2; [done|]. injection Hc2 as ->. left. }
    rewrite decide_False by done. rewrite decide_True by done.
    assert (Hin : c ∈ l1 ++ l2).
    { apply elem_of_app. right. destruct l2; [done|]. injection Hc2 as ->. left. }
    destruct (lseg_lookup _ _ _ _ _ Hc Hin) as [ch Hch]. rewrite Hch. done. }
  exists s', l1, l2. split; [done|]. split; [done|].
  split; [split|].
  - (* the chain *)
    unfold chain in *. apply lseg_app in Hc as (m & Hc1 & Hc2).
    assert (Hm : m = head l2).
    { destruct l2; [done|]. by destruct Hc2 as (-> & _). }
    subst m. apply lseg_app. exists (Some handle). split.
    + rewrite Hhead. destruct l1 as [|p l1 _] using rev_ind; [done|].
      replace (match l1 ++ [p] with [] => Some handle | _ :: _ => timer_head s end)
        with (timer_head s) by (by destruct l1).
      apply lseg_snoc in Hc1 as (Hc1 & ph & Hp & Hpn). apply lseg_snoc.
      apply NoDup_app in Hnd1 as (Hnd1 & Hp1 & _).
      assert (Hph : p <> handle).
      { intros ->. apply Hn1, elem_of_app. right. left. }
      assert (Hp2 : head l2 <> Some p).
      { intros H. apply (Hdisj p); [apply elem_of_app; right; left|].
        destruct l2; [done|]. injection H as ->. left. }
      split.
      * eapply lseg_frame; [|exact Hc1]. intros a Ha. rewrite Hlk.
        unfold inserted_store.
        rewrite decide_False
          by (intros ->; apply Hn1, elem_of_app; by left).
        rewrite decide_False.
        2:{ intros H. apply (Hdisj a); [apply elem_of_app; by left|].
            destruct l2; [done|]. injection H as ->. left. }
        rewrite decide_False; [done|]. rewrite last_snoc. intros [= ->].
        apply (Hp1 a Ha). left.
      * rewrite Hlk. unfold inserted_store.
        rewrite decide_False by done. rewrite decide_False by done.
        rewrite decide_True by apply last_snoc. rewrite Hp. simpl. eauto.
    + simpl. split; [done|]. rewrite Hlk. unfold inserted_store.
      rewrite decide_True by done. eexists. split; [done|]. simpl.
      eapply lseg_frame; [|exact Hc2]. intros a Ha. rewrite Hlk.
      unfold inserted_store.
      rewrite decide_False by (intros ->; done).
      destruct (decide (head l2 = Some a)).
      * by destruct (heap s !! a).
      * destruct (decide (last l1 = Some a)) as [Hla|]; [|done].
        exfalso. apply (Hdisj a); [|done].
        destruct l1 as [|p l1 _] using rev_ind; [done|].
        rewrite last_snoc in Hla. injection Hla as ->.
        apply elem_of_app. right. left.
  - (* the deltas stay 32-bit values *)
    apply Forall_app in Hall as [Hall1 Hall2].
    apply Forall_app. split; [|apply Forall_cons; split].
    + apply Forall_forall. intros a Ha. rewrite Hsame.
      * by apply (proj1 (Forall_forall _ _) Hall1).
      * intros ->. done.
      * intros H. apply (Hdisj a Ha). destruct l2; [done|]. injection H as ->. left.
    + rewrite Hdh. unfold is_u32 in *.
      assert (0 <= sum_deltas (heap s) l1).
      { clear -Hall1. induction l1 as [|a l1 IH]; simpl; [lia|].
        apply Forall_cons in Hall1 as [Ha Hall1]. unfold is_u32 in Ha.
        specialize (IH Hall1). lia. }
      lia.
    + apply Forall_forall. intros a Ha.
      pose proof (proj1 (Forall_forall _ _) Hall2 a Ha) as Hua.
      destruct (decide (head l2 = Some a)) as [Hhd|Hhd].
      * rewrite (Hhd2 a Hhd). specialize (Hlt a Hhd). unfold is_u32 in *. lia.
      * rewrite Hsame; [done| |done]. intros ->. done.
  - split; [done|]. split.
    + intros a. rewrite Hlk. unfold inserted_store.
      destruct (decide (a = handle)) as [->|Ha]; [by rewrite Hh|].
      destruct (decide (head l2 = Some a)); [by destruct (heap s !! a)|].
      destruct (decide (last l1 = Some a)); [by destruct (heap s !! a)|done].
    + rewrite Hdh. split; [done|]. split; [done|]. split; [done|].
      intros c Hc2. rewrite (Hhd2 c Hc2). specialize (Hlt c Hc2). lia.
Qed.
(** ** Absolute fire times (claim C1) *)

(** The walk that adds the deltas from the head through [H]. *)
Fixpoint sum_through (fuel : nat) (hp : gmap addr sl_sleeptimer_timer_handle_t)
    (H : addr) (acc : Z) (current : option addr) : option Z :=
  match current with
  | None => None
  | Some c =>
    ch ← hp !! c;
    if decide (c = H) then Some (acc + delta ch)
    else match fuel with
         | O => None
         | S fuel' => sum_through fuel' hp H (acc + delta ch) (next ch)
         end
  end.

(** Invariant 2 of the spec: the tick at which [H] fires, modulo 2^32, is
    [last_delta_update_count] plus the deltas from the head through [H].
    [None] when [H] is not on the list. *)
Definition fire_time (fuel : nat) (s : state) (H : addr) : option Z :=
  t ← sum_through fuel (heap s) H 0 (timer_head s);
  Some (wrap32 (last_delta_update_count s + t)).

Definition sum_of (d : addr -> Z) (l : list addr) : Z :=
  foldr (fun a acc => d a + acc) 0 l.

Lemma sum_deltas_sum_of hp l : sum_deltas hp l = sum_of (delta_at hp) l.
Proof. done. Qed.

Lemma cum_ext d d' a l :
  (forall b, b ∈ l -> d' b = d b) -> cum d' a l = cum d a l.
Proof.
  induction l as [|b l IH]; intros H; simpl; [done|].
  rewrite H by left. rewrite IH; [done|]. intros c Hc. apply H. by right.
Qed.

Lemma sum_of_ext d d' l :
  (forall b, b ∈ l -> d' b = d b) -> sum_of d' l = sum_of d l.
Proof.
  induction l as [|b l IH]; intros H; simpl; [done|].
  rewrite H by left. rewrite IH; [done|]. intros c Hc. apply H. by right.
Qed.

Lemma cum_app_l d a l1 l2 : a ∈ l1 -> cum d a (l1 ++ l2) = cum d a l1.
Proof.
  induction l1 as [|b l1 IH]; intros H; simpl; [inversion H|].
  destruct (decide (b = a)); [done|].
  apply elem_of_cons in H as [->|H]; [done|]. by rewrite IH.
Qed.

Lemma cum_app_r d a l1 l2 :
  a ∉ l1 -> cum d a (l1 ++ l2) = sum_of d l1 + cum d a l2.
Proof.
  induction l1 as [|b l1 IH]; intros H; simpl; [done|].
  apply not_elem_of_cons in H as [Hne H].
  rewrite decide_False by done. rewrite IH by done. lia.
Qed.

Lemma cum_nonneg d a l : (forall b, b ∈ l -> 0 <= d b) -> 0 <= cum d a l.
Proof.
  induction l as [|b l IH]; intros H; simpl; [lia|].
  pose proof (H b ltac:(left)).
  destruct (decide (b = a)); [lia|].
  assert (0 <= cum d a l) by (apply IH; intros c Hc; apply H; by right). lia.
Qed.

Lemma sum_through_chain hp H l : forall p acc fuel,
  chain hp p l -> H ∈ l -> (length l <= fuel)%nat ->
  sum_through fuel hp H acc p = Some (acc + cum (delta_at hp) H l).
Proof.
  unfold chain. induction l as [|a l IH]; intros p acc fuel Hc Hin Hf; simpl in *.
  - inversion Hin.
  - destruct Hc as (-> & h & Hh & Hl).
    assert (Hd : delta_at hp a = delta h) by (unfold delta_at; by rewrite Hh).
    destruct fuel as [|fuel]; [lia|]. simpl. rewrite Hh. simpl.
    destruct (decide (a = H)) as [->|Hne].
    + rewrite Hd. f_equal. lia.
    + apply elem_of_cons in Hin as [->|Hin]; [done|].
      rewrite (IH _ _ fuel Hl Hin) by lia. rewrite Hd. f_equal. lia.
Qed.

Lemma fire_time_chain fuel s l H :
  chain (heap s) (timer_head s) l -> H ∈ l -> (length l <= fuel)%nat ->
  fire_time fuel s H =
    Some (wrap32 (last_delta_update_count s + cum (delta_at (heap s)) H l)).
Proof.
  intros Hc Hin Hf. unfold fire_time.
  rewrite (sum_through_chain _ _ _ _ _ _ Hc Hin Hf). done.
Qed.

(** Splicing [X] in front of [l2] with the successor's delta reduced by
    that of [X] keeps every running sum. *)
Lemma cum_insert d d' l1 l2 X a :
  a ∈ l1 ++ l2 -> X ∉ l1 ++ l2 -> NoDup (l1 ++ l2) ->
  (forall b, b ∈ l1 ++ l2 -> head l2 <> Some b -> d' b = d b) ->
  (forall c, head l2 = Some c -> d' X + d' c = d c) ->
  cum d' a (l1 ++ X :: l2) = cum d a (l1 ++ l2).
Proof.
  intros Ha HX Hnd Hsame Hhd.
  apply NoDup_app in Hnd as (Hnd1 & Hdisj & Hnd2).
  assert (Hl1 : forall b, b ∈ l1 -> d' b = d b).
  { intros b Hb. apply Hsame; [apply elem_of_app; by left|].
    intros H. apply (Hdisj b Hb). destruct l2; [done|]. injection H as ->. left. }
  destruct (decide (a ∈ l1)) as [Hin|Hout].
  - rewrite !cum_app_l by done. by apply cum_ext.
  - rewrite !cum_app_r by done. rewrite (sum_of_ext d d') by done.
    apply elem_of_app in Ha as [Ha|Ha]; [done|].
    assert (X <> a) by (intros ->; apply HX, elem_of_app; by right).
    simpl. rewrite decide_False by done.
    destruct l2 as [|c l2]; [inversion Ha|]. simpl.
    specialize (Hhd c eq_refl).
    assert (Hrest : cum d' a l2 = cum d a l2).
    { apply cum_ext. intros b Hb. apply Hsame; [apply elem_of_app; right; by right|].
      simpl. intros [= ->]. apply NoDup_cons in Hnd2 as [Hc _]. done. }
    rewrite Hrest. lia.
Qed.

(** Unlinking [X] with its delta added, modulo 2^32, to the successor keeps
    every running sum modulo 2^32. *)
Lemma cum_remove d d' l1 l2 X a z :
  a ∈ l1 ++ l2 -> NoDup (l1 ++ X :: l2) ->
  (forall b, b ∈ l1 ++ l2 -> head l2 <> Some b -> d' b = d b) ->
  (forall n, head l2 = Some n -> d' n = wrap32 (d n + d X)) ->
  wrap32 (z + cum d' a (l1 ++ l2)) = wrap32 (z + cum d a (l1 ++ X :: l2)).
Proof.
  intros Ha Hnd Hsame Hhd.
  apply NoDup_app in Hnd as (Hnd1 & Hdisj & Hnd2).
  apply NoDup_cons in Hnd2 as (HX2 & Hnd2).
  assert (Hl1 : forall b, b ∈ l1 -> d' b = d b).
  { intros b Hb. apply Hsame; [apply elem_of_app; by left|].
    intros H. apply (Hdisj b Hb). right. destruct l2; [done|]. injection H as ->. left. }
  destruct (decide (a ∈ l1)) as [Hin|Hout].
  - rewrite !cum_app_l by done. by rewrite (cum_ext d d').
  - rewrite !cum_app_r by done. rewrite (sum_of_ext d d') by done.
    apply elem_of_app in Ha as [Ha|Ha]; [done|].
    assert (X <> a) by (intros ->; done).
    simpl. rewrite decide_False by done.
    destruct l2 as [|c l2]; [inversion Ha|]. simpl.
    specialize (Hhd c eq_refl).
    assert (Hrest : cum d' a l2 = cum d a l2).
    { apply cum_ext. intros b Hb. apply Hsame; [apply elem_of_app; right; by right|].
      simpl. intros [= ->]. apply NoDup_cons in Hnd2 as [Hc _]. done. }
    rewrite Hrest, Hhd.
    set (r := if decide (c = a) then 0 else cum d a l2).
    replace (z + (sum_of d l1 + (wrap32 (d c + d X) + r)))
      with (wrap32 (d c + d X) + (z + sum_of d l1 + r)) by lia.
    rewrite wrap32_add_l. f_equal. lia.
Qed.
Lemma same_globals_last s s' :
  same_globals s s' -> last_delta_update_count s' = last_delta_update_count s.
Proof. intros ->. done. Qed.

Lemma same_globals_counter s s' :
  same_globals s s' -> hal_counter s' = hal_counter s.
Proof. intros ->. done. Qed.

Lemma insert_keeps_fire_time fuel s l H handle timeout :
  delta_list s l -> H ∈ l -> (length l < fuel)%nat ->
  handle ∉ l -> is_Some (heap s !! handle) -> is_u32 timeout ->
  exists s' l',
    delta_list_insert_timer fuel handle timeout s = Some s' /\
    delta_list s' l' /\ H ∈ l' /\
    last_delta_update_count s' = last_delta_update_count s /\
    is_Some (fire_time fuel s H) /\
    fire_time fuel s' H = fire_time fuel s H.
Proof.
  intros Hdl HH Hf Hn Hh Hu.
  destruct (delta_list_insert_timer_spec fuel s l handle timeout Hdl Hn Hh Hu
              ltac:(lia))
    as (s' & l1 & l2 & Hins & -> & Hdl' & Hsg & _ & _ & _ & Hsame & Hhd).
  exists s', (l1 ++ handle :: l2). split; [done|]. split; [done|].
  assert (HH' : H ∈ l1 ++ handle :: l2).
  { apply elem_of_app in HH as [?|?]; apply elem_of_app; [by left|right; by right]. }
  split; [done|]. split; [by apply same_globals_last|].
  destruct Hdl as [Hc Hall]. destruct Hdl' as [Hc' Hall'].
  rewrite (fire_time_chain fuel s _ H Hc HH) by lia.
  rewrite (fire_time_chain fuel s' _ H Hc' HH').
  2:{ rewrite length_app in *. simpl. lia. }
  split; [done|]. rewrite (same_globals_last _ _ Hsg). do 3 f_equal.
  apply cum_insert; try done.
  - by apply chain_NoDup in Hc.
  - intros b Hb Hne. apply Hsame; [|done]. intros ->. done.
  - intros c Hc2. destruct (Hhd c Hc2) as [-> _]. lia.
Qed.

Lemma remove_keeps_fire_time fuel s l H X :
  delta_list s l -> H ∈ l -> (length l < fuel)%nat ->
  X ∈ l -> X <> H ->
  exists s' l',
    delta_list_remove_timer fuel X s = Some (SL_STATUS_OK, s') /\
    delta_list s' l' /\ H ∈ l' /\
    last_delta_update_count s' = last_delta_update_count s /\
    is_Some (fire_time fuel s H) /\
    fire_time fuel s' H = fire_time fuel s H.
Proof.
  intros [Hc Hall] HH Hf HX Hne.
  apply list_elem_of_split in HX as (l1 & l2 & ->).
  destruct (delta_list_remove_timer_spec fuel s l1 X l2 Hc)
    as (s' & Hrem & Hc' & Hsg & _ & Hsame & Hhd & _).
  { rewrite length_app in Hf. lia. }
  exists s', (l1 ++ l2). split; [done|].
  assert (HH' : H ∈ l1 ++ l2).
  { apply elem_of_app in HH as [?|HH]; apply elem_of_app; [by left|].
    apply elem_of_cons in HH as [->|?]; [done|by right]. }
  split; [split; [done|]|].
  - apply Forall_forall. intros a Ha.
    destruct (decide (head l2 = Some a)) as [Hd|Hd].
    + rewrite (Hhd a Hd). apply wrap32_range.
    + rewrite Hsame by done. apply (proj1 (Forall_forall _ _) Hall).
      apply elem_of_app in Ha as [?|?]; apply elem_of_app; [by left|right; by right].
  - split; [done|]. split; [by apply same_globals_last|].
    rewrite (fire_time_chain fuel s _ H Hc HH) by lia.
    rewrite (fire_time_chain fuel s' _ H Hc' HH').
    2:{ rewrite length_app in *. simpl in *. lia. }
    split; [done|]. rewrite (same_globals_last _ _ Hsg). f_equal.
    apply cum_remove; try done.
    + by apply chain_NoDup in Hc.
    + intros b _ Hb. by apply Hsame.
Qed.

(** C1: on a well-formed delta list, inserting a handle that is not on the
    list (any 32-bit timeout, any priority) with [delta_list_insert_timer],
    or removing a listed handle other than [H] with
    [delta_list_remove_timer], succeeds, leaves [last_delta_update_count]
    alone, and leaves the absolute fire time of every listed handle [H] --
    [last_delta_update_count] plus the deltas from the head through [H],
    modulo 2^32 -- unchanged. *)
Theorem fire_time_preserved fuel s l H :
  delta_list s l -> H ∈ l -> (length l < fuel)%nat ->
  (forall handle timeout,
     handle ∉ l -> is_Some (heap s !! handle) -> is_u32 timeout ->
     exists s' l',
       delta_list_insert_timer fuel handle timeout s = Some s' /\
       delta_list s' l' /\ H ∈ l' /\
       last_delta_update_count s' = last_delta_update_count s /\
       is_Some (fire_time fuel s H) /\
       fire_time fuel s' H = fire_time fuel s H) /\
  (forall X,
     X ∈ l -> X <> H ->
     exists s' l',
       delta_list_remove_timer fuel X s = Some (SL_STATUS_OK, s') /\
       delta_list s' l' /\ H ∈ l' /\
       last_delta_update_count s' = last_delta_update_count s /\
       is_Some (fire_time fuel s H) /\
       fire_time fuel s' H = fire_time fuel s H).
Proof.
  intros Hdl HH Hf. split.
  - intros handle timeout. by apply insert_keeps_fire_time.
  - intros X. by apply remove_keeps_fire_time.
Qed.
(** ** Ageing the head and reprogramming the comparator *)

Definition elapsed (s : state) : Z :=
  wrap32 (sleeptimer_hal_get_counter s - last_delta_update_count s).

(** The delta that [update_first_timer_delta] leaves in the head. *)
Definition aged_head_delta (s : state) (d : Z) : Z :=
  if d >=? elapsed s then wrap32 (d - elapsed s) else 0.

Lemma update_first_timer_delta_spec s l :
  delta_list s l ->
  exists s',
    update_first_timer_delta s = Some s' /\
    delta_list s' l /\
    timer_head s' = timer_head s /\
    hal_counter s' = hal_counter s /\
    (forall a, attrs <$> heap s' !! a = attrs <$> heap s !! a) /\
    (forall a, head l <> Some a -> heap s' !! a = heap s !! a) /\
    (forall a, head l = Some a ->
       delta_at (heap s') a = aged_head_delta s (delta_at (heap s) a)) /\
    (forall a, head l = Some a -> delta_at (heap s) a >= elapsed s ->
       last_delta_update_count s' = hal_counter s).
Proof.
  intros [Hc Hall]. unfold update_first_timer_delta.
  destruct l as [|hd l].
  - unfold chain in Hc. simpl in Hc. rewrite Hc. eexists. split; [done|].
    simpl. repeat split; done.
  - unfold chain in Hc. simpl in Hc. destruct Hc as (Hhd & hh & Hh & Hc).
    rewrite Hhd, Hh. simpl.
    assert (Hnd : NoDup (hd :: l)).
    { apply (chain_NoDup (heap s) (Some hd)). unfold chain. simpl. eauto. }
    apply NoDup_cons in Hnd as [Hnot _].
    assert (Hd : delta_at (heap s) hd = delta hh) by (unfold delta_at; by rewrite Hh).
    apply Forall_cons in Hall as [Hu Hall]. rewrite Hd in Hu.
    fold (elapsed s).
    assert (Hframe : forall d0 s0, heap s0 = <[hd := set_delta d0 hh]> (heap s) ->
              timer_head s0 = Some hd -> is_u32 d0 -> delta_list s0 (hd :: l)).
    { intros d0 s0 Hs0 Hh0 Hu0. split.
      - unfold chain. simpl. rewrite Hs0. split; [done|]. eexists.
        rewrite lookup_insert_eq. split; [done|]. simpl.
        eapply lseg_frame; [|exact Hc]. intros a Ha.
        rewrite lookup_insert_ne; [done|]. intros ->. done.
      - rewrite Hs0. apply Forall_cons. split.
        + by rewrite delta_at_insert_eq.
        + apply Forall_forall. intros a Ha.
          rewrite delta_at_insert_ne by (intros ->; done).
          by apply (proj1 (Forall_forall _ _) Hall). }
    destruct (Z.geb_spec (delta hh) (elapsed s)) as [Hge|Hlt];
      (eexists; split; [done|]); simpl.
    + split; [apply (Hframe (wrap32 (delta hh - elapsed s))); try done; apply wrap32_range|].
      repeat split; try done.
      * intros a. destruct (decide (a = hd)) as [->|Hne].
        -- rewrite lookup_insert_eq, Hh. done.
        -- by rewrite lookup_insert_ne.
      * intros a Ha. rewrite lookup_insert_ne; [done|]. congruence.
      * intros a [= <-]. rewrite delta_at_insert_eq, Hd. unfold aged_head_delta. simpl.
        destruct (Z.geb_spec (delta hh) (elapsed s)); [done|lia].
    + split; [apply (Hframe 0); try done; unfold is_u32; lia|].
      repeat split; try done.
      * intros a. destruct (decide (a = hd)) as [->|Hne].
        -- rewrite lookup_insert_eq, Hh. done.
        -- by rewrite lookup_insert_ne.
      * intros a Ha. rewrite lookup_insert_ne; [done|]. congruence.
      * intros a [= <-]. rewrite delta_at_insert_eq, Hd. unfold aged_head_delta. simpl.
        destruct (Z.geb_spec (delta hh) (elapsed s)); [lia|done].
      * intros a [= <-]. rewrite Hd. lia.
Qed.

Lemma set_comparator_for_next_timer_spec s l :
  delta_list s l -> l <> [] ->
  exists s',
    set_comparator_for_next_timer s = Some s' /\
    heap s' = heap s /\ timer_head s' = timer_head s /\
    last_delta_update_count s' = last_delta_update_count s /\
    hal_counter s' = hal_counter s.
Proof.
  intros [Hc _] Hne. unfold set_comparator_for_next_timer.
  destruct l as [|hd l]; [done|]. unfold chain in Hc. simpl in Hc.
  destruct Hc as (Hhd & hh & Hh & _). rewrite Hhd. simpl. rewrite Hh. simpl.
  eexists. split; [done|]. done.
Qed.
(** ** Starting a handle that is already running (claim C4) *)

(** C4: for a handle already on the delta list, [sl_sleeptimer_start_timer]
    returns [SL_STATUS_NOT_READY] and [sl_sleeptimer_start_periodic_timer]
    returns [SL_STATUS_INVALID_STATE]; no callback is invoked and the state
    (store of handles, list, every global and register) is returned as it
    was. *)
Theorem start_refused_when_running
    (run_callback : callback_id -> addr -> Z -> state -> state)
    fuel s l h timeout cb cb_data prio flags :
  delta_list s l -> h ∈ l -> (length l <= fuel)%nat ->
  sl_sleeptimer_start_timer run_callback fuel (Some h) timeout cb cb_data prio flags s
    = Some ([], SL_STATUS_NOT_READY, s) /\
  sl_sleeptimer_start_periodic_timer run_callback fuel (Some h) timeout cb cb_data prio flags s
    = Some ([], SL_STATUS_INVALID_STATE, s).
Proof.
  intros [Hc _] Hin Hf.
  unfold sl_sleeptimer_start_timer, sl_sleeptimer_start_periodic_timer,
    sl_sleeptimer_is_timer_running.
  rewrite (is_timer_running_loop_spec _ _ _ _ _ Hc Hf).
  rewrite bool_decide_eq_true_2 by done. done.
Qed.

(** ** Remaining time of a handle that is not running (claim C5) *)

(** C5 as stated fails: the output cell is the accumulator of the function
    and is written before the handle is looked for. *)
Definition time_remaining_leaves_output_alone : Prop :=
  forall fuel s l h v,
    delta_list s l -> h ∉ l -> is_Some (heap s !! h) -> (length l <= fuel)%nat ->
    exists s',
      sl_sleeptimer_get_timer_time_remaining fuel (Some h) (Some v) s
        = Some (SL_STATUS_NOT_READY, Some v, s').

(** C5, amended: for a handle in the store that is not on the delta list and
    a non-null output pointer, [sl_sleeptimer_get_timer_time_remaining]
    ages the head, returns [SL_STATUS_NOT_READY], and leaves in the output
    cell the handle's own [delta] plus the deltas of the whole aged list,
    modulo 2^32, whatever the cell held before. *)
Theorem time_remaining_not_listed fuel s l h v :
  delta_list s l -> h ∉ l -> is_Some (heap s !! h) ->
  is_u32 (delta_at (heap s) h) -> (length l <= fuel)%nat ->
  exists s1,
    update_first_timer_delta s = Some s1 /\
    delta_list s1 l /\
    sl_sleeptimer_get_timer_time_remaining fuel (Some h) (Some v) s
      = Some (SL_STATUS_NOT_READY,
              Some (wrap32 (delta_at (heap s) h + sum_deltas (heap s1) l)),
              s1).
Proof.
  intros Hdl Hn [hh Hh] Hu Hf.
  destruct (update_first_timer_delta_spec s l Hdl)
    as (s1 & Hupd & Hdl1 & Hhd & _ & _ & Hsame & _).
  exists s1. split; [done|]. split; [done|].
  unfold sl_sleeptimer_get_timer_time_remaining. rewrite Hupd. simpl.
  assert (Hh1 : heap s1 !! h = Some hh).
  { rewrite Hsame; [done|]. intros H. apply Hn. destruct l; [done|].
    injection H as ->. left. }
  rewrite Hh1. simpl. destruct Hdl1 as [Hc1 _].
  rewrite (time_remaining_loop_missing _ _ _ _ _ _ Hc1 Hn Hf). simpl.
  assert (Hd : delta_at (heap s) h = delta hh) by (unfold delta_at; by rewrite Hh).
  rewrite Hd in *. rewrite acc_deltas_u32 by done.
  destruct (decide (None = Some h)); done.
Qed.
(** ** Sample states *)

Definition no_callback : callback_id -> addr -> Z -> state -> state :=
  fun _ _ _ s => s.

(** Handle 1 (priority 5) fires 10 ticks after [last_delta_update_count],
    handle 2 (priority 1) 5 ticks later; handle 3 is idle. *)
Definition sample_heap : gmap addr sl_sleeptimer_timer_handle_t :=
  <[1%positive := mk_handle 0 5 0 (Some 2%positive) None 0 10]>
  (<[2%positive := mk_handle 0 1 8 None None 0 5]>
  (<[3%positive := mk_handle 0 0 0 None None 0 7]> ∅)).

Definition sample_state : state :=
  mk_state sample_heap 0 0 0 0 0 0 (Some 1%positive) 100 true 0 103 110 3.

(** The same store with an empty list. *)
Definition idle_state : state :=
  mk_state sample_heap 0 0 0 0 0 0 None 100 true 0 103 110 1.

Lemma sample_delta_list : delta_list sample_state [1%positive; 2%positive].
Proof.
  split.
  - unfold chain. simpl. split; [done|]. eexists. split; [reflexivity|]. simpl.
    split; [done|]. eexists. split; [reflexivity|]. done.
  - repeat constructor; vm_compute; done.
Qed.

Lemma idle_delta_list : delta_list idle_state [].
Proof. split; [done|constructor]. Qed.

Lemma fire_time_preserved_witness :
  exists s',
    delta_list_insert_timer 3 3%positive 12 sample_state = Some s' /\
    fire_time 3 s' 2%positive = fire_time 3 sample_state 2%positive.
Proof.
  destruct (fire_time_preserved 3 sample_state [1%positive; 2%positive] 2%positive)
    as [Hins _].
  - exact sample_delta_list.
  - compute_done.
  - simpl. lia.
  - destruct (Hins 3%positive 12) as (s' & l' & H1 & _ & _ & _ & _ & H2).
    + compute_done.
    + eexists. reflexivity.
    + unfold is_u32. lia.
    + exists s'. done.
Defined.

Lemma start_refused_when_running_witness :
  sl_sleeptimer_start_timer no_callback 2 (Some 2%positive) 50 None 0 0 0 sample_state
    = Some ([], SL_STATUS_NOT_READY, sample_state) /\
  sl_sleeptimer_start_periodic_timer no_callback 2 (Some 2%positive) 50 None 0 0 0 sample_state
    = Some ([], SL_STATUS_INVALID_STATE, sample_state).
Proof.
  apply (start_refused_when_running no_callback 2 sample_state
           [1%positive; 2%positive]).
  - exact sample_delta_list.
  - compute_done.
  - simpl. lia.
Defined.

Lemma time_remaining_overwrites_output : ~ time_remaining_leaves_output_alone.
Proof.
  intros H.
  destruct (H 0%nat idle_state [] 3%positive 0 idle_delta_list) as (s' & Hs').
  - compute_done.
  - eexists. reflexivity.
  - simpl. lia.
  - vm_compute in Hs'. discriminate Hs'.
Qed.

Lemma time_remaining_not_listed_witness :
  exists s1,
    sl_sleeptimer_get_timer_time_remaining 2 (Some 3%positive) (Some 0) sample_state
      = Some (SL_STATUS_NOT_READY, Some 19, s1).
Proof.
  destruct (time_remaining_not_listed 2 sample_state [1%positive; 2%positive]
              3%positive 0) as (s1 & Hupd & _ & Hres).
  - exact sample_delta_list.
  - compute_done.
  - eexists. reflexivity.
  - vm_compute. split; [discriminate|done].
  - simpl. lia.
  - exists s1. etrans; [exact Hres|]. vm_compute in Hupd. injection Hupd as <-.
    vm_compute. reflexivity.
Defined.
(** ** Remaining time of the first timer with given flags (claim C10) *)

Definition flags_at (hp : gmap addr sl_sleeptimer_timer_handle_t) (a : addr) : Z :=
  from_option option_flags 0 (hp !! a).

Lemma acc_deltas_snoc hp time l a :
  acc_deltas hp time (l ++ [a]) = wrap32 (acc_deltas hp time l + delta_at hp a).
Proof. unfold acc_deltas. by rewrite foldl_app. Qed.

Lemma first_timer_loop_found hp flags l1 m l2 : forall p time fuel,
  chain hp p (l1 ++ m :: l2) ->
  (forall a, a ∈ l1 -> flags_at hp a <> flags) -> flags_at hp m = flags ->
  (length l1 <= fuel)%nat ->
  first_timer_loop fuel hp flags time p = Some (Some (acc_deltas hp time (l1 ++ [m]))).
Proof.
  unfold chain. induction l1 as [|a l1 IH]; intros p time fuel Hc Hno Hm Hf; simpl in *.
  - destruct Hc as (-> & h & Hh & _). unfold flags_at in Hm. rewrite Hh in Hm.
    simpl in Hm. unfold delta_at. destruct fuel; simpl; rewrite Hh; simpl;
      rewrite Hm, Z.eqb_refl; done.
  - destruct Hc as (-> & h & Hh & Hl).
    destruct fuel as [|fuel]; [lia|]. simpl. rewrite Hh. simpl.
    pose proof (Hno a ltac:(left)) as Ha. unfold flags_at in Ha. rewrite Hh in Ha.
    simpl in Ha. apply Z.eqb_neq in Ha. rewrite Ha.
    rewrite (IH _ _ fuel Hl) by (try done; try lia; intros b Hb; apply Hno; by right).
    replace (delta h) with (delta_at hp a) by (unfold delta_at; by rewrite Hh). done.
Qed.

Lemma first_timer_loop_none hp flags l : forall p time fuel,
  chain hp p l -> (forall a, a ∈ l -> flags_at hp a <> flags) ->
  (length l <= fuel)%nat ->
  first_timer_loop fuel hp flags time p = Some None.
Proof.
  unfold chain. induction l as [|a l IH]; intros p time fuel Hc Hno Hf; simpl in *.
  - subst p. destruct fuel; done.
  - destruct Hc as (-> & h & Hh & Hl).
    destruct fuel as [|fuel]; [lia|]. simpl. rewrite Hh. simpl.
    pose proof (Hno a ltac:(left)) as Ha. unfold flags_at in Ha. rewrite Hh in Ha.
    simpl in Ha. apply Z.eqb_neq in Ha. rewrite Ha.
    apply IH; try done; try lia. intros b Hb. apply Hno. by right.
Qed.

Lemma cum_through d m l1 l2 :
  m ∉ l1 -> cum d m (l1 ++ m :: l2) = sum_of d l1 + d m.
Proof.
  intros Hm. rewrite cum_app_r by done. simpl. rewrite decide_True by done. lia.
Qed.

(** Ageing takes the elapsed ticks out of every running sum. *)
Lemma cum_aged d d' e a l :
  NoDup l -> a ∈ l ->
  (forall b, head l <> Some b -> d' b = d b) ->
  (forall b, head l = Some b -> d' b = d b - e) ->
  cum d' a l = cum d a l - e.
Proof.
  intros Hnd Ha Hsame Hhd. destruct l as [|hd l]; [inversion Ha|]. simpl.
  apply NoDup_cons in Hnd as [Hnot _].
  rewrite (Hhd hd eq_refl).
  assert (cum d' a l = cum d a l) as ->.
  { apply cum_ext. intros b Hb. apply Hsame. simpl. intros [= ->]. done. }
  lia.
Qed.
Lemma time_remaining_listed fuel s l1 m l2 v :
  delta_list s (l1 ++ m :: l2) -> (length l1 <= fuel)%nat ->
  (forall hd, head (l1 ++ m :: l2) = Some hd -> elapsed s <= delta_at (heap s) hd) ->
  exists s1,
    update_first_timer_delta s = Some s1 /\
    sl_sleeptimer_get_timer_time_remaining fuel (Some m) (Some v) s
      = Some (SL_STATUS_OK,
              Some (wrap32 (cum (delta_at (heap s)) m (l1 ++ m :: l2) - elapsed s)),
              s1).
Proof.
  intros Hdl Hf Hhead.
  destruct (update_first_timer_delta_spec s _ Hdl)
    as (s1 & Hupd & [Hc1 Hall1] & Hhd & Hcnt & _ & Hsame & Haged & Hlast).
  exists s1. split; [done|].
  pose proof (chain_NoDup _ _ _ Hc1) as Hnd.
  assert (Hm1 : m ∉ l1).
  { apply NoDup_app in Hnd as (_ & Hdisj & _). intros H. apply (Hdisj m H). left. }
  assert (Hin : m ∈ l1 ++ m :: l2) by (apply elem_of_app; right; left).
  unfold sl_sleeptimer_get_timer_time_remaining. rewrite Hupd. simpl.
  destruct (lseg_lookup _ _ _ _ _ Hc1 Hin) as [mh Hmh]. rewrite Hmh. simpl.
  rewrite (time_remaining_loop_found _ _ _ _ _ _ _ Hc1 Hm1 Hf). simpl.
  rewrite decide_True by done.
  assert (Hd : delta mh = delta_at (heap s1) m) by (unfold delta_at; by rewrite Hmh).
  rewrite Hd. rewrite acc_deltas_u32 by (apply (proj1 (Forall_forall _ _) Hall1); done).
  assert (Hcum : delta_at (heap s1) m + sum_deltas (heap s1) l1
                 = cum (delta_at (heap s)) m (l1 ++ m :: l2) - elapsed s).
  { rewrite <- (cum_aged (delta_at (heap s)) (delta_at (heap s1)) (elapsed s) m
                 (l1 ++ m :: l2)); try done.
    - rewrite cum_through by done. rewrite sum_deltas_sum_of. lia.
    - intros b Hb. unfold delta_at. by rewrite Hsame.
    - intros b Hb. rewrite (Haged b Hb). unfold aged_head_delta.
      specialize (Hhead b Hb).
      destruct Hdl as [_ Hall].
      assert (Hub : is_u32 (delta_at (heap s) b)).
      { apply (proj1 (Forall_forall _ _) Hall).
        destruct l1; simpl in Hb; injection Hb as ->; [done|left]. }
      pose proof (wrap32_range (sleeptimer_hal_get_counter s - last_delta_update_count s)) as He.
      fold (elapsed s) in He.
      destruct (Z.geb_spec (delta_at (heap s) b) (elapsed s)); [|lia].
      apply wrap32_small. unfold is_u32 in *. lia. }
  rewrite Hcum.
  assert (Hel : wrap32 (sleeptimer_hal_get_counter s1 - last_delta_update_count s1) = 0).
  { destruct (l1 ++ m :: l2) as [|hd l] eqn:El; [by destruct l1|].
    rewrite (Hlast hd eq_refl) by (specialize (Hhead hd eq_refl); lia).
    unfold sleeptimer_hal_get_counter. rewrite Hcnt, Z.sub_diag. done. }
  rewrite Hel.
  pose proof (wrap32_range (cum (delta_at (heap s)) m (l1 ++ m :: l2) - elapsed s)) as Hr.
  set (t := wrap32 (cum (delta_at (heap s)) m (l1 ++ m :: l2) - elapsed s)) in *.
  destruct (Z.gtb_spec t 0).
  - rewrite Z.sub_0_r. unfold t. rewrite wrap32_idemp. done.
  - assert (t = 0) as -> by lia. done.
Qed.

(** C10: when the first handle whose [option_flags] equal [flags] is [m],
    [sl_sleeptimer_get_remaining_time_of_first_timer] returns the sum,
    modulo 2^32, of the [delta] fields from the head through [m], whatever
    the hardware counter reads: it neither ages the head nor writes any
    state (the function of the model returns none), so its result counts
    from [last_delta_update_count].  [sl_sleeptimer_get_timer_time_remaining],
    asked about the same handle while the head is not overdue, ages the
    head and returns that sum less the ticks elapsed since
    [last_delta_update_count]. *)
Theorem first_timer_remaining_is_raw_sum fuel s l1 m l2 flags v :
  delta_list s (l1 ++ m :: l2) ->
  (forall a, a ∈ l1 -> flags_at (heap s) a <> flags) ->
  flags_at (heap s) m = flags ->
  (length l1 <= fuel)%nat ->
  (forall hd, head (l1 ++ m :: l2) = Some hd -> elapsed s <= delta_at (heap s) hd) ->
  (forall cnt,
     sl_sleeptimer_get_remaining_time_of_first_timer fuel flags v (set_hal_counter cnt s)
       = Some (SL_STATUS_OK, wrap32 (cum (delta_at (heap s)) m (l1 ++ m :: l2)))) /\
  (exists s1,
     update_first_timer_delta s = Some s1 /\
     forall w,
       sl_sleeptimer_get_timer_time_remaining fuel (Some m) (Some w) s
         = Some (SL_STATUS_OK,
                 Some (wrap32 (cum (delta_at (heap s)) m (l1 ++ m :: l2) - elapsed s)),
                 s1)).
Proof.
  intros Hdl Hno Hm Hf Hhead. split.
  - intros cnt. unfold sl_sleeptimer_get_remaining_time_of_first_timer. simpl.
    destruct Hdl as [Hc Hall].
    rewrite (first_timer_loop_found _ _ _ _ _ _ _ _ Hc Hno Hm Hf). simpl.
    rewrite acc_deltas_u32 by (unfold is_u32; lia).
    pose proof (chain_NoDup _ _ _ Hc) as Hnd.
    assert (Hm1 : m ∉ l1).
    { apply NoDup_app in Hnd as (_ & Hdisj & _). intros H. apply (Hdisj m H). left. }
    rewrite cum_through by done. rewrite sum_deltas_app. simpl.
    do 3 f_equal. rewrite sum_deltas_sum_of. lia.
  - destruct (time_remaining_listed fuel s l1 m l2 v Hdl Hf Hhead) as (s1 & Hupd & _).
    exists s1. split; [done|]. intros w.
    destruct (time_remaining_listed fuel s l1 m l2 w Hdl Hf Hhead) as (s1' & Hupd' & Hres).
    rewrite Hupd in Hupd'. injection Hupd' as <-. done.
Qed.
Lemma first_timer_remaining_is_raw_sum_witness :
  sl_sleeptimer_get_remaining_time_of_first_timer 2 8 0 (set_hal_counter 500 sample_state)
    = Some (SL_STATUS_OK, 15) /\
  exists s1,
    sl_sleeptimer_get_timer_time_remaining 2 (Some 2%positive) (Some 0) sample_state
      = Some (SL_STATUS_OK, Some 12, s1).
Proof.
  destruct (first_timer_remaining_is_raw_sum 2 sample_state [1%positive] 2%positive []
              8 0) as [Hraw (s1 & Hupd & Hrem)].
  - exact sample_delta_list.
  - intros a Ha. apply list_elem_of_singleton in Ha as ->. vm_compute. discriminate.
  - reflexivity.
  - simpl. lia.
  - intros hd Hhd. injection Hhd as <-. vm_compute. discriminate.
  - split.
    + etrans; [exact (Hraw 500)|]. reflexivity.
    + exists s1. etrans; [exact (Hrem 0)|]. reflexivity.
Defined.
(** ** Starting with a zero timeout (claim C3) *)

Lemma delta_list_ext s s' l :
  heap s' = heap s -> timer_head s' = timer_head s ->
  delta_list s l -> delta_list s' l.
Proof. unfold delta_list. intros -> ->. done. Qed.

(** A store that differs outside the list only carries the same list. *)
Lemma delta_list_frame s s' l :
  timer_head s' = timer_head s ->
  (forall a, a ∈ l -> heap s' !! a = heap s !! a) ->
  delta_list s l -> delta_list s' l.
Proof.
  intros Hhd Hsame [Hc Hall]. split.
  - rewrite Hhd. eapply lseg_frame; [|exact Hc]. intros a Ha. by rewrite Hsame.
  - apply Forall_forall. intros a Ha. unfold delta_at. rewrite Hsame by done.
    by apply (proj1 (Forall_forall _ _) Hall).
Qed.

(** Callbacks that neither start nor stop timers nor write to handles. *)
Definition callback_keeps_list
    (run_callback : callback_id -> addr -> Z -> state -> state) : Prop :=
  forall cb h d s,
    heap (run_callback cb h d s) = heap s /\
    timer_head (run_callback cb h d s) = timer_head s.

(** The state in which [create_timer] runs the callback of a timer started
    with a zero timeout: every field of the handle is written, [delta] is
    0, and nothing else has changed. *)
Definition zero_timeout_state (h : addr) (periodic : Z) (cb : option callback_id)
    (cb_data prio flags : Z) (s : state) : state :=
  set_heap (<[h := mk_handle cb_data prio flags None cb periodic 0]> (heap s)) s.

Definition after_callback
    (run_callback : callback_id -> addr -> Z -> state -> state)
    (h : addr) (cb : option callback_id) (cb_data : Z) (s : state) : state :=
  match cb with
  | Some c => run_callback c h cb_data s
  | None => s
  end.

Definition callback_log (h : addr) (cb : option callback_id) (cb_data : Z)
    : list event :=
  match cb with
  | Some c => [Invoke c h cb_data]
  | None => []
  end.

Lemma create_timer_zero_unfold run_callback fuel s h periodic cb cb_data prio flags :
  is_Some (heap s !! h) ->
  create_timer run_callback fuel h 0 periodic cb cb_data prio flags s =
    let s3 := after_callback run_callback h cb cb_data
                (zero_timeout_state h periodic cb cb_data prio flags s) in
    if periodic =? 0 then Some (callback_log h cb cb_data, SL_STATUS_OK, s3)
    else s4 ← create_timer_arm fuel h periodic s3;
         Some (callback_log h cb cb_data, SL_STATUS_OK, s4).
Proof.
  intros [hh Hh]. unfold create_timer, invoke_callback, zero_timeout_state,
    after_callback, callback_log. rewrite Hh. simpl.
  rewrite lookup_insert_eq. simpl. rewrite insert_insert_eq.
  destruct cb; simpl; done.
Qed.

Lemma create_timer_arm_spec fuel s l h timeout :
  delta_list s l -> h ∉ l -> is_Some (heap s !! h) -> is_u32 timeout ->
  (length l < fuel)%nat ->
  exists s' l1 l2,
    create_timer_arm fuel h timeout s = Some s' /\
    l = l1 ++ l2 /\
    delta_list s' (l1 ++ h :: l2) /\
    fire_time fuel s' h = Some (wrap32 (last_delta_update_count s' + timeout)).
Proof.
  intros Hdl Hn Hh Hu Hf.
  destruct (update_first_timer_delta_spec s l Hdl)
    as (s1 & Hupd & Hdl1 & _ & _ & Hattrs & _).
  assert (Hh1 : is_Some (heap s1 !! h)).
  { destruct Hh as [hh Hh]. specialize (Hattrs h). rewrite Hh in Hattrs.
    destruct (heap s1 !! h); [eauto|done]. }
  destruct (delta_list_insert_timer_spec fuel s1 l h timeout Hdl1 Hn Hh1 Hu
              ltac:(lia))
    as (s2 & l1 & l2 & Hins & -> & Hdl2 & Hsg & _ & Hdh & _ & Hsame & _).
  assert (Hcum : cum (delta_at (heap s2)) h (l1 ++ h :: l2) = timeout).
  { pose proof (chain_NoDup _ _ _ (proj1 Hdl1)) as Hnd.
    apply NoDup_app in Hnd as (_ & Hdisj & _).
    rewrite cum_through by (intros H; apply Hn, elem_of_app; by left).
    rewrite Hdh. rewrite sum_deltas_sum_of.
    rewrite (sum_of_ext (delta_at (heap s1)) (delta_at (heap s2))); [lia|].
    intros b Hb. apply Hsame.
    - intros ->. apply Hn, elem_of_app. by left.
    - intros H. apply (Hdisj b Hb). destruct l2; [done|]. injection H as ->. left. }
  assert (Hlen : (length (l1 ++ h :: l2) <= fuel)%nat).
  { rewrite length_app in *. simpl. lia. }
  assert (Hhin : h ∈ l1 ++ h :: l2) by (apply elem_of_app; right; left).
  unfold create_timer_arm. rewrite Hupd. simpl. rewrite Hins. simpl.
  destruct (decide (timer_head s2 = Some h)).
  - destruct (set_comparator_for_next_timer_spec s2 _ Hdl2)
      as (s3 & Hset & Hheap & Hhd & Hlast & _); [by destruct l1|].
    exists s3, l1, l2. split; [done|]. split; [done|].
    assert (Hdl3 : delta_list s3 (l1 ++ h :: l2)) by (by apply (delta_list_ext s2)).
    split; [done|].
    rewrite (fire_time_chain fuel s3 _ h (proj1 Hdl3) Hhin Hlen).
    rewrite Hheap, Hcum. done.
  - exists s2, l1, l2. split; [done|]. split; [done|]. split; [done|].
    rewrite (fire_time_chain fuel s2 _ h (proj1 Hdl2) Hhin Hlen).
    rewrite Hcum. done.
Qed.

(** C3: for a handle in the store that is not on the delta list,
    [create_timer] with [timeout_initial = 0] writes the handle's fields,
    sets its [delta] to 0 and invokes the callback (when it is not [NULL])
    before returning, as the log shows.  With [timeout_periodic = 0] it
    then returns [SL_STATUS_OK] in the very state [s3] the callback left:
    the handle is not inserted ([sl_sleeptimer_start_timer] with a zero
    timeout is this case).  With [timeout_periodic <> 0], whenever the
    callback left a well-formed list without the handle, the handle is
    then inserted, after the head was aged, with [timeout_periodic] as its
    timeout: it is on the list and fires [timeout_periodic] ticks after
    [last_delta_update_count].  A callback that leaves the list alone
    leaves the list [l], without the handle, in [s3]. *)
Theorem create_timer_zero_timeout
    (run_callback : callback_id -> addr -> Z -> state -> state)
    fuel s l h periodic cb cb_data prio flags :
  delta_list s l -> h ∉ l -> is_Some (heap s !! h) -> is_u32 periodic ->
  (length l < fuel)%nat ->
  let s3 := after_callback run_callback h cb cb_data
              (zero_timeout_state h periodic cb cb_data prio flags s) in
  (periodic = 0 ->
     create_timer run_callback fuel h 0 periodic cb cb_data prio flags s
       = Some (callback_log h cb cb_data, SL_STATUS_OK, s3) /\
     sl_sleeptimer_start_timer run_callback fuel (Some h) 0 cb cb_data prio flags s
       = Some (callback_log h cb cb_data, SL_STATUS_OK, s3)) /\
  (periodic <> 0 ->
     forall l3,
       delta_list s3 l3 -> h ∉ l3 -> is_Some (heap s3 !! h) ->
       (length l3 < fuel)%nat ->
       exists s4 l1 l2,
         create_timer run_callback fuel h 0 periodic cb cb_data prio flags s
           = Some (callback_log h cb cb_data, SL_STATUS_OK, s4) /\
         l3 = l1 ++ l2 /\
         delta_list s4 (l1 ++ h :: l2) /\
         fire_time fuel s4 h = Some (wrap32 (last_delta_update_count s4 + periodic))) /\
  (callback_keeps_list run_callback ->
     delta_list s3 l /\ is_Some (heap s3 !! h)).
Proof.
  intros Hdl Hn Hh Hu Hf s3. split; [|split].
  - intros ->.
    assert (Hct : create_timer run_callback fuel h 0 0 cb cb_data prio flags s
                  = Some (callback_log h cb cb_data, SL_STATUS_OK, s3)).
    { rewrite create_timer_zero_unfold by done. done. }
    split; [done|].
    unfold sl_sleeptimer_start_timer, sl_sleeptimer_is_timer_running.
    rewrite (is_timer_running_loop_spec _ _ _ _ _ (proj1 Hdl)) by lia.
    rewrite bool_decide_eq_false_2 by done. simpl. done.
  - intros Hp l3 Hdl3 Hn3 Hh3 Hf3.
    destruct (create_timer_arm_spec fuel s3 l3 h periodic Hdl3 Hn3 Hh3 Hu Hf3)
      as (s4 & l1 & l2 & Harm & Hl & Hdl4 & Hft).
    exists s4, l1, l2. rewrite create_timer_zero_unfold by done. simpl.
    apply Z.eqb_neq in Hp. rewrite Hp. fold s3. rewrite Harm. done.
  - intros Hk. unfold s3, after_callback.
    set (s2 := zero_timeout_state h periodic cb cb_data prio flags s).
    assert (Hdl2 : delta_list s2 l).
    { apply (delta_list_frame s); [done| |done]. intros a Ha. unfold s2. simpl.
      rewrite lookup_insert_ne; [done|]. intros ->. done. }
    assert (Hh2 : is_Some (heap s2 !! h)).
    { unfold s2. simpl. rewrite lookup_insert_eq. eauto. }
    destruct cb as [c|]; [|done].
    destruct (Hk c h cb_data s2) as [Hheap Hhd]. split.
    + by apply (delta_list_ext s2).
    + by rewrite Hheap.
Qed.

Lemma no_callback_keeps_list : callback_keeps_list no_callback.
Proof. intros cb h d s. done. Qed.

Lemma create_timer_zero_timeout_witness :
  (create_timer no_callback 3 3%positive 0 0 (Some 9%positive) 4 2 0 sample_state
     = Some ([Invoke 9%positive 3%positive 4], SL_STATUS_OK,
             zero_timeout_state 3%positive 0 (Some 9%positive) 4 2 0 sample_state)) /\
  (exists s4,
     create_timer no_callback 3 3%positive 0 12 (Some 9%positive) 4 2 0 sample_state
       = Some ([Invoke 9%positive 3%positive 4], SL_STATUS_OK, s4) /\
     fire_time 3 s4 3%positive = Some 115).
Proof.
  split.
  - destruct (create_timer_zero_timeout no_callback 3 sample_state
                [1%positive; 2%positive] 3%positive 0 (Some 9%positive) 4 2 0)
      as [Hone _].
    + exact sample_delta_list.
    + compute_done.
    + eexists. reflexivity.
    + unfold is_u32. lia.
    + simpl. lia.
    + destruct (Hone eq_refl) as [Hct _]. exact Hct.
  - destruct (create_timer_zero_timeout no_callback 3 sample_state
                [1%positive; 2%positive] 3%positive 12 (Some 9%positive) 4 2 0)
      as (_ & Hper & Hkeep).
    + exact sample_delta_list.
    + compute_done.
    + eexists. reflexivity.
    + unfold is_u32. lia.
    + simpl. lia.
    + destruct (Hkeep no_callback_keeps_list) as [Hdl3 Hh3].
      destruct (Hper ltac:(lia) [1%positive; 2%positive] Hdl3 ltac:(compute_done) Hh3
                  ltac:(simpl; lia)) as (s4 & l1 & l2 & Hct & _ & _ & Hft).
      exists s4. split; [exact Hct|].
      etrans; [exact Hft|]. vm_compute in Hct. injection Hct as <-. reflexivity.
Defined.
(** ** Millisecond to tick conversion (claim C6) *)

Definition ceil_div (a b : Z) : Z := (a + b - 1) / b.

(** The state after [sl_sleeptimer_init] holds the conversion bound. *)
Lemma init_max_millisecond_conversion f s0 :
  is_sleeptimer_initialized s0 = false ->
  max_millisecond_conversion (snd (sl_sleeptimer_init f s0))
    = wrap32 (UINT32_MAX * 1000 / f).
Proof. intros H. unfold sl_sleeptimer_init. rewrite H. done. Qed.

(** C6 as stated: both conversions return the ceiling of [ms * f / 1000]. *)
Definition ms_to_tick_is_ceiling : Prop :=
  forall f ms s0,
    0 < f < 2 ^ 32 -> is_sleeptimer_initialized s0 = false ->
    (0 <= ms < 2 ^ 16 -> sl_sleeptimer_ms_to_tick f ms = ceil_div (ms * f) 1000) /\
    (0 <= ms < 2 ^ 32 -> forall tick,
       let s := snd (sl_sleeptimer_init f s0) in
       (ms <= max_millisecond_conversion s ->
          sl_sleeptimer_ms32_to_tick f ms tick s
            = (SL_STATUS_OK, ceil_div (ms * f) 1000)) /\
       (max_millisecond_conversion s < ms ->
          fst (sl_sleeptimer_ms32_to_tick f ms tick s) = SL_STATUS_INVALID_PARAMETER)).

Lemma ms_to_tick_not_ceiling : ~ ms_to_tick_is_ceiling.
Proof.
  intros H.
  destruct (H 32768 1000 (mk_state ∅ 0 0 0 0 0 0 None 0 false 0 0 0 0)) as [H16 _];
    [lia|done|].
  specialize (H16 ltac:(lia)). vm_compute in H16. discriminate H16.
Qed.

Lemma wrap64_small z : 0 <= z < 2 ^ 64 -> wrap64 z = z.
Proof. intros. unfold wrap64. apply Z.mod_small. lia. Qed.

(** C6, amended: both conversions return [floor (ms * f / 1000) + 1], which
    is the ceiling only when [ms * f] is not a multiple of 1000.
    [sl_sleeptimer_ms_to_tick] does so whenever the product [ms * f] fits
    in 32 bits.  After [sl_sleeptimer_init], [sl_sleeptimer_ms32_to_tick]
    returns [SL_STATUS_OK] exactly when
    [ms <= max_millisecond_conversion], with that value in the output cell
    whenever it fits in 32 bits, and otherwise returns
    [SL_STATUS_INVALID_PARAMETER] and leaves the output cell alone. *)
Theorem ms_to_tick_is_floor_plus_one f ms s0 :
  0 < f < 2 ^ 32 -> is_sleeptimer_initialized s0 = false ->
  (0 <= ms < 2 ^ 16 -> ms * f < 2 ^ 32 ->
     sl_sleeptimer_ms_to_tick f ms = ms * f / 1000 + 1) /\
  (0 <= ms < 2 ^ 32 -> forall tick,
     let s := snd (sl_sleeptimer_init f s0) in
     (ms <= max_millisecond_conversion s ->
        fst (sl_sleeptimer_ms32_to_tick f ms tick s) = SL_STATUS_OK /\
        (ms * f / 1000 + 1 < 2 ^ 32 ->
           sl_sleeptimer_ms32_to_tick f ms tick s
             = (SL_STATUS_OK, ms * f / 1000 + 1))) /\
     (max_millisecond_conversion s < ms ->
        sl_sleeptimer_ms32_to_tick f ms tick s
          = (SL_STATUS_INVALID_PARAMETER, tick))) /\
  ((ms * f) mod 1000 <> 0 -> ms * f / 1000 + 1 = ceil_div (ms * f) 1000).
Proof.
  intros Hf Hs0. split; [|split].
  - intros Hms Hfit. unfold sl_sleeptimer_ms_to_tick, sleeptimer_hal_get_timer_frequency.
    assert (0 <= ms * f) by nia.
    rewrite (wrap32_small (ms * f)) by lia.
    apply wrap32_small.
    assert (0 <= ms * f / 1000) by (apply Z.div_pos; lia).
    assert (ms * f / 1000 < 2 ^ 32 - 1) by (apply Z.div_lt_upper_bound; lia).
    lia.
  - intros Hms tick s. unfold sl_sleeptimer_ms32_to_tick, sleeptimer_hal_get_timer_frequency.
    split.
    + intros Hle. apply Z.leb_le in Hle. rewrite Hle. split; [done|].
      intros Hfit. f_equal.
      assert (0 <= ms * f < 2 ^ 64) by nia.
      rewrite (wrap64_small (ms * f)) by done.
      assert (0 <= ms * f / 1000) by (apply Z.div_pos; lia).
      rewrite wrap64_small by lia. apply wrap32_small. lia.
    + intros Hgt. apply Z.leb_gt in Hgt. rewrite Hgt. done.
  - intros Hmod. unfold ceil_div.
    pose proof (Z.div_mod (ms * f) 1000 ltac:(lia)) as Hdm.
    pose proof (Z.mod_pos_bound (ms * f) 1000 ltac:(lia)) as Hb.
    apply Z.div_unique with ((ms * f) mod 1000 - 1); lia.
Qed.

Lemma ms_to_tick_is_floor_plus_one_witness :
  sl_sleeptimer_ms_to_tick 32768 1000 = 32769 /\
  sl_sleeptimer_ms32_to_tick 32768 70000 0
    (snd (sl_sleeptimer_init 32768 (mk_state ∅ 0 0 0 0 0 0 None 0 false 0 0 0 0)))
    = (SL_STATUS_OK, 2293761).
Proof.
  destruct (ms_to_tick_is_floor_plus_one 32768 1000
              (mk_state ∅ 0 0 0 0 0 0 None 0 false 0 0 0 0)) as (H16 & _ & _);
    [lia|reflexivity|].
  destruct (ms_to_tick_is_floor_plus_one 32768 70000
              (mk_state ∅ 0 0 0 0 0 0 None 0 false 0 0 0 0)) as (_ & H32 & _);
    [lia|reflexivity|].
  split.
  - etrans; [apply H16; lia|]. reflexivity.
  - destruct (H32 ltac:(lia) 0) as [Hok _].
    destruct (Hok ltac:(vm_compute; discriminate)) as [_ Hval].
    etrans; [apply Hval; vm_compute; reflexivity|]. reflexivity.
Defined.
(** ** Epoch conversions (claim C7) *)

Lemma epoch_offsets :
  TIME_NTP_EPOCH_OFFSET_SEC = (70 * 365 + 17) * 86400 /\
  TIME_ZIGBEE_EPOCH_OFFSET_SEC = (30 * 365 + 7) * 86400.
Proof. split; reflexivity. Qed.

(** C7 as stated: both round trips succeed on every Unix timestamp of the
    signed 31-bit range. *)
Definition epoch_round_trips_everywhere : Prop :=
  forall t v w,
    0 <= t <= 2 ^ 31 - 1 ->
    (exists n, sl_sleeptimer_convert_unix_time_to_ntp t v = (SL_STATUS_OK, n) /\
               sl_sleeptimer_convert_ntp_time_to_unix n w = (SL_STATUS_OK, t)) /\
    (exists z, sl_sleeptimer_convert_unix_time_to_zigbee t v = (SL_STATUS_OK, z) /\
               sl_sleeptimer_convert_zigbee_time_to_unix z w = (SL_STATUS_OK, t)).

Lemma epoch_round_trip_fails_at_zero : ~ epoch_round_trips_everywhere.
Proof.
  intros H. destruct (H 0 0 0 ltac:(lia)) as [_ (z & Hz & _)].
  vm_compute in Hz. discriminate Hz.
Qed.

Lemma epoch_round_trip_fails_at_max :
  sl_sleeptimer_convert_unix_time_to_ntp (2 ^ 31 - 1) 0
    = (SL_STATUS_INVALID_PARAMETER, 0).
Proof. reflexivity. Qed.

(** C7, amended: with the offsets [(70*365+17)*86400] and
    [(30*365+7)*86400], a Unix timestamp [t] of the signed 31-bit range
    converts to NTP exactly when [t + offset] still fits in 32 bits
    ([t <= 2085978495]) and to Zigbee exactly when [t] is not before the
    Zigbee epoch ([t >= 946684800]); where the conversion succeeds the
    inverse conversion returns [SL_STATUS_OK] and [t]; where it does not,
    it returns [SL_STATUS_INVALID_PARAMETER] and leaves the output cell
    alone. *)
Theorem epoch_round_trips t v w :
  0 <= t <= 2 ^ 31 - 1 ->
  (t <= UINT32_MAX - (70 * 365 + 17) * 86400 ->
     sl_sleeptimer_convert_unix_time_to_ntp t v
       = (SL_STATUS_OK, t + (70 * 365 + 17) * 86400) /\
     sl_sleeptimer_convert_ntp_time_to_unix (t + (70 * 365 + 17) * 86400) w
       = (SL_STATUS_OK, t)) /\
  (UINT32_MAX - (70 * 365 + 17) * 86400 < t ->
     sl_sleeptimer_convert_unix_time_to_ntp t v = (SL_STATUS_INVALID_PARAMETER, v)) /\
  ((30 * 365 + 7) * 86400 <= t ->
     sl_sleeptimer_convert_unix_time_to_zigbee t v
       = (SL_STATUS_OK, t - (30 * 365 + 7) * 86400) /\
     sl_sleeptimer_convert_zigbee_time_to_unix (t - (30 * 365 + 7) * 86400) w
       = (SL_STATUS_OK, t)) /\
  (t < (30 * 365 + 7) * 86400 ->
     sl_sleeptimer_convert_unix_time_to_zigbee t v = (SL_STATUS_INVALID_PARAMETER, v)).
Proof.
  intros Ht.
  unfold sl_sleeptimer_convert_unix_time_to_ntp, sl_sleeptimer_convert_ntp_time_to_unix,
    sl_sleeptimer_convert_unix_time_to_zigbee, sl_sleeptimer_convert_zigbee_time_to_unix,
    is_valid_time.
  change TIME_NTP_EPOCH_OFFSET_SEC with 2208988800.
  change TIME_ZIGBEE_EPOCH_OFFSET_SEC with 946684800.
  change TIME_UNIX_TIMESTAMP_MAX with 2147483647.
  change UINT32_MAX with 4294967295.
  change ((70 * 365 + 17) * 86400) with 2208988800.
  change ((30 * 365 + 7) * 86400) with 946684800.
  change (wrap32 (4294967295 - 0)) with 4294967295.
  change (wrap32 (2147483647 - 946684800)) with 1200798847.
  change (0 <? 0) with false. change (0 >=? 0) with true. simpl.
  repeat split; intros.
  - rewrite (wrap32_small (t + 2208988800)) by (unfold is_u32; lia).
    replace (t + 2208988800 >=? 2208988800) with true by (symmetry; rewrite Z.geb_leb; lia).
    replace (t + 2208988800 <=? 4294967295) with true by lia. done.
  - replace (t + 2208988800 - 2208988800) with t by lia.
    rewrite (wrap32_small t) by lia.
    replace (t >? 2147483647) with false by lia.
    replace (t <=? 4294967295) with true by lia. done.
  - replace (wrap32 (t + 2208988800)) with (t + 2208988800 - 2 ^ 32).
    + replace (t + 2208988800 - 2 ^ 32 >=? 2208988800) with false
        by (symmetry; rewrite Z.geb_leb; lia). done.
    + unfold wrap32. apply Z.mod_unique with 1; lia.
  - rewrite (wrap32_small (t - 946684800)) by lia.
    replace (t - 946684800 <=? 1200798847) with true by lia.
    replace (t - 946684800 <=? 4294967295) with true by lia. done.
  - replace (t - 946684800 + 946684800) with t by lia.
    rewrite (wrap32_small t) by lia.
    replace (t >? 2147483647) with false by lia.
    replace (t <=? 4294967295) with true by lia. done.
  - replace (wrap32 (t - 946684800)) with (t - 946684800 + 2 ^ 32).
    + replace (t - 946684800 + 2 ^ 32 <=? 1200798847) with false by lia. done.
    + unfold wrap32. apply Z.mod_unique with (-1); lia.
Qed.

Lemma epoch_round_trips_witness :
  sl_sleeptimer_convert_unix_time_to_ntp 1700000000 0 = (SL_STATUS_OK, 3908988800) /\
  sl_sleeptimer_convert_ntp_time_to_unix 3908988800 0 = (SL_STATUS_OK, 1700000000) /\
  sl_sleeptimer_convert_unix_time_to_zigbee 1700000000 0 = (SL_STATUS_OK, 753315200) /\
  sl_sleeptimer_convert_zigbee_time_to_unix 753315200 0 = (SL_STATUS_OK, 1700000000).
Proof.
  destruct (epoch_round_trips 1700000000 0 0 ltac:(lia)) as (Hntp & _ & Hzb & _).
  destruct (Hntp ltac:(vm_compute; discriminate)) as [H1 H2].
  destruct (Hzb ltac:(vm_compute; discriminate)) as [H3 H4].
  split; [exact H1|]. split; [exact H2|]. split; [exact H3 | exact H4].
Defined.

(** ** Setting and reading the wall clock (claim C9) *)

(** C9: with a positive frequency and a 32-bit counter, a timestamp [t] of
    the signed 31-bit range that is not below [counter / frequency] is
    accepted by [sl_sleeptimer_set_time] with [SL_STATUS_OK]; the residue
    [overflow_tick_rest] is cleared, [second_count] is rebased, nothing
    else changes, and [sl_sleeptimer_get_time] right after (same counter)
    returns [t].  A 32-bit timestamp above [2^31 - 1] is refused with
    [SL_STATUS_INVALID_PARAMETER] and the state is left alone. *)
Theorem set_time_get_time f t s :
  0 < f -> is_u32 (hal_counter s) -> is_u32 t ->
  (t <= 2 ^ 31 - 1 -> hal_counter s / f <= t ->
     exists s',
       sl_sleeptimer_set_time f t s = (SL_STATUS_OK, s') /\
       overflow_tick_rest s' = 0 /\
       second_count s' = t - hal_counter s / f /\
       s' = set_second_count (second_count s') (set_overflow_tick_rest 0 s) /\
       sl_sleeptimer_get_time f s' = t) /\
  (2 ^ 31 - 1 < t ->
     sl_sleeptimer_set_time f t s = (SL_STATUS_INVALID_PARAMETER, s)).
Proof.
  intros Hf Hc Ht. unfold is_u32 in *.
  unfold sl_sleeptimer_set_time, sl_sleeptimer_get_time, is_valid_time,
    sl_sleeptimer_get_timer_frequency, sleeptimer_hal_get_timer_frequency,
    sleeptimer_hal_get_counter.
  change TIME_UNIX_TIMESTAMP_MAX with 2147483647.
  change (wrap32 (UINT32_MAX - 0)) with 4294967295.
  change (0 <? 0) with false. change (0 >=? 0) with true. simpl.
  assert (Hq : 0 <= hal_counter s / f) by (apply Z.div_pos; lia).
  split.
  - intros Hmax Hge.
    replace (t >? 2147483647) with false by lia.
    replace (t <=? 4294967295) with true by lia. simpl.
    replace (t >=? hal_counter s / f) with true by (symmetry; rewrite Z.geb_leb; lia).
    eexists. split; [done|]. simpl.
    rewrite (wrap32_small (t - hal_counter s / f)) by lia.
    split; [done|]. split; [done|]. split; [done|].
    replace (t - hal_counter s / f + hal_counter s / f) with t by lia.
    rewrite Z.add_0_r.
    pose proof (Z.mod_pos_bound (hal_counter s) f Hf) as Hm.
    assert (hal_counter s mod f <= hal_counter s) by (apply Z.mod_le; lia).
    rewrite (wrap32_small (hal_counter s mod f)) by lia.
    replace (hal_counter s mod f >=? f) with false by (symmetry; rewrite Z.geb_leb; lia).
    apply wrap32_small. lia.
  - intros Hgt. replace (t >? 2147483647) with true by lia. done.
Qed.

Lemma set_time_get_time_witness :
  exists s',
    sl_sleeptimer_set_time 32768 1700000000 sample_state = (SL_STATUS_OK, s') /\
    sl_sleeptimer_get_time 32768 s' = 1700000000.
Proof.
  destruct (set_time_get_time 32768 1700000000 sample_state) as [Hok _].
  - lia.
  - vm_compute. split; [discriminate|reflexivity].
  - unfold is_u32. lia.
  - destruct (Hok ltac:(lia) ltac:(vm_compute; discriminate))
      as (s' & Hset & _ & _ & _ & Hget).
    exists s'. split; [exact Hset | exact Hget].
Defined.
(** ** Calendar round trip (claim C8) *)

(** The part of [sl_sleeptimer_convert_date_to_time] that depends on the
    day only: the seconds from the epoch to the start of the day. *)
Definition date_days (y m dd : Z) : option Z :=
  let full_year := wrap8 (wrap32 (y - TIME_NTP_UNIX_EPOCH_DIFF)) in
  let mon := wrap8 m in
  let time := wrap32 (full_year * TIME_SEC_PER_YEAR) in
  let month_days :=
    if full_year >? 2 then wrap8 (TIME_LEAP_DAYS_UP_TO_YEAR full_year) else 0 in
  month_days ← add_month_days (days_in_month_row (is_leap_year y))
                              (Z.to_nat mon) month_days;
  let month_days := wrap16 (month_days + (dd - 1)) in
  Some (wrap32 (time + wrap32 (month_days * TIME_SEC_PER_DAY))).

(** The part of [sl_sleeptimer_convert_time_to_date] that works on the
    number of days since the epoch: day of month, month, year, day of week
    and day of year. *)
Definition days_date (time : Z) : option (Z * Z * Z * Z * Z) :=
  let d_day_of_week := compute_day_of_week time in
  let full_year := wrap8 (time / TIME_DAY_PER_YEAR) in
  let '(full_year, leap_day) :=
    if full_year >? 2 then
      let leap_day := wrap8 (TIME_LEAP_DAYS_UP_TO_YEAR full_year) in
      let full_year := wrap8 (wrap32 (time - leap_day) / TIME_DAY_PER_YEAR) in
      let leap_day := wrap8 (TIME_LEAP_DAYS_UP_TO_YEAR full_year) in
      (full_year, leap_day)
    else (full_year, 0) in
  let d_year := wrap16 (TIME_NTP_UNIX_EPOCH_DIFF + full_year) in
  let leap_year_flag := is_leap_year d_year in
  let time := wrap32 (wrap32 (time - leap_day) - wrap32 (TIME_DAY_PER_YEAR * full_year)) in
  let d_day_of_year := wrap16 (time + 1) in
  '(time, current_month) ← month_loop (days_in_month_row leap_year_flag) time 0;
  Some (wrap8 (time + 1), current_month, d_year, d_day_of_week, d_day_of_year).

Lemma convert_date_to_time_days d v :
  is_valid_date (Some d) = true ->
  sl_sleeptimer_convert_date_to_time (Some d) v =
    t0 ← date_days (year d) (month d) (month_day d);
    Some (SL_STATUS_OK,
          wrap32 (wrap32 (t0 + (3600 * hour d + 60 * min d + sec d)) + time_zone d)).
Proof.
  intros Hv. unfold sl_sleeptimer_convert_date_to_time, date_days. rewrite Hv. simpl.
  destruct (add_month_days _ _ _); done.
Qed.

Lemma convert_time_to_date_days t tz d0 :
  is_valid_time t TIME_FORMAT_UNIX tz = true ->
  sl_sleeptimer_convert_time_to_date t tz d0 =
    '(dd, m, y, dow, doy) ← days_date (t / 60 / 60 / 24);
    Some (SL_STATUS_OK,
          mk_date (wrap8 (t mod 60)) (wrap8 (t / 60 mod 60)) (wrap8 (t / 60 / 60 mod 24))
                  dd m y dow doy tz).
Proof.
  intros Hv. unfold sl_sleeptimer_convert_time_to_date, days_date. rewrite Hv. simpl.
  destruct (wrap8 (t / 60 / 60 / 24 / TIME_DAY_PER_YEAR) >? 2);
    destruct (month_loop _ _ _) as [[? ?]|]; done.
Qed.

(** One day of the calendar goes through both conversions unharmed. *)
Definition day_round_trips (y m dd : Z) : bool :=
  match date_days y m dd with
  | Some t0 =>
    (t0 mod 86400 =? 0)
    && (t0 / 86400 <=? (if y <? 138 then 24836 else 24855))
    && match days_date (t0 / 86400) with
       | Some (dd', m', y', _, _) => (y' =? y) && (m' =? m) && (dd' =? dd)
       | None => false
       end
  | None => false
  end.

(** Midnight of the day of a date. *)
Definition midnight (y m dd : Z) : sl_sleeptimer_date_t :=
  mk_date 0 0 0 dd m y 0 0 0.

Definition calendar_checked : bool :=
  forallb (fun y =>
    forallb (fun m =>
      forallb (fun dd =>
        implb (is_valid_date (Some (midnight y m dd))
               && negb ((y =? 72) && (m =? 11) && (dd =? 31)))
              (day_round_trips y m dd))
        (seqZ 1 31))
      (seqZ 0 12))
    (seqZ 70 69).

Lemma calendar_checked_true : calendar_checked = true.
Proof. vm_compute. reflexivity. Qed.
Lemma day_checked y m dd :
  70 <= y <= 138 -> 0 <= m <= 11 -> 1 <= dd <= 31 ->
  is_valid_date (Some (midnight y m dd)) = true ->
  ~ (y = 72 /\ m = 11 /\ dd = 31) ->
  day_round_trips y m dd = true.
Proof.
  intros Hy Hm Hd Hv Hne.
  pose proof calendar_checked_true as Hall. unfold calendar_checked in Hall.
  rewrite forallb_forall in Hall.
  specialize (Hall y). rewrite <- list_elem_of_In, elem_of_seqZ in Hall.
  specialize (Hall ltac:(lia)). rewrite forallb_forall in Hall.
  specialize (Hall m). rewrite <- list_elem_of_In, elem_of_seqZ in Hall.
  specialize (Hall ltac:(lia)). rewrite forallb_forall in Hall.
  specialize (Hall dd). rewrite <- list_elem_of_In, elem_of_seqZ in Hall.
  specialize (Hall ltac:(lia)). rewrite Hv in Hall. simpl in Hall.
  destruct (negb ((y =? 72) && (m =? 11) && (dd =? 31))) eqn:E; [done|].
  exfalso. apply Hne. apply negb_false_iff in E.
  apply andb_true_iff in E as [E E3]. apply andb_true_iff in E as [E1 E2]. lia.
Qed.

Lemma days_in_month_le leap m dim : days_in_month leap m = Some dim -> 1 <= dim <= 31.
Proof.
  unfold days_in_month. destruct (m <? 0); [done|]. intros H.
  apply list_elem_of_lookup_2 in H.
  assert (Hall : Forall (fun x => 1 <= x <= 31) (days_in_month_row leap)).
  { destruct leap; repeat constructor; lia. }
  by apply (proj1 (Forall_forall _ _) Hall).
Qed.

(** What [is_valid_date] guarantees about a date whose fields are unsigned. *)
Lemma is_valid_date_bounds d :
  0 <= sec d -> 0 <= min d -> 0 <= hour d -> 0 <= month_day d -> 0 <= month d ->
  is_valid_date (Some d) = true ->
  is_valid_date (Some (midnight (year d) (month d) (month_day d))) = true /\
  year d <= 138 /\ month d <= 11 /\ 1 <= month_day d <= 31 /\
  hour d <= 23 /\ min d <= 59 /\ sec d <= 59 /\
  (year d = 138 -> 3600 * hour d + 60 * min d + sec d <= 11647).
Proof.
  intros Hs Hmi Hh Hmd Hmo. unfold is_valid_date, midnight. simpl.
  change TIME_UNIX_YEAR_MAX with 138. change MONTH_DECEMBER with 11.
  change MONTH_JANUARY with 0.
  destruct (Z.gtb_spec (year d) 138); [done|].
  destruct (Z.gtb_spec (month d) 11); [done|]. simpl.
  destruct (days_in_month (is_leap_year (year d)) (month d)) as [dim|] eqn:Hdim; [|done].
  pose proof (days_in_month_le _ _ _ Hdim) as Hle.
  destruct (Z.eqb_spec (month_day d) 0); [done|].
  destruct (Z.gtb_spec (month_day d) dim); [done|]. simpl.
  destruct (Z.gtb_spec (hour d) 23); [done|].
  destruct (Z.gtb_spec (min d) 59); [done|].
  destruct (Z.gtb_spec (sec d) 59); [done|]. simpl.
  destruct (Z.eqb_spec (year d) 138).
  - destruct (Z.gtb_spec (month d) 0); [done|].
    destruct (Z.gtb_spec (month_day d) 19); [done|].
    destruct (Z.gtb_spec (hour d) 3); [done|].
    destruct (Z.gtb_spec (min d) 14); [done|].
    destruct (Z.gtb_spec (sec d) 7); [done|].
    intros _. repeat split; lia.
  - intros _. repeat split; lia.
Qed.

Lemma date_days_range y m dd t0 : date_days y m dd = Some t0 -> 0 <= t0 < 2 ^ 32.
Proof.
  unfold date_days. destruct (add_month_days _ _ _); simpl; [|done].
  intros [= <-]. apply wrap32_range.
Qed.

Lemma wrap8_small z : 0 <= z < 2 ^ 8 -> wrap8 z = z.
Proof. intros. unfold wrap8. apply Z.mod_small. lia. Qed.

(** Splitting a timestamp into day, hour, minute and second. *)
Lemma split_timestamp D h mi s :
  0 <= D -> 0 <= h <= 23 -> 0 <= mi <= 59 -> 0 <= s <= 59 ->
  let t := D * 86400 + (3600 * h + 60 * mi + s) in
  t mod 60 = s /\ t / 60 mod 60 = mi /\ t / 60 / 60 mod 24 = h /\ t / 60 / 60 / 24 = D.
Proof.
  intros HD Hh Hmi Hs t.
  assert (H1 : t / 60 = D * 1440 + 60 * h + mi).
  { symmetry. apply Z.div_unique with s; unfold t; lia. }
  assert (H2 : t / 60 / 60 = D * 24 + h).
  { rewrite H1. symmetry. apply Z.div_unique with mi; lia. }
  split; [|split; [|split]].
  - symmetry. apply Z.mod_unique with (D * 1440 + 60 * h + mi); unfold t; lia.
  - rewrite H1. symmetry. apply Z.mod_unique with (D * 24 + h); lia.
  - rewrite H2. symmetry. apply Z.mod_unique with D; lia.
  - rewrite H2. symmetry. apply Z.div_unique with h; lia.
Qed.

(** C8 as stated: the round trip holds for every date the service accepts
    from 1970 on, with its own time zone. *)
Definition date_round_trips_with_any_zone : Prop :=
  forall d v d0,
    0 <= sec d -> 0 <= min d -> 0 <= hour d -> 0 <= month_day d -> 0 <= month d ->
    70 <= year d -> is_valid_date (Some d) = true ->
    exists t d',
      sl_sleeptimer_convert_date_to_time (Some d) v = Some (SL_STATUS_OK, t) /\
      sl_sleeptimer_convert_time_to_date t (time_zone d) d0 = Some (SL_STATUS_OK, d') /\
      year d' = year d /\ month d' = month d /\ month_day d' = month_day d /\
      hour d' = hour d /\ min d' = min d /\ sec d' = sec d.

(** 1970-01-02 00:00:00 in a zone one hour east comes back as 01:00:00. *)
Lemma date_round_trip_shifts_by_zone : ~ date_round_trips_with_any_zone.
Proof.
  intros H.
  destruct (H (mk_date 0 0 0 2 0 70 0 0 3600) 0 (mk_date 0 0 0 0 0 0 0 0 0))
    as (t & d' & Ht & Hd & _ & _ & _ & Hh & _); simpl; try lia; try done.
  vm_compute in Ht. injection Ht as <-.
  vm_compute in Hd. injection Hd as <-. simpl in Hh. discriminate Hh.
Qed.

(** 1972-12-31 comes back as 1972-12-30, whatever the zone. *)
Lemma date_round_trip_loses_a_day :
  sl_sleeptimer_convert_date_to_time (Some (mk_date 0 0 0 31 11 72 0 0 0)) 0
    = Some (SL_STATUS_OK, 94608000) /\
  sl_sleeptimer_convert_time_to_date 94608000 0 (mk_date 0 0 0 0 0 0 0 0 0)
    = Some (SL_STATUS_OK, mk_date 0 0 0 30 11 72 0 365 0).
Proof. split; reflexivity. Qed.

(** C8, amended: for every date that [is_valid_date] accepts, from 1970 on,
    whose [time_zone] is 0, other than 1972-12-31,
    [sl_sleeptimer_convert_date_to_time] returns [SL_STATUS_OK] and
    [sl_sleeptimer_convert_time_to_date] of the result, in zone 0, returns
    [SL_STATUS_OK] and the same year, month, day of month, hour, minute and
    second. *)
Theorem date_round_trip d v d0 :
  0 <= sec d -> 0 <= min d -> 0 <= hour d -> 0 <= month_day d -> 0 <= month d ->
  70 <= year d -> is_valid_date (Some d) = true ->
  time_zone d = 0 ->
  ~ (year d = 72 /\ month d = 11 /\ month_day d = 31) ->
  exists t d',
    sl_sleeptimer_convert_date_to_time (Some d) v = Some (SL_STATUS_OK, t) /\
    sl_sleeptimer_convert_time_to_date t 0 d0 = Some (SL_STATUS_OK, d') /\
    year d' = year d /\ month d' = month d /\ month_day d' = month_day d /\
    hour d' = hour d /\ min d' = min d /\ sec d' = sec d.
Proof.
  intros Hs Hmi Hh Hmd Hmo Hy Hv Htz Hne.
  destruct (is_valid_date_bounds d Hs Hmi Hh Hmd Hmo Hv)
    as (Hv0 & Hy' & Hmo' & Hmd' & Hh' & Hmi' & Hs' & H138).
  pose proof (day_checked (year d) (month d) (month_day d) ltac:(lia) ltac:(lia)
                ltac:(lia) Hv0 Hne) as Hck.
  unfold day_round_trips in Hck.
  destruct (date_days (year d) (month d) (month_day d)) as [t0|] eqn:Hdd; [|done].
  apply andb_true_iff in Hck as [Hck Hck3].
  apply andb_true_iff in Hck as [Hck1 Hck2].
  apply Z.eqb_eq in Hck1. apply Z.leb_le in Hck2.
  destruct (days_date (t0 / 86400)) as [[[[[dd' m'] y'] dow] doy]|] eqn:Hdy; [|done].
  apply andb_true_iff in Hck3 as [Hck3 Hck6].
  apply andb_true_iff in Hck3 as [Hck4 Hck5].
  apply Z.eqb_eq in Hck4, Hck5, Hck6. subst y' m' dd'.
  pose proof (date_days_range _ _ _ _ Hdd) as Hr.
  set (D := t0 / 86400) in *.
  assert (Ht0 : t0 = D * 86400).
  { pose proof (Z.div_mod t0 86400 ltac:(lia)). unfold D. lia. }
  assert (HD : 0 <= D) by (unfold D; apply Z.div_pos; lia).
  set (x := 3600 * hour d + 60 * min d + sec d).
  assert (Hx : 0 <= x <= 86399) by (unfold x; lia).
  assert (Ht : 0 <= t0 + x <= 2147483647).
  { destruct (Z.ltb_spec (year d) 138); [lia|].
    assert (year d = 138) by lia. specialize (H138 ltac:(done)). fold x in H138. lia. }
  exists (t0 + x). eexists. split; [|split].
  - rewrite (convert_date_to_time_days d v Hv), Hdd, Htz. simpl. fold x.
    rewrite Z.add_0_r, wrap32_idemp, wrap32_small by lia. done.
  - rewrite convert_time_to_date_days.
    + destruct (split_timestamp D (hour d) (min d) (sec d)) as (E1 & E2 & E3 & E4);
        try lia.
      fold x in E1, E2, E3, E4. rewrite <- Ht0 in E1, E2, E3, E4.
      rewrite E1, E2, E3, E4, Hdy. simpl. done.
    + unfold is_valid_time. change TIME_UNIX_TIMESTAMP_MAX with 2147483647.
      change (wrap32 (UINT32_MAX - 0)) with 4294967295.
      replace (t0 + x >? 2147483647) with false by lia.
      replace (t0 + x <=? 4294967295) with true by lia. done.
  - simpl. repeat split; try done; apply wrap8_small; lia.
Qed.

Lemma date_round_trip_witness :
  exists t d',
    sl_sleeptimer_convert_date_to_time (Some (mk_date 0 0 12 29 1 124 0 0 0)) 0
      = Some (SL_STATUS_OK, t) /\
    sl_sleeptimer_convert_time_to_date t 0 (mk_date 0 0 0 0 0 0 0 0 0)
      = Some (SL_STATUS_OK, d') /\
    year d' = 124 /\ month d' = 1 /\ month_day d' = 29 /\
    hour d' = 12 /\ min d' = 0 /\ sec d' = 0.
Proof.
  apply (date_round_trip (mk_date 0 0 12 29 1 124 0 0 0) 0 (mk_date 0 0 0 0 0 0 0 0 0));
    simpl; try lia; try reflexivity.
Defined.
(** ** Dispatch order (claim C2) *)

(** [before l a b]: [a] stands before [b] on the list [l]. *)
Definition before (l : list addr) (a b : addr) : Prop := [a; b] `sublist_of` l.

Lemma before_cons_inv t l a b :
  before (t :: l) a b -> (a = t /\ b ∈ l) \/ before l a b.
Proof.
  unfold before. rewrite sublist_cons_r. intros [H|(l' & [= -> <-] & H)]; [by right|].
  left. split; [done|]. eapply elem_of_sublist; [|exact H]. left.
Qed.

Lemma before_elem_of l a b : before l a b -> a ∈ l /\ b ∈ l.
Proof.
  unfold before. intros H. split; (eapply elem_of_sublist; [|exact H]).
  - left.
  - right. left.
Qed.

Lemma before_irrefl l a : NoDup l -> ~ before l a a.
Proof.
  intros Hnd H. apply (sublist_NoDup _ _ Hnd) in H.
  apply NoDup_cons in H as [H _]. apply H. left.
Qed.



Lemma before_cons_head t l b : b ∈ l -> before (t :: l) t b.
Proof.
  intros H. unfold before. apply sublist_skip.
  apply list_elem_of_split in H as (l1 & l2 & ->).
  apply sublist_inserts_l, sublist_skip, sublist_nil_l.
Qed.

Lemma before_cons_tail t l a b : before l a b -> before (t :: l) a b.
Proof. unfold before. intros H. by apply sublist_cons. Qed.

Lemma cum_ge_head d a t l :
  (forall b, b ∈ l -> 0 <= d b) -> d t <= cum d a (t :: l).
Proof.
  intros H. simpl. destruct (decide (t = a)); [lia|].
  pose proof (cum_nonneg d a l H). lia.
Qed.

Lemma delta_at_nonneg hp l b :
  Forall (fun a => is_u32 (delta_at hp a)) l -> b ∈ l -> 0 <= delta_at hp b.
Proof.
  intros Hall Hb. pose proof (proj1 (Forall_forall _ _) Hall b Hb) as H.
  unfold is_u32 in H. lia.
Qed.

(** The scan of [process_timer_irq] over the rest of the list, with a
    current candidate [cur] that is not on the rest. *)
Lemma expired_scan_rest hp rest : forall p cur dt fuel,
  chain hp p rest ->
  Forall (fun a => is_u32 (delta_at hp a)) rest ->
  is_Some (hp !! cur) -> is_u32 dt -> (length rest <= fuel)%nat ->
  exists X,
    expired_scan fuel hp dt cur p = Some X /\
    ((X = cur /\
      forall Y, Y ∈ rest -> cum (delta_at hp) Y rest <= dt ->
                priority_at hp cur <= priority_at hp Y) \/
     (X ∈ rest /\ cum (delta_at hp) X rest <= dt /\
      priority_at hp X < priority_at hp cur /\
      (forall Y, Y ∈ rest -> cum (delta_at hp) Y rest <= dt ->
                 priority_at hp X <= priority_at hp Y) /\
      (forall Y, before rest Y X -> priority_at hp X < priority_at hp Y))).
Proof.
  induction rest as [|t rest IH]; intros p cur dt fuel Hc Hall Hcur Hdt Hf.
  - unfold chain in Hc. simpl in Hc. subst p. exists cur.
    split; [by destruct fuel|]. left. split; [done|]. intros Y HY. inversion HY.
  - pose proof (chain_NoDup _ _ _ Hc) as Hnd.
    apply NoDup_cons in Hnd as [Htr Hnd].
    unfold chain in Hc. simpl in Hc. destruct Hc as (-> & th & Hth & Hc).
    apply Forall_cons in Hall as [Hut Hall].
    assert (Hdt_t : delta_at hp t = delta th) by (unfold delta_at; by rewrite Hth).
    assert (Hpt : priority_at hp t = priority th) by (unfold priority_at; by rewrite Hth).
    assert (Hnn : forall b, b ∈ rest -> 0 <= delta_at hp b).
    { intros b Hb. by apply (delta_at_nonneg hp rest). }
    destruct Hcur as [ch Hch].
    assert (Hpc : priority_at hp cur = priority ch) by (unfold priority_at; by rewrite Hch).
    destruct fuel as [|fuel]; [simpl in Hf; lia|].
    simpl. rewrite Hth. simpl.
    destruct (Z.geb_spec dt (delta th)) as [Hge|Hlt].
    + rewrite Hch. simpl.
      assert (Hdt' : wrap32 (dt - delta th) = dt - delta th).
      { apply wrap32_small. rewrite Hdt_t in Hut. unfold is_u32 in *. lia. }
      rewrite Hdt'.
      assert (Hfit : forall Y, Y ∈ rest -> cum (delta_at hp) Y (t :: rest) <= dt ->
                cum (delta_at hp) Y rest <= dt - delta th).
      { intros Y HY. simpl. rewrite decide_False by (intros ->; done). lia. }
      destruct (Z.gtb_spec (priority ch) (priority th)) as [Hgt|Hle].
      * (* [t] becomes the candidate *)
        destruct (IH (next th) t (dt - delta th) fuel Hc Hall ltac:(eauto))
          as (X & HX & Hres); [rewrite Hdt_t in Hut; unfold is_u32 in *; lia
                              |simpl in Hf; lia|].
        exists X. split; [done|]. right.
        destruct Hres as [[-> Hmin]|(HXin & HXfit & HXlt & Hmin & Hfirst)].
        -- split; [left|]. split; [simpl; rewrite decide_True by done; lia|].
           split; [lia|]. split.
           ++ intros Y HY HYfit. apply elem_of_cons in HY as [->|HY]; [lia|].
              apply Hmin; [done|]. by apply Hfit.
           ++ intros Y HY. exfalso. apply before_cons_inv in HY as [[-> HY]|HY].
              ** done.
              ** apply before_elem_of in HY as [_ HY]. done.
        -- assert (X <> t) by (intros ->; done).
           split; [by right|]. split; [simpl; rewrite decide_False by done; lia|].
           split; [lia|]. split.
           ++ intros Y HY HYfit. apply elem_of_cons in HY as [->|HY]; [lia|].
              apply Hmin; [done|]. by apply Hfit.
           ++ intros Y HY. apply before_cons_inv in HY as [[-> HY]|HY]; [lia|].
              by apply Hfirst.
      * (* the candidate stays *)
        destruct (IH (next th) cur (dt - delta th) fuel Hc Hall ltac:(eauto))
          as (X & HX & Hres); [rewrite Hdt_t in Hut; unfold is_u32 in *; lia
                              |simpl in Hf; lia|].
        exists X. split; [done|].
        destruct Hres as [[-> Hmin]|(HXin & HXfit & HXlt & Hmin & Hfirst)].
        -- left. split; [done|].
           intros Y HY HYfit. apply elem_of_cons in HY as [->|HY]; [lia|].
           apply Hmin; [done|]. by apply Hfit.
        -- right. assert (X <> t) by (intros ->; done).
           split; [by right|]. split; [simpl; rewrite decide_False by done; lia|].
           split; [lia|]. split.
           ++ intros Y HY HYfit. apply elem_of_cons in HY as [->|HY]; [lia|].
              apply Hmin; [done|]. by apply Hfit.
           ++ intros Y HY. apply before_cons_inv in HY as [[-> HY]|HY]; [lia|].
              by apply Hfirst.
    + exists cur. split; [done|]. left. split; [done|].
      intros Y HY HYfit. exfalso.
      pose proof (cum_ge_head (delta_at hp) Y t rest Hnn) as H. simpl in H, HYfit. lia.
Qed.
Definition period_at (hp : gmap addr sl_sleeptimer_timer_handle_t) (a : addr) : Z :=
  from_option timeout_periodic 0 (hp !! a).

Definition callback_at (hp : gmap addr sl_sleeptimer_timer_handle_t) (a : addr)
    : option callback_id :=
  hp !! a ≫= callback.

Definition data_at (hp : gmap addr sl_sleeptimer_timer_handle_t) (a : addr) : Z :=
  from_option callback_data 0 (hp !! a).

Lemma attrs_eq_inv hp hp' a :
  attrs <$> hp' !! a = attrs <$> hp !! a ->
  priority_at hp' a = priority_at hp a /\ period_at hp' a = period_at hp a /\
  callback_at hp' a = callback_at hp a /\ data_at hp' a = data_at hp a /\
  (is_Some (hp' !! a) <-> is_Some (hp !! a)).
Proof.
  unfold priority_at, period_at, callback_at, data_at, attrs.
  destruct (hp' !! a) as [h'|], (hp !! a) as [h|]; simpl; intros H; try done.
  injection H as -> -> _ -> ->. repeat split; eauto.
Qed.

(** The whole-list form of the scan, started as the source starts it. *)
Lemma expired_scan_spec hp l hd dt fuel :
  chain hp (Some hd) l ->
  Forall (fun a => is_u32 (delta_at hp a)) l ->
  is_u32 dt -> delta_at hp hd <= dt -> (length l <= fuel)%nat ->
  exists X,
    expired_scan fuel hp dt hd (Some hd) = Some X /\
    X ∈ l /\ cum (delta_at hp) X l <= dt /\
    (forall Y, Y ∈ l -> cum (delta_at hp) Y l <= dt ->
               priority_at hp X <= priority_at hp Y) /\
    (forall Y, before l Y X -> priority_at hp X < priority_at hp Y).
Proof.
  intros Hc Hall Hdt Hfit Hf.
  pose proof (chain_NoDup _ _ _ Hc) as Hnd.
  destruct l as [|t rest]; [unfold chain in Hc; simpl in Hc; done|].
  unfold chain in Hc. simpl in Hc. destruct Hc as ([= <-] & hh & Hh & Hc).
  apply NoDup_cons in Hnd as [Hnot Hnd].
  apply Forall_cons in Hall as [Hu Hall].
  assert (Hd : delta_at hp hd = delta hh) by (unfold delta_at; by rewrite Hh).
  assert (Hnn : forall b, b ∈ rest -> 0 <= delta_at hp b).
  { intros b Hb. by apply (delta_at_nonneg hp rest). }
  destruct fuel as [|fuel]; [simpl in Hf; lia|].
  simpl. rewrite Hh. simpl.
  replace (dt >=? delta hh) with true by (symmetry; rewrite Z.geb_leb; lia).
  replace (priority hh >? priority hh) with false by lia.
  assert (Hdt' : wrap32 (dt - delta hh) = dt - delta hh).
  { apply wrap32_small. rewrite Hd in Hu. unfold is_u32 in *. lia. }
  rewrite Hdt'.
  destruct (expired_scan_rest hp rest (next hh) hd (dt - delta hh) fuel Hc Hall
              ltac:(eauto)) as (X & HX & Hres);
    [rewrite Hd in Hu; unfold is_u32 in *; lia | simpl in Hf; lia|].
  exists X. split; [done|].
  assert (Hfit' : forall Y, Y ∈ rest -> cum (delta_at hp) Y (hd :: rest) <= dt ->
            cum (delta_at hp) Y rest <= dt - delta hh).
  { intros Y HY. simpl. rewrite decide_False by (intros ->; done). lia. }
  destruct Hres as [[-> Hmin]|(HXin & HXfit & HXlt & Hmin & Hfirst)].
  - split; [left|]. split; [simpl; rewrite decide_True by done; lia|]. split.
    + intros Y HY HYfit. apply elem_of_cons in HY as [->|HY]; [lia|].
      apply Hmin; [done|]. by apply Hfit'.
    + intros Y HY. exfalso. apply before_cons_inv in HY as [[-> HY]|HY]; [done|].
      apply before_elem_of in HY as [_ HY]. done.
  - assert (X <> hd) by (intros ->; done).
    split; [by right|]. split; [simpl; rewrite decide_False by done; lia|]. split.
    + intros Y HY HYfit. apply elem_of_cons in HY as [->|HY]; [lia|].
      apply Hmin; [done|]. by apply Hfit'.
    + intros Y HY. apply before_cons_inv in HY as [[-> HY]|HY]; [lia|].
      by apply Hfirst.
Qed.

Lemma cum_le_sum d a l : (forall b, b ∈ l -> 0 <= d b) -> cum d a l <= sum_of d l.
Proof.
  induction l as [|b l IH]; intros H; simpl; [lia|].
  assert (0 <= sum_of d l).
  { clear IH. induction l as [|c l IH]; simpl; [lia|].
    pose proof (H c ltac:(right; left)).
    assert (0 <= sum_of d l); [|lia].
    apply IH. intros x Hx. apply H. apply elem_of_cons in Hx as [->|Hx]; [left|].
    right. by right. }
  destruct (decide (b = a)); [lia|].
  assert (cum d a l <= sum_of d l) by (apply IH; intros c Hc; apply H; by right). lia.
Qed.

(** One pass of the dispatch loop, first half: the chosen handle's delta is
    zeroed and the handle is unlinked; no other delta changes. *)
Lemma dispatch_unlink wfuel s2 s l1 X l2 ch :
  delta_list s (l1 ++ X :: l2) -> heap s !! X = Some ch ->
  heap s2 = <[X := set_delta 0 ch]> (heap s) -> timer_head s2 = timer_head s ->
  (length l1 <= wfuel)%nat ->
  exists s3,
    delta_list_remove_timer wfuel X s2 = Some (SL_STATUS_OK, s3) /\
    delta_list s3 (l1 ++ l2) /\ same_globals s2 s3 /\
    heap s3 !! X = Some (set_delta 0 ch) /\
    (forall a, attrs <$> heap s3 !! a = attrs <$> heap s !! a) /\
    (forall a, a <> X -> delta_at (heap s3) a = delta_at (heap s) a).
Proof.
  intros [Hc Hall] Hch Hheap Hhd Hf.
  assert (Hc2 : chain (heap s2) (timer_head s2) (l1 ++ X :: l2)).
  { rewrite Hhd, Hheap. eapply lseg_frame; [|exact Hc]. intros a Ha.
    destruct (decide (a = X)) as [->|Hne].
    - rewrite lookup_insert_eq, Hch. done.
    - by rewrite lookup_insert_ne. }
  destruct (delta_list_remove_timer_spec wfuel s2 l1 X l2 Hc2 Hf)
    as (s3 & Hrem & Hc3 & Hsg & Hattrs & Hsame & Hhd2 & HX).
  assert (Hd2 : forall a, a <> X -> delta_at (heap s2) a = delta_at (heap s) a).
  { intros a Ha. rewrite Hheap. by apply delta_at_insert_ne. }
  assert (HdX : delta_at (heap s2) X = 0).
  { rewrite Hheap. by rewrite delta_at_insert_eq. }
  pose proof (chain_NoDup _ _ _ Hc) as Hnd.
  apply NoDup_app in Hnd as (_ & _ & Hnd2). apply NoDup_cons in Hnd2 as (HX2 & _).
  assert (Hd3 : forall a, a <> X -> delta_at (heap s3) a = delta_at (heap s) a).
  { intros a Ha. destruct (decide (head l2 = Some a)) as [Hh|Hh].
    - rewrite (Hhd2 a Hh), HdX, Z.add_0_r, Hd2 by done. apply wrap32_small.
      apply (proj1 (Forall_forall _ _) Hall). apply elem_of_app. right. right.
      destruct l2; [done|]. injection Hh as ->. left.
    - rewrite Hsame by done. by apply Hd2. }
  exists s3. split; [done|]. split; [split; [done|]|].
  - apply Forall_forall. intros a Ha. rewrite Hd3.
    + apply (proj1 (Forall_forall _ _) Hall).
      apply elem_of_app in Ha as [?|?]; apply elem_of_app; [by left|right; by right].
    + intros ->. pose proof (chain_NoDup _ _ _ Hc) as Hnd.
      apply NoDup_app in Hnd as (_ & Hdisj & _).
      apply elem_of_app in Ha as [Ha|Ha]; [|done]. apply (Hdisj X Ha). left.
  - split; [done|]. split; [|split; [|done]].
    + rewrite HX, Hheap. by rewrite lookup_insert_eq.
    + intros a. rewrite Hattrs, Hheap. destruct (decide (a = X)) as [->|Hne].
      * rewrite lookup_insert_eq, Hch. done.
      * by rewrite lookup_insert_ne.
Qed.




Lemma after_callback_keeps run_callback X cb d s :
  callback_keeps_list run_callback ->
  heap (after_callback run_callback X cb d s) = heap s /\
  timer_head (after_callback run_callback X cb d s) = timer_head s.
Proof. intros Hk. destruct cb as [c|]; [apply Hk|done]. Qed.






Lemma process_timer_irq_compare run_callback f fuel wfuel s :
  process_timer_irq f run_callback fuel wfuel SLEEPTIMER_EVENT_COMP s
    = process_compare run_callback fuel wfuel s.
Proof. done. Qed.


(** C2 as stated, for two timers of equal priority started one after the
    other from an idle service and found expired by the same compare
    interrupt: the one started first is called first. *)
Definition earlier_inserted_fires_first : Prop :=
  forall tA tB prio cnt,
    0 < tA < 2 ^ 32 -> 0 < tB < 2 ^ 32 -> tA <= cnt < 2 ^ 32 -> tB <= cnt ->
    exists s1 s2 s3,
      sl_sleeptimer_start_timer no_callback 3 (Some 1%positive) tA (Some 7%positive)
        0 prio 0 (set_hal_counter 0 (set_last_delta_update_count 0 idle_state))
        = Some ([], SL_STATUS_OK, s1) /\
      sl_sleeptimer_start_timer no_callback 3 (Some 2%positive) tB (Some 7%positive)
        0 prio 0 s1
        = Some ([], SL_STATUS_OK, s2) /\
      process_timer_irq 32768 no_callback 3 3 SLEEPTIMER_EVENT_COMP
        (set_hal_counter cnt s2)
        = Some ([Invoke 7%positive 1%positive 0; Invoke 7%positive 2%positive 0], s3).

(** Timer 1 is started first for tick 10, timer 2 second for tick 5; the
    interrupt served at tick 10 calls timer 2 first. *)
Lemma later_inserted_fires_first : ~ earlier_inserted_fires_first.
Proof.
  intros H.
  destruct (H 10 5 1 10 ltac:(lia) ltac:(lia) ltac:(lia) ltac:(lia))
    as (s1 & s2 & s3 & H1 & H2 & H3).
  vm_compute in H1. injection H1 as <-.
  vm_compute in H2. injection H2 as <-.
  vm_compute in H3. discriminate H3.
Qed.

(** Timer 1 (priority 5, callback 7) is due at tick 110 and timer 2
    (priority 1, callback 8) at tick 115; the interrupt is served at 120. *)
Definition due_heap : gmap addr sl_sleeptimer_timer_handle_t :=
  <[1%positive := mk_handle 0 5 0 (Some 2%positive) (Some 7%positive) 0 10]>
  (<[2%positive := mk_handle 0 1 0 None (Some 8%positive) 0 5]> ∅).

Definition due_state : state :=
  mk_state due_heap 0 0 0 0 0 0 (Some 1%positive) 100 true 0 120 110 3.

Lemma due_delta_list : delta_list due_state [1%positive; 2%positive].
Proof.
  split.
  - unfold chain. simpl. split; [done|]. eexists. split; [reflexivity|]. simpl.
    split; [done|]. eexists. split; [reflexivity|]. done.
  - repeat constructor; vm_compute; done.
Qed.


(** * Tick and millisecond conversions *)

Definition UINT64_MAX : Z := 18446744073709551615.

(** The scan behind [__CLZ]: the number of clear bits found from bit
    [n - 1] downwards before the first set bit of [v]. *)
Fixpoint clz_from (n : nat) (v : Z) : Z :=
  match n with
  | O => 0
  | S n' => if Z.testbit v (Z.of_nat n') then 0 else 1 + clz_from n' v
  end.

(** [__CLZ], the CMSIS intrinsic: the number of leading zero bits of a
    32-bit word, 32 for the word 0. *)
Definition __CLZ (v : Z) : Z := clz_from 32 v.

(** [div_to_log2]; the subtraction is unsigned. *)
Definition div_to_log2 (div : Z) : Z := wrap32 (31 - __CLZ div).

(** [is_power_of_2] *)
Definition is_power_of_2 (nbr : Z) : bool :=
  if negb (nbr =? 0) && (Z.land nbr (wrap32 (nbr - 1)) =? 0) then true else false.

Section Conversions.

(** [sleeptimer_hal_get_timer_frequency()], a 32-bit value; the divisions
    below are by this value, and the theorems take it positive. *)
Variable timer_frequency : Z.

(** [sl_sleeptimer_tick_to_ms]: the product is formed in 64 bits, the
    result is cut to 32. *)
Definition sl_sleeptimer_tick_to_ms (tick : Z) : Z :=
  if is_power_of_2 (sleeptimer_hal_get_timer_frequency timer_frequency) then
    wrap32 (Z.shiftr (wrap64 (tick * 1000))
                     (div_to_log2 (sleeptimer_hal_get_timer_frequency timer_frequency)))
  else
    wrap32 (wrap64 (tick * 1000) / sleeptimer_hal_get_timer_frequency timer_frequency).

(** [sl_sleeptimer_tick64_to_ms]; [ms] is the previous content of the
    output cell. *)
Definition sl_sleeptimer_tick64_to_ms (tick : Z) (ms : Z) : sl_status_t * Z :=
  if tick <=? UINT64_MAX / 1000 then
    if is_power_of_2 (sleeptimer_hal_get_timer_frequency timer_frequency) then
      (SL_STATUS_OK,
       wrap64 (Z.shiftr (wrap64 (tick * 1000))
                        (div_to_log2 (sleeptimer_hal_get_timer_frequency timer_frequency))))
    else
      (SL_STATUS_OK,
       wrap64 (wrap64 (tick * 1000) / sleeptimer_hal_get_timer_frequency timer_frequency))
  else (SL_STATUS_INVALID_PARAMETER, ms).

End Conversions.

(** ** Powers of two and logarithms *)

Lemma testbit_top n v :
  0 <= n -> 0 <= v < 2 ^ (n + 1) ->
  Z.testbit v n = (2 ^ n <=? v).
Proof.
  intros Hn Hv.
  assert (Hp : 0 < 2 ^ n) by (apply Z.pow_pos_nonneg; lia).
  assert (Hq : 0 <= v / 2 ^ n < 2).
  { split; [apply Z.div_pos; lia|].
    apply Z.div_lt_upper_bound; [lia|]. rewrite Z.pow_add_r, Z.pow_1_r in Hv; lia. }
  pose proof (Z.testbit_spec' v n Hn) as Hb.
  rewrite Z.mod_small in Hb by lia.
  destruct (Z.leb_spec (2 ^ n) v) as [Hle|Hlt].
  - assert (1 <= v / 2 ^ n) by (apply Z.div_le_lower_bound; lia).
    destruct (Z.testbit v n); simpl in Hb; [done|lia].
  - rewrite Z.div_small in Hb by lia.
    destruct (Z.testbit v n); simpl in Hb; [lia|done].
Qed.

Lemma clz_from_log2 n v :
  0 < v < 2 ^ Z.of_nat n -> clz_from n v = Z.of_nat n - 1 - Z.log2 v.
Proof.
  induction n as [|n IH]; intros Hv.
  - simpl in Hv. lia.
  - cbn [clz_from].
    rewrite testbit_top by (rewrite ?Nat2Z.inj_succ in *; unfold Z.succ in *; lia).
    rewrite Nat2Z.inj_succ in *. unfold Z.succ in *.
    destruct (Z.leb_spec (2 ^ Z.of_nat n) v) as [Hle|Hlt].
    + rewrite (Z.log2_unique v (Z.of_nat n)); lia.
    + rewrite IH by lia. lia.
Qed.

Lemma div_to_log2_log2 d : 0 < d < 2 ^ 32 -> div_to_log2 d = Z.log2 d.
Proof.
  intros Hd. unfold div_to_log2, __CLZ.
  rewrite (clz_from_log2 32 d) by (simpl; lia).
  assert (0 <= Z.log2 d < 32).
  { split; [apply Z.log2_nonneg|]. apply Z.log2_lt_pow2; lia. }
  rewrite wrap32_small; simpl; lia.
Qed.

Lemma is_power_of_2_pow2 k : 0 <= k < 32 -> is_power_of_2 (2 ^ k) = true.
Proof.
  intros Hk. unfold is_power_of_2.
  assert (Hp : 0 < 2 ^ k) by (apply Z.pow_pos_nonneg; lia).
  assert (Hlt : 2 ^ k < 2 ^ 32) by (apply Z.pow_lt_mono_r; lia).
  rewrite wrap32_small by lia.
  replace (2 ^ k - 1) with (Z.ones k) by (rewrite Z.ones_equiv; lia).
  rewrite Z.land_ones by lia. rewrite Z.mod_same by lia.
  destruct (Z.eqb_spec (2 ^ k) 0); [lia|done].
Qed.

Lemma is_power_of_2_inv n :
  is_u32 n -> is_power_of_2 n = true -> n = 2 ^ Z.log2 n /\ 0 <= Z.log2 n < 32.
Proof.
  unfold is_u32, is_power_of_2. intros Hn H.
  destruct (Z.eqb_spec n 0) as [|Hn0]; [done|]. simpl in H.
  destruct (Z.eqb_spec (Z.land n (wrap32 (n - 1))) 0) as [Hl|]; [|done].
  rewrite wrap32_small in Hl by lia.
  assert (Hpos : 0 < n) by lia.
  destruct (Z.log2_spec n Hpos) as [Hlo Hhi].
  pose proof (Z.log2_nonneg n) as Hk.
  assert (Z.log2 n < 32) by (apply Z.log2_lt_pow2; lia).
  split; [|lia].
  destruct (Z.eq_dec n (2 ^ Z.log2 n)) as [|Hne]; [done|exfalso].
  assert (Hb1 : Z.testbit n (Z.log2 n) = true) by (by apply Z.bit_log2).
  assert (Hb2 : Z.testbit (n - 1) (Z.log2 n) = true).
  { rewrite testbit_top by (unfold Z.succ in *; lia).
    destruct (Z.leb_spec (2 ^ Z.log2 n) (n - 1)); [done|lia]. }
  assert (Hb : Z.testbit (Z.land n (n - 1)) (Z.log2 n) = true)
    by (rewrite Z.land_spec, Hb1, Hb2; done).
  rewrite Hl, Z.bits_0 in Hb. done.
Qed.

(** X12: on 32-bit values [is_power_of_2] accepts exactly the powers
    2^0 .. 2^31; 0 is refused. *)
Theorem is_power_of_2_iff n :
  is_u32 n ->
  is_power_of_2 n = true <-> exists k, 0 <= k < 32 /\ n = 2 ^ k.
Proof.
  intros Hn. split.
  - intros H. destruct (is_power_of_2_inv n Hn H) as [E Hk]. eauto.
  - intros (k & Hk & ->). by apply is_power_of_2_pow2.
Qed.

Lemma is_power_of_2_iff_witness :
  is_power_of_2 32768 = true <-> exists k, 0 <= k < 32 /\ 32768 = 2 ^ k.
Proof. apply is_power_of_2_iff. unfold is_u32. lia. Defined.

(** X13: for every non-zero 32-bit value [div_to_log2] is the position of
    its highest set bit, so [div_to_log2 (2^k) = k]; for 0 the unsigned
    subtraction wraps to [UINT32_MAX]. *)
Theorem div_to_log2_highest_bit :
  (forall d, 0 < d < 2 ^ 32 ->
     div_to_log2 d = Z.log2 d /\ 2 ^ div_to_log2 d <= d < 2 ^ (div_to_log2 d + 1)) /\
  (forall k, 0 <= k < 32 -> div_to_log2 (2 ^ k) = k) /\
  div_to_log2 0 = UINT32_MAX.
Proof.
  split; [|split].
  - intros d Hd. rewrite div_to_log2_log2 by done. split; [done|].
    pose proof (Z.log2_spec d ltac:(lia)). unfold Z.succ in *. lia.
  - intros k Hk.
    assert (0 < 2 ^ k) by (apply Z.pow_pos_nonneg; lia).
    assert (2 ^ k < 2 ^ 32) by (apply Z.pow_lt_mono_r; lia).
    rewrite div_to_log2_log2 by lia. apply Z.log2_pow2. lia.
  - reflexivity.
Qed.

(** ** Ticks to milliseconds *)

Lemma shift_by_log2_is_division f x :
  is_u32 f -> is_power_of_2 f = true ->
  Z.shiftr x (div_to_log2 f) = x / f.
Proof.
  intros Hf Hp. destruct (is_power_of_2_inv f Hf Hp) as [E Hk].
  assert (0 < f) by (rewrite E; apply Z.pow_pos_nonneg; lia).
  rewrite div_to_log2_log2 by (unfold is_u32 in Hf; lia).
  rewrite Z.shiftr_div_pow2 by lia. by rewrite <- E.
Qed.

Lemma tick_to_ms_division f tick :
  0 < f < 2 ^ 32 -> is_u32 tick ->
  sl_sleeptimer_tick_to_ms f tick = wrap32 (tick * 1000 / f).
Proof.
  intros Hf Ht. unfold sl_sleeptimer_tick_to_ms, sleeptimer_hal_get_timer_frequency.
  unfold is_u32 in Ht.
  assert (Hw : wrap64 (tick * 1000) = tick * 1000) by (apply wrap64_small; lia).
  rewrite Hw.
  destruct (is_power_of_2 f) eqn:Hp; [|done].
  rewrite shift_by_log2_is_division; [done| unfold is_u32; lia | done].
Qed.

(** X14: for a positive 32-bit frequency both paths of
    [sl_sleeptimer_tick_to_ms] (shift for a power of two, division
    otherwise) return floor(tick * 1000 / f) cut to 32 bits; from 1000 Hz on
    nothing is cut and the result is at most [tick]. *)
Theorem tick_to_ms_is_floor f tick :
  0 < f < 2 ^ 32 -> is_u32 tick ->
  sl_sleeptimer_tick_to_ms f tick = wrap32 (tick * 1000 / f) /\
  (1000 <= f ->
   sl_sleeptimer_tick_to_ms f tick = tick * 1000 / f /\
   sl_sleeptimer_tick_to_ms f tick <= tick).
Proof.
  intros Hf Ht. rewrite tick_to_ms_division by done. split; [done|].
  intros Hk. unfold is_u32 in Ht.
  assert (0 <= tick * 1000 / f) by (apply Z.div_pos; lia).
  assert (tick * 1000 / f <= tick) by (apply Z.div_le_upper_bound; nia).
  rewrite wrap32_small by lia. done.
Qed.

Lemma tick_to_ms_is_floor_witness :
  sl_sleeptimer_tick_to_ms 32768 65536 = 2000 /\
  sl_sleeptimer_tick_to_ms 1000 4294967295 = 4294967295 /\
  sl_sleeptimer_tick_to_ms 100 4294967295 = wrap32 42949672950.
Proof.
  split; [|split].
  - destruct (tick_to_ms_is_floor 32768 65536) as [_ H];
      [lia | unfold is_u32; lia |].
    destruct (H ltac:(lia)) as [-> _]. reflexivity.
  - destruct (tick_to_ms_is_floor 1000 4294967295) as [_ H];
      [lia | unfold is_u32; lia |].
    destruct (H ltac:(lia)) as [-> _]. reflexivity.
  - destruct (tick_to_ms_is_floor 100 4294967295) as [-> _];
      [lia | unfold is_u32; lia |]. reflexivity.
Defined.

(** X15: for a positive 32-bit frequency [sl_sleeptimer_tick64_to_ms]
    returns Ok with exactly floor(tick * 1000 / f) when
    [tick <= UINT64_MAX / 1000], and InvalidParameter with the output cell
    untouched for every larger 64-bit tick count. *)
Theorem tick64_to_ms_is_floor f tick ms :
  0 < f < 2 ^ 32 -> 0 <= tick < 2 ^ 64 ->
  (tick <= UINT64_MAX / 1000 ->
   sl_sleeptimer_tick64_to_ms f tick ms = (SL_STATUS_OK, tick * 1000 / f)) /\
  (UINT64_MAX / 1000 < tick ->
   sl_sleeptimer_tick64_to_ms f tick ms = (SL_STATUS_INVALID_PARAMETER, ms)).
Proof.
  intros Hf Ht. unfold sl_sleeptimer_tick64_to_ms, sleeptimer_hal_get_timer_frequency.
  split; intros Hb.
  - destruct (Z.leb_spec tick (UINT64_MAX / 1000)) as [_|]; [|lia].
    change (UINT64_MAX / 1000) with 18446744073709551 in Hb.
    assert (Hw : wrap64 (tick * 1000) = tick * 1000) by (apply wrap64_small; lia).
    rewrite Hw.
    assert (Hq : 0 <= tick * 1000 / f < 2 ^ 64).
    { split; [apply Z.div_pos; lia|].
      apply Z.div_lt_upper_bound; nia. }
    destruct (is_power_of_2 f) eqn:Hp.
    + rewrite shift_by_log2_is_division; [|unfold is_u32; lia|done].
      by rewrite wrap64_small.
    + by rewrite wrap64_small.
  - destruct (Z.leb_spec tick (UINT64_MAX / 1000)) as [|_]; [lia|done].
Qed.

Lemma tick64_to_ms_is_floor_witness :
  sl_sleeptimer_tick64_to_ms 32768 4294967296 7 = (SL_STATUS_OK, 131072000) /\
  sl_sleeptimer_tick64_to_ms 32768 18446744073709552 7
    = (SL_STATUS_INVALID_PARAMETER, 7).
Proof.
  split.
  - destruct (tick64_to_ms_is_floor 32768 4294967296 7) as [H _]; [lia|lia|].
    rewrite H by (vm_compute; discriminate). reflexivity.
  - destruct (tick64_to_ms_is_floor 32768 18446744073709552 7) as [_ H]; [lia|lia|].
    apply H. vm_compute. reflexivity.
Defined.

(** X16: from 1000 Hz on, a 16-bit millisecond count whose tick product
    fits in 32 bits comes back from [sl_sleeptimer_ms_to_tick] followed by
    [sl_sleeptimer_tick_to_ms] as itself or one more: the tick count never
    stands for less time than was asked. *)
Theorem ms_to_tick_to_ms f ms :
  1000 <= f < 2 ^ 32 -> is_u16 ms -> ms * f < 2 ^ 32 ->
  ms <= sl_sleeptimer_tick_to_ms f (sl_sleeptimer_ms_to_tick f ms) <= ms + 1.
Proof.
  intros Hf Hms Hfit. unfold is_u16 in Hms.
  assert (Hq : 0 <= ms * f / 1000) by (apply Z.div_pos; nia).
  assert (Hqle : ms * f / 1000 * 1000 <= ms * f).
  { pose proof (Z.mul_div_le (ms * f) 1000 ltac:(lia)). lia. }
  assert (Hqgt : ms * f < (ms * f / 1000 + 1) * 1000).
  { pose proof (Z.mul_succ_div_gt (ms * f) 1000 ltac:(lia)). unfold Z.succ in *. lia. }
  assert (Htick : sl_sleeptimer_ms_to_tick f ms = ms * f / 1000 + 1).
  { unfold sl_sleeptimer_ms_to_tick, sleeptimer_hal_get_timer_frequency.
    rewrite (wrap32_small (ms * f)) by nia.
    apply wrap32_small. nia. }
  rewrite Htick.
  rewrite tick_to_ms_division by (unfold is_u32; nia).
  assert (0 <= (ms * f / 1000 + 1) * 1000 / f) by (apply Z.div_pos; lia).
  assert ((ms * f / 1000 + 1) * 1000 / f <= ms + 1)
    by (apply Z.div_le_upper_bound; nia).
  rewrite wrap32_small by lia.
  split.
  - apply Z.div_le_lower_bound; lia.
  - apply Z.div_le_upper_bound; nia.
Qed.

Lemma ms_to_tick_to_ms_witness :
  1000 <= sl_sleeptimer_tick_to_ms 32768 (sl_sleeptimer_ms_to_tick 32768 1000) <= 1000 + 1.
Proof. apply ms_to_tick_to_ms; unfold is_u16; lia. Defined.
(** * The tick counters and the wall clock *)

Lemma land_low_high c v :
  0 <= c < 2 ^ 32 -> Z.land c (Z.shiftl v 32) = 0.
Proof.
  intros Hc. apply Z.bits_inj'. intros n Hn.
  rewrite Z.land_spec, Z.bits_0.
  destruct (Z.lt_ge_cases n 32) as [Hlt|Hge].
  - rewrite Z.shiftl_spec_low by lia. apply andb_false_r.
  - assert (Z.testbit c n = false) as ->; [|done].
    destruct (Z.eq_dec c 0) as [->|]; [apply Z.bits_0|].
    apply Z.bits_above_log2; [lia|].
    assert (Z.log2 c < 32) by (apply Z.log2_lt_pow2; lia). lia.
Qed.

(** X17: with a 32-bit counter the 64-bit tick count is
    [overflow_counter * 2^32 + counter]; the overflow counter being 8 bits
    wide, it stays below 2^40. *)
Theorem tick_count64_value s :
  is_u32 (hal_counter s) -> is_u8 (overflow_counter s) ->
  sl_sleeptimer_get_tick_count64 s = overflow_counter s * 2 ^ 32 + hal_counter s /\
  sl_sleeptimer_get_tick_count64 s mod 2 ^ 32 = sl_sleeptimer_get_tick_count s /\
  0 <= sl_sleeptimer_get_tick_count64 s < 2 ^ 40.
Proof.
  unfold is_u32, is_u8. intros Hc Ho.
  assert (E : sl_sleeptimer_get_tick_count64 s
              = overflow_counter s * 2 ^ 32 + hal_counter s).
  { unfold sl_sleeptimer_get_tick_count64, sleeptimer_hal_get_counter.
    rewrite <- Z.add_nocarry_lor by (by apply land_low_high).
    rewrite Z.shiftl_mul_pow2 by lia. lia. }
  rewrite E. split; [done|]. split; [|lia].
  unfold sl_sleeptimer_get_tick_count, sleeptimer_hal_get_counter.
  rewrite Z.add_comm, Z.mod_add by lia. apply Z.mod_small. lia.
Qed.

Lemma tick_count64_value_witness :
  sl_sleeptimer_get_tick_count64 (set_overflow_counter 3 sample_state)
    = 3 * 2 ^ 32 + 103.
Proof.
  destruct (tick_count64_value (set_overflow_counter 3 sample_state)) as [H _].
  - vm_compute. split; [discriminate|reflexivity].
  - vm_compute. split; [discriminate|reflexivity].
  - exact H.
Defined.

(** The ticks the wall clock has counted apart from the running counter. *)
Definition wall_ticks (f : Z) (s : state) : Z :=
  second_count s * f + overflow_tick_rest s.

(** X10: with a frequency of at most 2^31 and a tick residue below the
    frequency, [sl_sleeptimer_get_time] is the number of whole seconds in
    [second_count * f + overflow_tick_rest + counter] ticks, cut to 32
    bits. *)
Theorem get_time_is_floor f s :
  0 < f <= 2 ^ 31 -> is_u32 (hal_counter s) -> is_u32 (second_count s) ->
  0 <= overflow_tick_rest s < f ->
  sl_sleeptimer_get_time f s = wrap32 ((wall_ticks f s + hal_counter s) / f).
Proof.
  unfold is_u32, wall_ticks. intros Hf Hc Hs Hr.
  unfold sl_sleeptimer_get_time, sl_sleeptimer_get_timer_frequency,
    sleeptimer_hal_get_timer_frequency, sleeptimer_hal_get_counter.
  pose proof (Z.div_mod (hal_counter s) f ltac:(lia)) as Hdm.
  pose proof (Z.mod_pos_bound (hal_counter s) f ltac:(lia)) as Hm.
  set (q := hal_counter s / f) in *. set (r := hal_counter s mod f) in *.
  rewrite (wrap32_small (r + overflow_tick_rest s)) by lia.
  destruct (Z.geb_spec (r + overflow_tick_rest s) f) as [Hge|Hlt].
  - rewrite wrap32_add_l. f_equal.
    apply Z.div_unique with (r + overflow_tick_rest s - f); lia.
  - f_equal.
    apply Z.div_unique with (r + overflow_tick_rest s); lia.
Qed.

Lemma get_time_is_floor_witness :
  sl_sleeptimer_get_time 32768
    (set_overflow_tick_rest 32700 (set_second_count 50 sample_state)) = 51.
Proof.
  rewrite get_time_is_floor.
  - reflexivity.
  - lia.
  - vm_compute. split; [discriminate|reflexivity].
  - vm_compute. split; [discriminate|reflexivity].
  - vm_compute. split; [discriminate|reflexivity].
Defined.

(** [update_first_timer_delta] and [set_comparator_for_next_timer] write
    the head's delta, [last_delta_update_count] and the HAL registers
    only. *)
Definition same_clock (s s' : state) : Prop :=
  overflow_counter s' = overflow_counter s /\
  second_count s' = second_count s /\
  overflow_tick_rest s' = overflow_tick_rest s /\
  tz_offset s' = tz_offset s /\
  calculated_tick_rest s' = calculated_tick_rest s /\
  calculated_sec_count s' = calculated_sec_count s /\
  is_sleeptimer_initialized s' = is_sleeptimer_initialized s /\
  max_millisecond_conversion s' = max_millisecond_conversion s /\
  hal_counter s' = hal_counter s.

Lemma update_first_timer_delta_clock s s' :
  update_first_timer_delta s = Some s' -> same_clock s s'.
Proof.
  unfold update_first_timer_delta.
  destruct (timer_head s) as [hd|]; simpl.
  - destruct (heap s !! hd) as [hh|]; simpl; [|done].
    destruct (delta hh >=? _); intros [= <-]; by repeat split.
  - intros [= <-]. by repeat split.
Qed.

Lemma set_comparator_for_next_timer_clock s s' :
  set_comparator_for_next_timer s = Some s' -> same_clock s s'.
Proof.
  unfold set_comparator_for_next_timer.
  destruct (timer_head s) as [hd|]; simpl; [|done].
  destruct (heap s !! hd) as [hh|]; simpl; [|done].
  intros [= <-]. by repeat split.
Qed.

(** The wall-clock update at the head of the overflow branch. *)
Lemma overflow_carry f rest ctr sc csc :
  0 < f <= 2 ^ 31 -> 0 <= rest < f -> 0 <= ctr < f ->
  0 <= sc -> 0 <= csc -> sc + csc + 1 < 2 ^ 32 ->
  let rest1 := wrap32 (rest + ctr) in
  let rest2 := if rest1 >=? f then wrap32 (rest1 - f) else rest1 in
  let sc1 := if rest1 >=? f then wrap32 (sc + 1) else sc in
  let sc2 := wrap32 (sc1 + csc) in
  sc2 * f + rest2 = sc * f + rest + (csc * f + ctr) /\ 0 <= rest2 < f.
Proof.
  intros Hf Hr Hc Hs Hcs Hfit. cbv zeta.
  rewrite (wrap32_small (rest + ctr)) by lia.
  destruct (Z.geb_spec (rest + ctr) f).
  - rewrite (wrap32_small (rest + ctr - f)), (wrap32_small (sc + 1)),
      (wrap32_small (sc + 1 + csc)) by lia. lia.
  - rewrite (wrap32_small (sc + csc)) by lia. lia.
Qed.

(** X9: an overflow interrupt taken while a timer is on the list adds
    exactly 2^32 ticks to what the wall clock has counted (the constants
    being those [sl_sleeptimer_init] computes), keeps the residue below the
    frequency, steps the 8-bit overflow counter, leaves the list in place
    and invokes no callback. *)
Theorem overflow_adds_a_counter_period f run_callback fuel wfuel s l :
  0 < f <= 2 ^ 31 ->
  delta_list s l -> l <> [] ->
  calculated_tick_rest s = 2 ^ 32 mod f ->
  calculated_sec_count s = 2 ^ 32 / f ->
  0 <= overflow_tick_rest s < f ->
  0 <= second_count s -> second_count s + 2 ^ 32 / f + 1 < 2 ^ 32 ->
  exists s',
    process_timer_irq f run_callback fuel wfuel SLEEPTIMER_EVENT_OF s = Some ([], s') /\
    wall_ticks f s' = wall_ticks f s + 2 ^ 32 /\
    0 <= overflow_tick_rest s' < f /\
    overflow_counter s' = wrap8 (overflow_counter s + 1) /\
    hal_counter s' = hal_counter s /\
    delta_list s' l.
Proof.
  intros Hf Hdl Hne Hctr Hcsc Hrest Hsc Hfit.
  pose proof (Z.mod_pos_bound (2 ^ 32) f ltac:(lia)) as Hm.
  assert (Hq : 0 <= 2 ^ 32 / f) by (apply Z.div_pos; lia).
  pose proof (Z.div_mod (2 ^ 32) f ltac:(lia)) as Hdm.
  destruct (overflow_carry f (overflow_tick_rest s) (calculated_tick_rest s)
              (second_count s) (calculated_sec_count s))
    as [Hsum Hbound]; try lia.
  cbv zeta in Hsum, Hbound.
  unfold process_timer_irq.
  change (Z.land SLEEPTIMER_EVENT_OF SLEEPTIMER_EVENT_OF =? 0) with false.
  change (Z.land SLEEPTIMER_EVENT_OF SLEEPTIMER_EVENT_COMP =? 0) with true.
  cbv iota.
  unfold process_overflow, sl_sleeptimer_get_timer_frequency,
    sleeptimer_hal_get_timer_frequency.
  set (s0 := set_overflow_counter _ _).
  assert (Hdl0 : delta_list s0 l).
  { apply (delta_list_ext s); [| |done]; unfold s0; simpl;
      by destruct (wrap32 (overflow_tick_rest s + calculated_tick_rest s) >=? f). }
  destruct (update_first_timer_delta_spec s0 l Hdl0)
    as (s1 & Hup & Hdl1 & _).
  destruct (set_comparator_for_next_timer_spec s1 l Hdl1 Hne)
    as (s2 & Hcmp & Hheap2 & Hhead2 & _).
  rewrite Hup. simpl. rewrite Hcmp. simpl.
  destruct (update_first_timer_delta_clock _ _ Hup)
    as (Ho1 & Hs1 & Hr1 & _ & _ & _ & _ & _ & Hc1).
  destruct (set_comparator_for_next_timer_clock _ _ Hcmp)
    as (Ho2 & Hs2 & Hr2 & _ & _ & _ & _ & _ & Hc2).
  exists s2. split; [done|].
  unfold wall_ticks. rewrite Hs2, Hr2, Hs1, Hr1, Ho2, Ho1, Hc2, Hc1.
  assert (Es : second_count s0 * f + overflow_tick_rest s0
               = second_count s * f + overflow_tick_rest s
                 + (calculated_sec_count s * f + calculated_tick_rest s)
               /\ 0 <= overflow_tick_rest s0 < f).
  { unfold s0. simpl.
    destruct (wrap32 (overflow_tick_rest s + calculated_tick_rest s) >=? f);
      simpl; simpl in Hsum, Hbound; lia. }
  destruct Es as [Es Eb].
  split; [rewrite Es, Hctr, Hcsc; lia|].
  split; [done|].
  split; [unfold s0; simpl;
          by destruct (wrap32 (overflow_tick_rest s + calculated_tick_rest s) >=? f)|].
  split; [unfold s0; simpl;
          by destruct (wrap32 (overflow_tick_rest s + calculated_tick_rest s) >=? f)|].
  by apply (delta_list_ext s1).
Qed.

Lemma overflow_adds_a_counter_period_witness :
  exists s',
    process_timer_irq 32768 no_callback 3 3 SLEEPTIMER_EVENT_OF
      (set_calculated_sec_count 131072 sample_state) = Some ([], s') /\
    wall_ticks 32768 s' = 2 ^ 32.
Proof.
  destruct (overflow_adds_a_counter_period 32768 no_callback 3 3
              (set_calculated_sec_count 131072 sample_state)
              [1%positive; 2%positive])
    as (s' & Hrun & Hticks & _).
  - lia.
  - apply (delta_list_ext sample_state); [done|done|exact sample_delta_list].
  - discriminate.
  - reflexivity.
  - reflexivity.
  - vm_compute. split; [discriminate|reflexivity].
  - vm_compute. discriminate.
  - vm_compute. reflexivity.
  - exists s'. split; [exact Hrun | exact Hticks].
Defined.

(** X8: an overflow interrupt taken while no timer is on the list has no
    defined result: the overflow branch calls
    [set_comparator_for_next_timer] without testing [timer_head], and that
    function reads [timer_head->delta]. *)
Theorem overflow_with_empty_list_reads_null f run_callback fuel wfuel flag s :
  timer_head s = None ->
  Z.land flag SLEEPTIMER_EVENT_OF <> 0 ->
  process_timer_irq f run_callback fuel wfuel flag s = None.
Proof.
  intros Hhead Hflag. unfold process_timer_irq.
  destruct (Z.eqb_spec (Z.land flag SLEEPTIMER_EVENT_OF) 0) as [|_]; [done|].
  assert (process_overflow f s = None) as ->; [|done].
  unfold process_overflow, sl_sleeptimer_get_timer_frequency,
    sleeptimer_hal_get_timer_frequency.
  set (s0 := set_overflow_counter _ _).
  assert (Hh0 : timer_head s0 = None).
  { unfold s0. simpl.
    by destruct (wrap32 (overflow_tick_rest s + calculated_tick_rest s) >=? f). }
  unfold update_first_timer_delta. rewrite Hh0.
  change (set_comparator_for_next_timer
            (set_last_delta_update_count (sleeptimer_hal_get_counter s0) s0) = None).
  unfold set_comparator_for_next_timer.
  change (timer_head (set_last_delta_update_count (sleeptimer_hal_get_counter s0) s0))
    with (timer_head s0).
  rewrite Hh0. done.
Qed.

Lemma overflow_with_empty_list_reads_null_witness :
  process_timer_irq 32768 no_callback 3 3 SLEEPTIMER_EVENT_OF
    (snd (sl_sleeptimer_init 32768 (set_is_sleeptimer_initialized false idle_state)))
    = None.
Proof.
  apply overflow_with_empty_list_reads_null; [reflexivity | vm_compute; discriminate].
Defined.

(** X11: the first [sl_sleeptimer_init] (frequency from 2 Hz up to 2^32 - 1)
    returns Ok with an empty list, a zero counter, zero overflow and second
    counts, the overflow interrupt enabled, the handles untouched, and
    constants with [calculated_sec_count * f + calculated_tick_rest = 2^32];
    [max_millisecond_conversion] is floor(UINT32_MAX * 1000 / f) from
    1000 Hz on (below, the 64-bit quotient is cut to 32 bits).  A second call
    returns Ok and changes nothing. *)
Theorem init_once f s :
  2 <= f < 2 ^ 32 -> is_sleeptimer_initialized s = false ->
  exists s',
    sl_sleeptimer_init f s = (SL_STATUS_OK, s') /\
    sl_sleeptimer_init f s' = (SL_STATUS_OK, s') /\
    delta_list s' [] /\ heap s' = heap s /\
    hal_counter s' = 0 /\ last_delta_update_count s' = 0 /\
    overflow_counter s' = 0 /\ second_count s' = 0 /\
    Z.testbit (hal_int_enabled s') 0 = true /\
    calculated_sec_count s' * f + calculated_tick_rest s' = 2 ^ 32 /\
    0 <= calculated_tick_rest s' < f /\
    max_millisecond_conversion s' = wrap32 (UINT32_MAX * 1000 / f) /\
    (1000 <= f -> max_millisecond_conversion s' = UINT32_MAX * 1000 / f).
Proof.
  intros Hf Hinit. unfold sl_sleeptimer_init. rewrite Hinit.
  eexists. split; [reflexivity|]. cbn -[Z.lor Z.testbit].
  unfold sleeptimer_hal_get_timer_frequency.
  change (UINT32_MAX + 1) with (2 ^ 32).
  pose proof (Z.mod_pos_bound (2 ^ 32) f ltac:(lia)) as Hm.
  pose proof (Z.div_mod (2 ^ 32) f ltac:(lia)) as Hdm.
  assert (Hq : 0 <= 2 ^ 32 / f < 2 ^ 32).
  { split; [apply Z.div_pos; lia|]. apply Z.div_lt_upper_bound; lia. }
  rewrite (wrap32_small (2 ^ 32 mod f)), (wrap32_small (2 ^ 32 / f)) by lia.
  split; [done|]. split; [split; [done|constructor]|].
  split; [done|]. split; [done|]. split; [done|]. split; [done|]. split; [done|].
  split.
  { rewrite Z.lor_spec. change (Z.testbit SLEEPTIMER_EVENT_OF 0) with true.
    apply orb_true_r. }
  split; [lia|]. split; [done|]. split; [done|].
  intros Hk. apply wrap32_small. unfold UINT32_MAX.
  split; [apply Z.div_pos; lia|]. apply Z.div_lt_upper_bound; lia.
Qed.

Lemma init_once_witness :
  exists s',
    sl_sleeptimer_init 32768 (set_is_sleeptimer_initialized false sample_state)
      = (SL_STATUS_OK, s') /\
    delta_list s' [] /\
    calculated_sec_count s' * 32768 + calculated_tick_rest s' = 2 ^ 32.
Proof.
  destruct (init_once 32768 (set_is_sleeptimer_initialized false sample_state))
    as (s' & H1 & _ & H2 & _ & _ & _ & _ & _ & _ & H3 & _).
  - lia.
  - reflexivity.
  - exists s'. split; [exact H1|]. split; [exact H2 | exact H3].
Defined.

(** X24: a timestamp of the signed 31-bit range that is below
    [counter / frequency] is refused by [sl_sleeptimer_set_time] with
    InvalidParameter only after [second_count] and [overflow_tick_rest]
    have been overwritten: the clock then reads the refused timestamp plus
    the seconds on the counter (modulo 2^32). *)
Theorem set_time_refused_late f t s :
  0 < f -> is_u32 (hal_counter s) -> 0 <= t <= 2 ^ 31 - 1 ->
  t < hal_counter s / f ->
  exists s',
    sl_sleeptimer_set_time f t s = (SL_STATUS_INVALID_PARAMETER, s') /\
    s' = set_overflow_tick_rest 0 (set_second_count t s) /\
    sl_sleeptimer_get_time f s' = wrap32 (t + hal_counter s / f).
Proof.
  intros Hf Hc Ht Hlt. unfold is_u32 in *.
  unfold sl_sleeptimer_set_time, sl_sleeptimer_get_time, is_valid_time,
    sl_sleeptimer_get_timer_frequency, sleeptimer_hal_get_timer_frequency,
    sleeptimer_hal_get_counter.
  change TIME_UNIX_TIMESTAMP_MAX with 2147483647.
  change (wrap32 (UINT32_MAX - 0)) with 4294967295.
  change (0 <? 0) with false. change (0 >=? 0) with true. simpl.
  replace (t >? 2147483647) with false by lia.
  replace (t <=? 4294967295) with true by lia. simpl.
  replace (t >=? hal_counter s / f) with false by (symmetry; rewrite Z.geb_leb; lia).
  eexists. split; [done|]. split; [done|]. simpl.
  rewrite Z.add_0_r.
  pose proof (Z.mod_pos_bound (hal_counter s) f Hf) as Hm.
  assert (hal_counter s mod f <= hal_counter s) by (apply Z.mod_le; lia).
  rewrite (wrap32_small (hal_counter s mod f)) by lia.
  replace (hal_counter s mod f >=? f) with false by (symmetry; rewrite Z.geb_leb; lia).
  done.
Qed.

Lemma set_time_refused_late_witness :
  exists s',
    sl_sleeptimer_set_time 10 5 sample_state = (SL_STATUS_INVALID_PARAMETER, s') /\
    sl_sleeptimer_get_time 10 s' = 15.
Proof.
  destruct (set_time_refused_late 10 5 sample_state) as (s' & H1 & _ & H2).
  - lia.
  - vm_compute. split; [discriminate|reflexivity].
  - lia.
  - vm_compute. reflexivity.
  - exists s'. split; [exact H1 | exact H2].
Defined.
(** * Dates *)

(** [compute_day_of_year]: the lengths of the months before [month] and the
    day of the month, summed in 16 bits. *)
Definition compute_day_of_year (month day : Z) (is_leap_year : bool) : option Z :=
  dayOfYear ← add_month_days (days_in_month_row is_leap_year) (Z.to_nat month) 0;
  Some (wrap16 (dayOfYear + day)).

(** The argument that [sl_sleeptimer_build_datetime] hands to
    [compute_day_of_week].  The constants are unsigned, so the whole
    expression is computed in unsigned 32-bit arithmetic, the division of
    [TIME_LEAP_DAYS_UP_TO_YEAR] included. *)
Definition build_datetime_day (y doy : Z) : Z :=
  let full_year := wrap32 (y - TIME_NTP_UNIX_EPOCH_DIFF) in
  let leap_days := wrap32 (wrap32 (full_year - 3) / 4 + 1) in
  wrap32 (wrap32 (wrap32 (wrap32 (full_year * TIME_DAY_PER_YEAR) + leap_days) + doy) - 1).

(** [sl_sleeptimer_build_datetime]; [date] is the structure behind the
    pointer ([None] for [NULL]), returned with its final content.  The
    arguments are stored before they are validated. *)
Definition sl_sleeptimer_build_datetime (date : option sl_sleeptimer_date_t)
    (y mo md h mi se tz : Z)
    : option (sl_status_t * option sl_sleeptimer_date_t) :=
  match date with
  | None => Some (SL_STATUS_NULL_POINTER, None)
  | Some d =>
    let d1 := mk_date se mi h md mo
                (if y <? TIME_NTP_EPOCH then y else wrap16 (wrap32 (y - TIME_NTP_EPOCH)))
                (day_of_week d) (day_of_year d) tz in
    if negb (is_valid_date (Some d1)) then Some (SL_STATUS_INVALID_PARAMETER, Some d1)
    else
      doy ← compute_day_of_year (month d1) (month_day d1) (is_leap_year (year d1));
      let dow := compute_day_of_week (build_datetime_day (year d1) doy) in
      Some (SL_STATUS_OK,
            Some (mk_date se mi h md mo (year d1) dow doy tz))
  end.

(** [sl_sleeptimer_set_tz] and [sl_sleeptimer_get_tz] *)
Definition sl_sleeptimer_set_tz (offset : Z) (s : state) : state :=
  set_tz_offset offset s.

Definition sl_sleeptimer_get_tz (s : state) : Z := tz_offset s.

Section Datetime.

Variable timer_frequency : Z.

(** [sl_sleeptimer_get_datetime]; [date] is the previous content of the
    output structure. *)
Definition sl_sleeptimer_get_datetime (date : sl_sleeptimer_date_t) (s : state)
    : option (sl_status_t * sl_sleeptimer_date_t) :=
  let time := sl_sleeptimer_get_time timer_frequency s in
  let tz := sl_sleeptimer_get_tz s in
  sl_sleeptimer_convert_time_to_date time tz date.

(** [sl_sleeptimer_set_datetime] *)
Definition sl_sleeptimer_set_datetime (date : option sl_sleeptimer_date_t) (s : state)
    : option (sl_status_t * state) :=
  if negb (is_valid_date date) then Some (SL_STATUS_INVALID_PARAMETER, s)
  else
    '(err_code, time) ← sl_sleeptimer_convert_date_to_time date 0;
    if decide (err_code <> SL_STATUS_OK) then Some (err_code, s)
    else Some (sl_sleeptimer_set_time timer_frequency time s).

End Datetime.

(** ** The calendar, year by year and month by month *)

Definition sumZ (l : list Z) : Z := foldr Z.add 0 l.

Lemma days_in_month_row_bounds leap :
  Forall (fun x => 1 <= x <= 31) (days_in_month_row leap).
Proof. destruct leap; repeat constructor; lia. Qed.

Lemma days_in_month_row_sum leap :
  sumZ (days_in_month_row leap) = if leap then 366 else 365.
Proof. by destruct leap. Qed.

Lemma sumZ_take_bounds row n :
  Forall (fun x => 1 <= x <= 31) row ->
  0 <= sumZ (take n row) <= 31 * Z.of_nat n.
Proof.
  revert n. induction row as [|dim row IH]; intros n Hall.
  - destruct n; simpl; lia.
  - destruct n as [|n]; [simpl; lia|].
    apply Forall_cons in Hall as [Hd Hall]. specialize (IH n Hall).
    cbn [take sumZ foldr]. fold (sumZ (take n row)). lia.
Qed.

Lemma sumZ_take_first row n :
  Forall (fun x => 1 <= x <= 31) row -> (0 < n)%nat ->
  head row = Some 31 -> 31 <= sumZ (take n row).
Proof.
  intros Hall Hn Hhd. destruct row as [|dim row]; [done|]. injection Hhd as ->.
  destruct n as [|n]; [lia|]. apply Forall_cons in Hall as [_ Hall].
  pose proof (sumZ_take_bounds row n Hall).
  cbn [take sumZ foldr]. fold (sumZ (take n row)). lia.
Qed.

(** The [for] loop of the two day counts adds up the months before [n]. *)
Lemma add_month_days_sum row : forall n acc,
  Forall (fun x => 1 <= x <= 31) row -> (n <= length row)%nat ->
  0 <= acc -> acc + 31 * Z.of_nat n < 2 ^ 16 ->
  add_month_days row n acc = Some (acc + sumZ (take n row)).
Proof.
  induction row as [|dim row IH]; intros n acc Hall Hn Hacc Hfit.
  - destruct n; simpl in *; [f_equal; lia | lia].
  - destruct n as [|n]; [simpl; f_equal; lia|].
    apply Forall_cons in Hall as [Hd Hall].
    cbn [add_month_days]. unfold wrap16. rewrite Z.mod_small by lia.
    rewrite IH; [|done|simpl in Hn; lia|lia|lia].
    cbn [take sumZ foldr]. fold (sumZ (take n row)). f_equal. lia.
Qed.

(** The month loop finds the month of a day of the year. *)
Lemma month_loop_spec row : forall t cm,
  Forall (fun x => 1 <= x <= 31) row ->
  0 <= t < sumZ row -> t < 2 ^ 32 ->
  0 <= cm -> cm + Z.of_nat (length row) <= 255 ->
  exists k r dim,
    month_loop row t cm = Some (r, cm + Z.of_nat k) /\
    row !! k = Some dim /\ 0 <= r < dim /\
    t = sumZ (take k row) + r.
Proof.
  induction row as [|dim row IH]; intros t cm Hall Ht Ht32 Hcm Hlen.
  - simpl in Ht. lia.
  - apply Forall_cons in Hall as [Hd Hall].
    cbn [sumZ foldr] in Ht. fold (sumZ row) in Ht.
    cbn [length] in Hlen. rewrite Nat2Z.inj_succ in Hlen.
    cbn [month_loop]. destruct (Z.geb_spec t dim) as [Hge|Hlt].
    + rewrite (wrap32_small (t - dim)) by lia.
      rewrite (wrap8_small (cm + 1)) by lia.
      destruct (IH (t - dim) (cm + 1) Hall ltac:(lia) ltac:(lia) ltac:(lia)
                  ltac:(lia))
        as (k & r & dim' & Hloop & Hk & Hr & Hsum).
      exists (S k), r, dim'. split; [rewrite Hloop; do 2 f_equal; lia|].
      split; [done|]. split; [done|].
      cbn [take sumZ foldr]. fold (sumZ (take k row)). lia.
    + exists 0%nat, t, dim. split; [do 2 f_equal; lia|].
      split; [done|]. split; [lia|]. simpl. lia.
Qed.

(** The leap days that the conversions count before the year [fy] after
    1970. *)
Definition leap_days_before (fy : Z) : Z :=
  if fy >? 2 then TIME_LEAP_DAYS_UP_TO_YEAR fy else 0.

Lemma leap_days_up_to_year fy :
  3 <= fy -> TIME_LEAP_DAYS_UP_TO_YEAR fy = (fy - 3) / 4 + 1.
Proof.
  intros H. unfold TIME_LEAP_DAYS_UP_TO_YEAR. by rewrite Z.quot_div_nonneg by lia.
Qed.

(** The year part of [sl_sleeptimer_convert_time_to_date]: the years since
    1970 and the leap days taken off. *)
Definition year_and_leap (time : Z) : Z * Z :=
  let full_year := wrap8 (time / TIME_DAY_PER_YEAR) in
  if full_year >? 2 then
    let leap_day := wrap8 (TIME_LEAP_DAYS_UP_TO_YEAR full_year) in
    let full_year := wrap8 (wrap32 (time - leap_day) / TIME_DAY_PER_YEAR) in
    let leap_day := wrap8 (TIME_LEAP_DAYS_UP_TO_YEAR full_year) in
    (full_year, leap_day)
  else (full_year, 0).

Lemma days_date_year_and_leap D :
  days_date D =
    let '(full_year, leap_day) := year_and_leap D in
    let d_year := wrap16 (TIME_NTP_UNIX_EPOCH_DIFF + full_year) in
    let time := wrap32 (wrap32 (D - leap_day) - wrap32 (TIME_DAY_PER_YEAR * full_year)) in
    '(time', current_month) ← month_loop (days_in_month_row (is_leap_year d_year)) time 0;
    Some (wrap8 (time' + 1), current_month, d_year, compute_day_of_week D,
          wrap16 (time + 1)).
Proof. unfold days_date, year_and_leap. by destruct (_ >? 2). Qed.

Lemma year_of_day D :
  1096 <= D <= 24855 ->
  let q := D / 365 in
  let l := (q - 3) / 4 + 1 in
  let fy := (D - l) / 365 in
  let l2 := (fy - 3) / 4 + 1 in
  3 <= fy <= 68 /\ 3 <= q <= 68 /\ 0 <= l <= 17 /\ 0 <= l2 <= 17 /\
  0 <= D - l2 - 365 * fy /\
  (D - l2 - 365 * fy < 365 \/ (D - l2 - 365 * fy = 365 /\ fy mod 4 = 2)) /\
  (fy = 68 <-> 24837 <= D).
Proof.
  intros HD q l fy l2. unfold l2, fy, l, q.
  Z.div_mod_to_equations. lia.
Qed.

Lemma is_leap_year_mod_4 fy :
  3 <= fy <= 68 -> fy mod 4 = 2 -> fy <> 30 -> is_leap_year (70 + fy) = true.
Proof.
  intros Hfy Hm Hne. unfold is_leap_year.
  destruct (Z.eqb_spec ((70 + fy) mod 4) 0) as [_|Hn];
    [|exfalso; apply Hn; Z.div_mod_to_equations; lia].
  destruct (Z.eqb_spec ((70 + fy) mod 100) 0) as [E|_]; [|done].
  exfalso. Z.div_mod_to_equations. lia.
Qed.

(** The year that [sl_sleeptimer_convert_time_to_date] finds for a day
    number, and the day of that year. *)
Lemma year_and_leap_spec D :
  0 <= D <= 24855 -> D <> 1095 -> D <> 11322 ->
  exists fy,
    year_and_leap D = (fy, leap_days_before fy) /\
    0 <= fy <= 68 /\ (fy = 68 <-> 24837 <= D) /\
    0 <= leap_days_before fy <= 17 /\
    0 <= D - leap_days_before fy - 365 * fy
      < sumZ (days_in_month_row (is_leap_year (70 + fy))).
Proof.
  intros HD H1 H2. unfold year_and_leap. change TIME_DAY_PER_YEAR with 365.
  destruct (Z.le_gt_cases D 1094) as [Hlow|Hhigh].
  - assert (Hq : 0 <= D / 365 <= 2) by (Z.div_mod_to_equations; lia).
    rewrite wrap8_small by lia.
    destruct (Z.gtb_spec (D / 365) 2) as [|_]; [lia|].
    exists (D / 365). unfold leap_days_before.
    destruct (Z.gtb_spec (D / 365) 2) as [|_]; [lia|].
    split; [done|]. split; [lia|]. split; [lia|]. split; [lia|].
    rewrite days_in_month_row_sum.
    destruct (is_leap_year _); Z.div_mod_to_equations; lia.
  - destruct (year_of_day D ltac:(lia)) as (Hfy & Hq & Hl & Hl2 & Ho & Hlt & H68).
    cbv zeta in Hfy, Hq, Hl, Hl2, Ho, Hlt, H68.
    rewrite (wrap8_small (D / 365)) by lia.
    destruct (Z.gtb_spec (D / 365) 2) as [_|]; [|lia].
    rewrite (leap_days_up_to_year (D / 365)) by lia.
    rewrite (wrap8_small ((D / 365 - 3) / 4 + 1)) by lia.
    set (fy := (D - ((D / 365 - 3) / 4 + 1)) / 365) in *.
    rewrite (wrap32_small (D - ((D / 365 - 3) / 4 + 1))) by lia.
    fold fy. rewrite (wrap8_small fy) by lia.
    rewrite (leap_days_up_to_year fy) by lia.
    rewrite (wrap8_small ((fy - 3) / 4 + 1)) by lia.
    exists fy. unfold leap_days_before.
    destruct (Z.gtb_spec fy 2) as [_|]; [|lia].
    rewrite (leap_days_up_to_year fy) by lia.
    split; [done|]. split; [lia|]. split; [done|]. split; [lia|].
    split; [lia|]. rewrite days_in_month_row_sum.
    destruct Hlt as [Hlt|[Heq Hmod]]; [destruct (is_leap_year _); lia|].
    rewrite is_leap_year_mod_4; [lia|lia|done|].
    intros E. rewrite E in Heq. change ((30 - 3) / 4 + 1) with 7 in Heq. lia.
Qed.

(** What [sl_sleeptimer_convert_time_to_date] makes of a day number. *)
Lemma days_date_spec D :
  0 <= D <= 24855 -> D <> 1095 -> D <> 11322 ->
  exists fy k r dim,
    let row := days_in_month_row (is_leap_year (70 + fy)) in
    days_date D = Some (r + 1, Z.of_nat k, 70 + fy, compute_day_of_week D,
                        sumZ (take k row) + r + 1) /\
    0 <= fy <= 68 /\ (fy = 68 <-> 24837 <= D) /\
    row !! k = Some dim /\ 0 <= r < dim /\
    D = 365 * fy + leap_days_before fy + sumZ (take k row) + r.
Proof.
  intros HD H1 H2.
  destruct (year_and_leap_spec D HD H1 H2) as (fy & Hyl & Hfy & H68 & Hl & Ho).
  rewrite days_date_year_and_leap, Hyl. cbv zeta.
  change TIME_NTP_UNIX_EPOCH_DIFF with 70. change TIME_DAY_PER_YEAR with 365.
  assert (Hy : wrap16 (70 + fy) = 70 + fy) by (unfold wrap16; apply Z.mod_small; lia).
  rewrite Hy.
  set (row := days_in_month_row (is_leap_year (70 + fy))) in *.
  assert (Hsum : sumZ row <= 366)
    by (unfold row; rewrite days_in_month_row_sum; destruct (is_leap_year _); lia).
  rewrite (wrap32_small (D - leap_days_before fy)) by lia.
  rewrite (wrap32_small (365 * fy)) by lia.
  set (o := D - leap_days_before fy - 365 * fy) in *.
  rewrite (wrap32_small o) by lia.
  destruct (month_loop_spec row o 0 (days_in_month_row_bounds _) ltac:(lia) ltac:(lia)
              ltac:(lia))
    as (k & r & dim & Hloop & Hk & Hr & Ht).
  { unfold row. by destruct (is_leap_year _). }
  pose proof (proj1 (Forall_forall _ _) (days_in_month_row_bounds (is_leap_year (70 + fy)))
                dim (list_elem_of_lookup_2 _ _ _ Hk)) as Hdim.
  cbv beta in Hdim.
  rewrite Hloop. simpl.
  exists fy, k, r, dim. cbv zeta. fold row.
  rewrite (wrap8_small (r + 1)) by lia.
  assert (Ho16 : wrap16 (o + 1) = o + 1) by (unfold wrap16; apply Z.mod_small; lia).
  rewrite Ho16.
  split; [do 2 f_equal; lia|]. split; [done|]. split; [done|].
  split; [done|]. split; [done|]. unfold o in Ht. lia.
Qed.

(** The seconds from the epoch to the start of a day, by its year, month
    and day of the month. *)
Lemma date_days_formula fy k r :
  0 <= fy <= 68 -> (k < 12)%nat -> 0 <= r <= 30 ->
  date_days (70 + fy) (Z.of_nat k) (r + 1)
    = Some ((365 * fy + leap_days_before fy
             + sumZ (take k (days_in_month_row (is_leap_year (70 + fy)))) + r) * 86400).
Proof.
  intros Hfy Hk Hr. unfold date_days.
  change TIME_NTP_UNIX_EPOCH_DIFF with 70. change TIME_SEC_PER_YEAR with 31536000.
  change TIME_SEC_PER_DAY with 86400.
  replace (70 + fy - 70) with fy by lia.
  rewrite (wrap32_small fy), (wrap8_small fy) by lia.
  rewrite (wrap8_small (Z.of_nat k)) by lia. rewrite Nat2Z.id.
  assert (Hl : 0 <= leap_days_before fy <= 17).
  { unfold leap_days_before. destruct (Z.gtb_spec fy 2); [|lia].
    rewrite leap_days_up_to_year by lia. Z.div_mod_to_equations. lia. }
  assert (Hinit : (if fy >? 2 then wrap8 (TIME_LEAP_DAYS_UP_TO_YEAR fy) else 0)
                  = leap_days_before fy).
  { unfold leap_days_before in *. destruct (fy >? 2); [|done]. apply wrap8_small. lia. }
  rewrite Hinit.
  set (row := days_in_month_row (is_leap_year (70 + fy))).
  pose proof (sumZ_take_bounds row k (days_in_month_row_bounds _)) as Hs.
  rewrite (add_month_days_sum row k (leap_days_before fy) (days_in_month_row_bounds _));
    [|unfold row; destruct (is_leap_year _); simpl; lia|lia|lia].
  simpl. replace (r + 1 - 1) with r by lia.
  unfold wrap16. rewrite Z.mod_small by lia.
  rewrite (wrap32_small (fy * 31536000)) by lia.
  rewrite (wrap32_small (_ * 86400)) by lia.
  rewrite wrap32_small by lia. f_equal. lia.
Qed.

(** The dates that the month loop can produce are accepted at midnight. *)
Lemma is_valid_date_of_day fy k r dim :
  0 <= fy <= 68 ->
  days_in_month_row (is_leap_year (70 + fy)) !! k = Some dim -> 0 <= r < dim ->
  (fy = 68 -> k = 0%nat /\ r <= 18) ->
  is_valid_date (Some (midnight (70 + fy) (Z.of_nat k) (r + 1))) = true.
Proof.
  intros Hfy Hk Hr H68.
  assert (Hk12 : (k < 12)%nat).
  { apply lookup_lt_Some in Hk. by destruct (is_leap_year _). }
  unfold is_valid_date, midnight. simpl.
  change TIME_UNIX_YEAR_MAX with 138. change MONTH_DECEMBER with 11.
  change MONTH_JANUARY with 0.
  destruct (Z.gtb_spec (70 + fy) 138); [lia|].
  destruct (Z.gtb_spec (Z.of_nat k) 11); [lia|]. simpl.
  unfold days_in_month. destruct (Z.ltb_spec (Z.of_nat k) 0); [lia|].
  rewrite Nat2Z.id, Hk.
  destruct (Z.eqb_spec (r + 1) 0); [lia|].
  destruct (Z.gtb_spec (r + 1) dim); [lia|]. simpl.
  destruct (Z.eqb_spec (70 + fy) 138) as [E|_]; [|done].
  destruct (H68 ltac:(lia)) as [-> Hr18]. simpl.
  destruct (Z.gtb_spec (r + 1) 19); [lia|done].
Qed.

(** ** From a timestamp to a date and back *)

Lemma timestamp_fields t :
  0 <= t ->
  t / 60 / 60 / 24 = t / 86400 /\
  t = t / 86400 * 86400 + (3600 * (t / 60 / 60 mod 24) + 60 * (t / 60 mod 60) + t mod 60) /\
  0 <= t mod 60 <= 59 /\ 0 <= t / 60 mod 60 <= 59 /\ 0 <= t / 60 / 60 mod 24 <= 23.
Proof.
  intros Ht.
  pose proof (Z.div_mod t 60 ltac:(lia)) as H1.
  pose proof (Z.mod_pos_bound t 60 ltac:(lia)) as B1.
  pose proof (Z.div_mod (t / 60) 60 ltac:(lia)) as H2.
  pose proof (Z.mod_pos_bound (t / 60) 60 ltac:(lia)) as B2.
  pose proof (Z.div_mod (t / 60 / 60) 24 ltac:(lia)) as H3.
  pose proof (Z.mod_pos_bound (t / 60 / 60) 24 ltac:(lia)) as B3.
  assert (E : t / 60 / 60 / 24 = t / 86400).
  { apply Z.div_unique
      with (3600 * (t / 60 / 60 mod 24) + 60 * (t / 60 mod 60) + t mod 60); lia. }
  rewrite <- E. repeat split; lia.
Qed.

(** How the time of day enters [is_valid_date]: only in 2038. *)
Lemma is_valid_date_time_of_day y m dd h mi s dow doy tz :
  0 <= h <= 23 -> 0 <= mi <= 59 -> 0 <= s <= 59 ->
  is_valid_date (Some (midnight y m dd)) = true ->
  is_valid_date (Some (mk_date s mi h dd m y dow doy tz))
    = negb (y =? 138) || ((h <=? 3) && (mi <=? 14) && (s <=? 7)).
Proof.
  intros Hh Hmi Hs. unfold is_valid_date, midnight. simpl.
  change TIME_UNIX_YEAR_MAX with 138. change MONTH_DECEMBER with 11.
  change MONTH_JANUARY with 0.
  destruct (Z.gtb_spec y 138); [done|].
  destruct (Z.gtb_spec m 11); [done|]. simpl.
  destruct (days_in_month (is_leap_year y) m) as [dim|]; [|done].
  destruct (Z.eqb_spec dd 0); [done|].
  destruct (Z.gtb_spec dd dim); [done|]. simpl.
  destruct (Z.gtb_spec h 23); [lia|].
  destruct (Z.gtb_spec mi 59); [lia|].
  destruct (Z.gtb_spec s 59); [lia|]. simpl.
  destruct (Z.eqb_spec y 138); simpl; [|done].
  destruct (Z.gtb_spec m 0); [done|].
  destruct (Z.gtb_spec dd 19); [done|]. intros _.
  destruct (Z.gtb_spec h 3), (Z.leb_spec h 3); try lia; simpl; try done.
  destruct (Z.gtb_spec mi 14), (Z.leb_spec mi 14); try lia; simpl; try done.
  destruct (Z.gtb_spec s 7), (Z.leb_spec s 7); try lia; done.
Qed.

Lemma valid_unix_time_zone_0 t :
  0 <= t <= 2147483647 -> is_valid_time t TIME_FORMAT_UNIX 0 = true.
Proof.
  intros Ht. unfold is_valid_time. change TIME_UNIX_TIMESTAMP_MAX with 2147483647.
  change (wrap32 (UINT32_MAX - 0)) with 4294967295.
  replace (t >? 2147483647) with false by lia.
  replace (t <=? 4294967295) with true by lia. done.
Qed.

(** X19: every Unix timestamp of the signed 31-bit range, the days
    1972-12-31 and 2000-12-31 apart, is turned into a date by
    [sl_sleeptimer_convert_time_to_date] (zone 0), and
    [sl_sleeptimer_convert_date_to_time] takes that date back to the
    timestamp, except in 2038, where [is_valid_date] tests hour, minute and
    second one by one: a date of January 2038 with an hour above 3, a minute
    above 14 or a second above 7 is refused with InvalidParameter and the
    output is left alone. *)
Theorem time_to_date_to_time t d0 v :
  0 <= t <= TIME_UNIX_TIMESTAMP_MAX ->
  t / 86400 <> 1095 -> t / 86400 <> 11322 ->
  exists d,
    sl_sleeptimer_convert_time_to_date t 0 d0 = Some (SL_STATUS_OK, d) /\
    sl_sleeptimer_convert_date_to_time (Some d) v =
      (if (t <? 2145916800) || ((hour d <=? 3) && (min d <=? 14) && (sec d <=? 7))
       then Some (SL_STATUS_OK, t)
       else Some (SL_STATUS_INVALID_PARAMETER, v)).
Proof.
  change TIME_UNIX_TIMESTAMP_MAX with 2147483647. intros Ht H1 H2.
  destruct (timestamp_fields t ltac:(lia)) as (ED & Esum & Bs & Bmi & Bh).
  set (D := t / 86400) in *.
  assert (HD : 0 <= D <= 24855).
  { split; [apply Z.div_pos; lia|].
    assert (D < 24856) by (apply Z.div_lt_upper_bound; lia). lia. }
  destruct (days_date_spec D HD H1 H2)
    as (fy & k & r & dim & Hdy & Hfy & H68 & Hk & Hr & HDeq).
  cbv zeta in Hdy, Hk, HDeq.
  set (row := days_in_month_row (is_leap_year (70 + fy))) in *.
  pose proof (proj1 (Forall_forall _ _) (days_in_month_row_bounds (is_leap_year (70 + fy)))
                dim (list_elem_of_lookup_2 _ _ _ Hk)) as Hdim.
  cbv beta in Hdim.
  assert (Hk12 : (k < 12)%nat).
  { apply lookup_lt_Some in Hk. unfold row in Hk. by destruct (is_leap_year _). }
  assert (Hv0 : is_valid_date (Some (midnight (70 + fy) (Z.of_nat k) (r + 1))) = true).
  { apply (is_valid_date_of_day fy k r dim Hfy Hk Hr). intros E.
    assert (Hs : sumZ (take k row) + r <= 18).
    { rewrite E in HDeq. change (leap_days_before 68) with 17 in HDeq. lia. }
    pose proof (sumZ_take_bounds row k (days_in_month_row_bounds _)) as Hb.
    destruct (Nat.eq_dec k 0%nat) as [->|Hk0]; [simpl in Hs; lia|].
    pose proof (sumZ_take_first row k (days_in_month_row_bounds _) ltac:(lia)
                  ltac:(unfold row; by destruct (is_leap_year _))). lia. }
  pose proof (date_days_formula fy k r Hfy Hk12 ltac:(lia)) as Hdd.
  fold row in Hdd. rewrite <- HDeq in Hdd.
  set (d := mk_date (t mod 60) (t / 60 mod 60) (t / 60 / 60 mod 24) (r + 1) (Z.of_nat k)
                    (70 + fy) (compute_day_of_week D) (sumZ (take k row) + r + 1) 0).
  exists d. split.
  - rewrite convert_time_to_date_days by (apply valid_unix_time_zone_0; lia).
    rewrite ED, Hdy. simpl. rewrite !wrap8_small by lia. done.
  - assert (Hv : is_valid_date (Some d)
                 = negb (70 + fy =? 138)
                   || ((hour d <=? 3) && (min d <=? 14) && (sec d <=? 7)))
      by (by apply is_valid_date_time_of_day).
    assert (Hlt : (t <? 2145916800) = negb (70 + fy =? 138)).
    { destruct (Z.eqb_spec (70 + fy) 138), (Z.ltb_spec t 2145916800);
        simpl; try done; lia. }
    rewrite Hlt, <- Hv.
    destruct (is_valid_date (Some d)) eqn:Hvd.
    + rewrite (convert_date_to_time_days d v Hvd). simpl. rewrite Hdd. simpl.
      rewrite Z.add_0_r, wrap32_idemp. rewrite <- Esum.
      by rewrite wrap32_small by lia.
    + unfold sl_sleeptimer_convert_date_to_time. by rewrite Hvd.
Qed.

Lemma time_to_date_to_time_witness :
  (exists d,
     sl_sleeptimer_convert_time_to_date 1700000000 0 (mk_date 0 0 0 0 0 0 0 0 0)
       = Some (SL_STATUS_OK, d) /\
     sl_sleeptimer_convert_date_to_time (Some d) 0 = Some (SL_STATUS_OK, 1700000000)) /\
  (exists d,
     sl_sleeptimer_convert_time_to_date 2145931200 0 (mk_date 0 0 0 0 0 0 0 0 0)
       = Some (SL_STATUS_OK, d) /\
     sl_sleeptimer_convert_date_to_time (Some d) 0
       = Some (SL_STATUS_INVALID_PARAMETER, 0)).
Proof.
  split.
  - destruct (time_to_date_to_time 1700000000 (mk_date 0 0 0 0 0 0 0 0 0) 0)
      as (d & Hd & Ht); [vm_compute; split; discriminate | vm_compute; discriminate
                        | vm_compute; discriminate |].
    exists d. split; [exact Hd|]. exact Ht.
  - destruct (time_to_date_to_time 2145931200 (mk_date 0 0 0 0 0 0 0 0 0) 0)
      as (d & Hd & Ht); [vm_compute; split; discriminate | vm_compute; discriminate
                        | vm_compute; discriminate |].
    exists d. split; [exact Hd|].
    rewrite Ht. vm_compute in Hd. injection Hd as <-. reflexivity.
Defined.

(** ** Two days without a date *)

(** X20: the calendar takes the year 2000 (100 after 1900) for a common
    year: [is_valid_date] refuses 2000-02-29, and for every timestamp of
    2000-12-31 the month loop of [sl_sleeptimer_convert_time_to_date] runs
    off the end of the table row, so that the conversion has no defined
    result; every timestamp of 1972-12-31 is reported as 1972-12-30. *)
Theorem calendar_gaps t tz d0 :
  0 <= t -> is_valid_time t TIME_FORMAT_UNIX tz = true ->
  is_leap_year 100 = false /\
  (forall h mi s dow doy z,
     is_valid_date (Some (mk_date s mi h 29 1 100 dow doy z)) = false) /\
  (t / 86400 = 11322 -> sl_sleeptimer_convert_time_to_date t tz d0 = None) /\
  (t / 86400 = 1095 ->
   exists d,
     sl_sleeptimer_convert_time_to_date t tz d0 = Some (SL_STATUS_OK, d) /\
     year d = 72 /\ month d = 11 /\ month_day d = 30).
Proof.
  intros Ht Hv.
  destruct (timestamp_fields t Ht) as (ED & _).
  split; [reflexivity|]. split; [reflexivity|].
  rewrite (convert_time_to_date_days t tz d0 Hv), ED.
  split; intros ->.
  - reflexivity.
  - eexists. split; [reflexivity|]. done.
Qed.

Lemma calendar_gaps_witness :
  sl_sleeptimer_convert_time_to_date 978220800 0 (mk_date 0 0 0 0 0 0 0 0 0) = None /\
  exists d,
    sl_sleeptimer_convert_time_to_date 94608000 0 (mk_date 0 0 0 0 0 0 0 0 0)
      = Some (SL_STATUS_OK, d) /\
    year d = 72 /\ month d = 11 /\ month_day d = 30.
Proof.
  split.
  - destruct (calendar_gaps 978220800 0 (mk_date 0 0 0 0 0 0 0 0 0))
      as (_ & _ & H & _); [lia | reflexivity |].
    apply H. reflexivity.
  - destruct (calendar_gaps 94608000 0 (mk_date 0 0 0 0 0 0 0 0 0))
      as (_ & _ & _ & H); [lia | reflexivity |].
    apply H. reflexivity.
Defined.

(** ** From a date to a timestamp and its day *)

Lemma valid_unix_time_zone t tz :
  0 <= t <= 2147483647 -> - 2 ^ 31 <= tz < 2 ^ 31 ->
  is_valid_time t TIME_FORMAT_UNIX tz = (0 <=? tz) || (- tz <? t).
Proof.
  intros Ht Hz. unfold is_valid_time. change TIME_UNIX_TIMESTAMP_MAX with 2147483647.
  replace (t >? 2147483647) with false by lia.
  destruct (Z.ltb_spec tz 0), (Z.geb_spec tz 0), (Z.leb_spec 0 tz); try lia; simpl.
  - rewrite orb_false_r. rewrite wrap32_small by lia.
    rewrite Z.abs_neq by lia.
    destruct (Z.gtb_spec t (- tz)), (Z.ltb_spec (- tz) t); done || lia.
  - unfold UINT32_MAX. rewrite wrap32_small by lia.
    destruct (Z.leb_spec t (4294967295 - tz)); [done|lia].
Qed.

(** The timestamp of an accepted date of zone 0, and the date of that
    timestamp in any zone. *)
Lemma date_to_time_days_date d v :
  0 <= sec d -> 0 <= min d -> 0 <= hour d -> 0 <= month_day d -> 0 <= month d ->
  70 <= year d -> is_valid_date (Some d) = true ->
  time_zone d = 0 ->
  ~ (year d = 72 /\ month d = 11 /\ month_day d = 31) ->
  exists D dow doy,
    let t := D * 86400 + (3600 * hour d + 60 * min d + sec d) in
    0 <= D /\ 0 <= t <= 2147483647 /\
    date_days (year d) (month d) (month_day d) = Some (D * 86400) /\
    sl_sleeptimer_convert_date_to_time (Some d) v = Some (SL_STATUS_OK, t) /\
    days_date D = Some (month_day d, month d, year d, dow, doy) /\
    (forall tz d0,
       is_valid_time t TIME_FORMAT_UNIX tz = true ->
       sl_sleeptimer_convert_time_to_date t tz d0
         = Some (SL_STATUS_OK,
                 mk_date (sec d) (min d) (hour d) (month_day d) (month d) (year d)
                         dow doy tz)).
Proof.
  intros Hs Hmi Hh Hmd Hmo Hy Hv Htz Hne.
  destruct (is_valid_date_bounds d Hs Hmi Hh Hmd Hmo Hv)
    as (Hv0 & Hy' & Hmo' & Hmd' & Hh' & Hmi' & Hs' & H138).
  pose proof (day_checked (year d) (month d) (month_day d) ltac:(lia) ltac:(lia)
                ltac:(lia) Hv0 Hne) as Hck.
  unfold day_round_trips in Hck.
  destruct (date_days (year d) (month d) (month_day d)) as [t0|] eqn:Hdd; [|done].
  apply andb_true_iff in Hck as [Hck Hck3].
  apply andb_true_iff in Hck as [Hck1 Hck2].
  apply Z.eqb_eq in Hck1. apply Z.leb_le in Hck2.
  destruct (days_date (t0 / 86400)) as [[[[[dd' m'] y'] dow] doy]|] eqn:Hdy; [|done].
  apply andb_true_iff in Hck3 as [Hck3 Hck6].
  apply andb_true_iff in Hck3 as [Hck4 Hck5].
  apply Z.eqb_eq in Hck4, Hck5, Hck6. subst y' m' dd'.
  pose proof (date_days_range _ _ _ _ Hdd) as Hr.
  set (D := t0 / 86400) in *.
  assert (Ht0 : t0 = D * 86400).
  { pose proof (Z.div_mod t0 86400 ltac:(lia)). unfold D. lia. }
  assert (HD : 0 <= D) by (unfold D; apply Z.div_pos; lia).
  exists D, dow, doy. cbv zeta.
  set (x := 3600 * hour d + 60 * min d + sec d).
  assert (Hx : 0 <= x <= 86399) by (unfold x; lia).
  assert (Ht : 0 <= D * 86400 + x <= 2147483647).
  { destruct (Z.ltb_spec (year d) 138); [lia|].
    assert (year d = 138) by lia. specialize (H138 ltac:(done)). fold x in H138. lia. }
  split; [done|]. split; [done|]. split; [by rewrite <- Ht0|].
  split; [|split; [done|]].
  - rewrite (convert_date_to_time_days d v Hv), Hdd, Htz. simpl. fold x.
    rewrite Z.add_0_r, wrap32_idemp, wrap32_small by lia. by rewrite Ht0.
  - intros tz d0 Hvt. rewrite convert_time_to_date_days by done.
    destruct (split_timestamp D (hour d) (min d) (sec d)) as (E1 & E2 & E3 & E4);
      try lia.
    fold x in E1, E2, E3, E4.
    rewrite E1, E2, E3, E4, Hdy. simpl.
    rewrite !wrap8_small by lia. done.
Qed.

(** ** Setting and reading the date *)

Lemma set_time_then_get_time f t s :
  0 < f -> is_u32 (hal_counter s) -> 0 <= t <= 2147483647 ->
  hal_counter s / f <= t ->
  exists s',
    sl_sleeptimer_set_time f t s = (SL_STATUS_OK, s') /\
    sl_sleeptimer_get_time f s' = t /\ tz_offset s' = tz_offset s.
Proof.
  intros Hf Hc Ht Hge. unfold is_u32 in *.
  unfold sl_sleeptimer_set_time, sl_sleeptimer_get_time, is_valid_time,
    sl_sleeptimer_get_timer_frequency, sleeptimer_hal_get_timer_frequency,
    sleeptimer_hal_get_counter.
  change TIME_UNIX_TIMESTAMP_MAX with 2147483647.
  change (wrap32 (UINT32_MAX - 0)) with 4294967295.
  change (0 <? 0) with false. change (0 >=? 0) with true. simpl.
  assert (Hq : 0 <= hal_counter s / f) by (apply Z.div_pos; lia).
  replace (t >? 2147483647) with false by lia.
  replace (t <=? 4294967295) with true by lia. simpl.
  replace (t >=? hal_counter s / f) with true by (symmetry; rewrite Z.geb_leb; lia).
  eexists. split; [done|]. simpl.
  rewrite (wrap32_small (t - hal_counter s / f)) by lia.
  split; [|done].
  replace (t - hal_counter s / f + hal_counter s / f) with t by lia.
  rewrite Z.add_0_r.
  pose proof (Z.mod_pos_bound (hal_counter s) f Hf) as Hm.
  assert (hal_counter s mod f <= hal_counter s) by (apply Z.mod_le; lia).
  rewrite (wrap32_small (hal_counter s mod f)) by lia.
  replace (hal_counter s mod f >=? f) with false by (symmetry; rewrite Z.geb_leb; lia).
  apply wrap32_small. lia.
Qed.

Lemma set_time_too_early f t s :
  0 < f -> 0 <= t <= 2147483647 -> t < hal_counter s / f ->
  fst (sl_sleeptimer_set_time f t s) = SL_STATUS_INVALID_PARAMETER.
Proof.
  intros Hf Ht Hlt.
  unfold sl_sleeptimer_set_time, is_valid_time,
    sl_sleeptimer_get_timer_frequency, sleeptimer_hal_get_timer_frequency,
    sleeptimer_hal_get_counter.
  change TIME_UNIX_TIMESTAMP_MAX with 2147483647.
  change (wrap32 (UINT32_MAX - 0)) with 4294967295.
  change (0 <? 0) with false. change (0 >=? 0) with true. simpl.
  replace (t >? 2147483647) with false by lia.
  replace (t <=? 4294967295) with true by lia. simpl.
  replace (t >=? hal_counter s / f) with false by (symmetry; rewrite Z.geb_leb; lia).
  done.
Qed.

(** X21: a date that [is_valid_date] accepts (from 1970 on, zone 0, other
    than 1972-12-31) and whose timestamp is not below the seconds already on
    the counter is stored by [sl_sleeptimer_set_datetime] with Ok, and
    [sl_sleeptimer_get_datetime] right after (same counter, a non-negative
    time-zone offset configured) returns Ok and the same year, month, day,
    hour, minute and second, labelled with the configured offset.  A date
    whose timestamp is below the seconds on the counter is refused with
    InvalidParameter. *)
Theorem set_datetime_get_datetime f d d0 s :
  0 < f -> is_u32 (hal_counter s) ->
  0 <= sec d -> 0 <= min d -> 0 <= hour d -> 0 <= month_day d -> 0 <= month d ->
  70 <= year d -> is_valid_date (Some d) = true ->
  time_zone d = 0 ->
  ~ (year d = 72 /\ month d = 11 /\ month_day d = 31) ->
  0 <= tz_offset s < 2 ^ 31 ->
  exists t,
    sl_sleeptimer_convert_date_to_time (Some d) 0 = Some (SL_STATUS_OK, t) /\
    (hal_counter s / f <= t ->
     exists s' d',
       sl_sleeptimer_set_datetime f (Some d) s = Some (SL_STATUS_OK, s') /\
       sl_sleeptimer_get_datetime f d0 s' = Some (SL_STATUS_OK, d') /\
       year d' = year d /\ month d' = month d /\ month_day d' = month_day d /\
       hour d' = hour d /\ min d' = min d /\ sec d' = sec d /\
       time_zone d' = tz_offset s) /\
    (t < hal_counter s / f ->
     exists s',
       sl_sleeptimer_set_datetime f (Some d) s = Some (SL_STATUS_INVALID_PARAMETER, s')).
Proof.
  intros Hf Hc Hs Hmi Hh Hmd Hmo Hy Hv Htz Hne Hzone.
  destruct (date_to_time_days_date d 0 Hs Hmi Hh Hmd Hmo Hy Hv Htz Hne)
    as (D & dow & doy & HD & Ht & _ & Hconv & _ & Hback).
  cbv zeta in Ht, Hconv, Hback.
  set (t := D * 86400 + (3600 * hour d + 60 * min d + sec d)) in *.
  exists t. split; [done|].
  unfold sl_sleeptimer_set_datetime. rewrite Hv, Hconv. simpl.
  split.
  - intros Hge.
    destruct (set_time_then_get_time f t s Hf Hc Ht Hge) as (s' & Hset & Hget & Htz').
    exists s'. eexists. split; [by rewrite Hset|].
    unfold sl_sleeptimer_get_datetime, sl_sleeptimer_get_tz.
    rewrite Hget, Htz'. split.
    + apply Hback. rewrite valid_unix_time_zone by lia.
      destruct (Z.leb_spec 0 (tz_offset s)); [done|lia].
    + done.
  - intros Hlt.
    pose proof (set_time_too_early f t s Hf Ht Hlt) as Hst.
    destruct (sl_sleeptimer_set_time f t s) as [st s'].
    simpl in Hst. subst st. by exists s'.
Qed.

Lemma set_datetime_get_datetime_witness :
  exists s' d',
    sl_sleeptimer_set_datetime 32768 (Some (mk_date 30 45 12 29 1 124 0 0 0)) sample_state
      = Some (SL_STATUS_OK, s') /\
    sl_sleeptimer_get_datetime 32768 (mk_date 0 0 0 0 0 0 0 0 0) s'
      = Some (SL_STATUS_OK, d') /\
    year d' = 124 /\ month d' = 1 /\ month_day d' = 29 /\
    hour d' = 12 /\ min d' = 45 /\ sec d' = 30.
Proof.
  destruct (set_datetime_get_datetime 32768 (mk_date 30 45 12 29 1 124 0 0 0)
              (mk_date 0 0 0 0 0 0 0 0 0) sample_state)
    as (t & Ht & Hok & _); simpl; try lia; try reflexivity.
  - vm_compute. split; [discriminate|reflexivity].
  - vm_compute in Ht. injection Ht as <-.
    destruct (Hok ltac:(vm_compute; discriminate))
      as (s' & d' & H1 & H2 & H3 & H4 & H5 & H6 & H7 & H8 & _).
    exists s', d'. repeat split; assumption.
Defined.

(** X18: [sl_sleeptimer_get_datetime] applies the configured time-zone
    offset to nothing: it returns the fields of the clock's own timestamp
    and copies the offset into [time_zone].  With a negative offset it
    refuses (InvalidParameter, output untouched) while the clock reads no
    more than the offset's magnitude. *)
Theorem get_datetime_ignores_zone f d0 s :
  0 <= sl_sleeptimer_get_time f s <= 2147483647 ->
  - 2 ^ 31 <= tz_offset s < 2 ^ 31 ->
  (tz_offset s < 0 -> sl_sleeptimer_get_time f s <= - tz_offset s ->
   sl_sleeptimer_get_datetime f d0 s = Some (SL_STATUS_INVALID_PARAMETER, d0)) /\
  (0 <= tz_offset s \/ - tz_offset s < sl_sleeptimer_get_time f s ->
   sl_sleeptimer_get_datetime f d0 s =
     match sl_sleeptimer_get_datetime f d0 (sl_sleeptimer_set_tz 0 s) with
     | Some (st, d) =>
       Some (st, mk_date (sec d) (min d) (hour d) (month_day d) (month d) (year d)
                         (day_of_week d) (day_of_year d) (tz_offset s))
     | None => None
     end).
Proof.
  intros Ht Hz.
  assert (Hsame : sl_sleeptimer_get_time f (sl_sleeptimer_set_tz 0 s)
                  = sl_sleeptimer_get_time f s) by done.
  unfold sl_sleeptimer_get_datetime, sl_sleeptimer_get_tz.
  rewrite Hsame. change (tz_offset (sl_sleeptimer_set_tz 0 s)) with 0.
  set (t := sl_sleeptimer_get_time f s) in *.
  pose proof (valid_unix_time_zone t (tz_offset s) Ht Hz) as Hv.
  split.
  - intros Hneg Hle. unfold sl_sleeptimer_convert_time_to_date.
    rewrite Hv.
    destruct (Z.leb_spec 0 (tz_offset s)), (Z.ltb_spec (- tz_offset s) t);
      try lia. done.
  - intros Hok.
    rewrite (convert_time_to_date_days t (tz_offset s)).
    + rewrite (convert_time_to_date_days t 0) by (by apply valid_unix_time_zone_0).
      destruct (days_date _) as [[[[[dd m] y] dow] doy]|]; done.
    + rewrite Hv.
      destruct (Z.leb_spec 0 (tz_offset s)), (Z.ltb_spec (- tz_offset s) t);
        try lia; done.
Qed.

Lemma get_datetime_ignores_zone_witness :
  sl_sleeptimer_get_datetime 32768 (mk_date 0 0 0 0 0 0 0 0 0)
    (sl_sleeptimer_set_tz 3600 (set_second_count 86400 sample_state))
  = Some (SL_STATUS_OK, mk_date 0 0 0 2 0 70 5 2 3600) /\
  sl_sleeptimer_get_datetime 32768 (mk_date 0 0 0 0 0 0 0 0 0)
    (sl_sleeptimer_set_tz (-86400) (set_second_count 86400 sample_state))
  = Some (SL_STATUS_INVALID_PARAMETER, mk_date 0 0 0 0 0 0 0 0 0).
Proof.
  split.
  - destruct (get_datetime_ignores_zone 32768 (mk_date 0 0 0 0 0 0 0 0 0)
                (sl_sleeptimer_set_tz 3600 (set_second_count 86400 sample_state)))
      as [_ H].
    + vm_compute. split; discriminate.
    + vm_compute. split; [discriminate|reflexivity].
    + rewrite H by (left; vm_compute; discriminate). reflexivity.
  - destruct (get_datetime_ignores_zone 32768 (mk_date 0 0 0 0 0 0 0 0 0)
                (sl_sleeptimer_set_tz (-86400) (set_second_count 86400 sample_state)))
      as [H _].
    + vm_compute. split; discriminate.
    + vm_compute. split; [discriminate|reflexivity].
    + apply H; vm_compute; [reflexivity | discriminate].
Defined.

(** ** Building a date *)

(** The day of the week that [sl_sleeptimer_build_datetime] stores for the
    day [dd] of month [m] of year [y]. *)
Definition build_day_of_week (y m dd : Z) : option Z :=
  doy ← compute_day_of_year m dd (is_leap_year y);
  Some (compute_day_of_week (build_datetime_day y doy)).

(** The day number that [sl_sleeptimer_build_datetime] computes: before
    1973 the unsigned division of [TIME_LEAP_DAYS_UP_TO_YEAR] makes it
    [2 ^ 30] too large. *)
Lemma build_datetime_day_spec fy doy :
  0 <= fy <= 68 -> 1 <= doy <= 372 ->
  build_datetime_day (70 + fy) doy
    = 365 * fy + leap_days_before fy + doy - 1 + (if fy >? 2 then 0 else 2 ^ 30).
Proof.
  intros Hfy Hdoy. unfold build_datetime_day, leap_days_before.
  change TIME_NTP_UNIX_EPOCH_DIFF with 70. change TIME_DAY_PER_YEAR with 365.
  replace (70 + fy - 70) with fy by lia. rewrite (wrap32_small fy) by lia.
  cbv zeta. rewrite (wrap32_small (fy * 365)) by lia.
  destruct (Z.gtb_spec fy 2) as [Hgt|Hle].
  - rewrite (wrap32_small (fy - 3)) by lia.
    rewrite leap_days_up_to_year by lia.
    assert (0 <= (fy - 3) / 4 + 1 <= 17) by (Z.div_mod_to_equations; lia).
    rewrite (wrap32_small ((fy - 3) / 4 + 1)) by lia.
    rewrite (wrap32_small (fy * 365 + _)) by lia.
    rewrite (wrap32_small (fy * 365 + _ + doy)) by lia.
    rewrite wrap32_small by lia. lia.
  - assert (E : wrap32 (fy - 3) / 4 + 1 = 2 ^ 30).
    { unfold wrap32. replace ((fy - 3) mod 2 ^ 32) with (2 ^ 32 + fy - 3).
      - Z.div_mod_to_equations. lia.
      - apply Z.mod_unique with (-1); lia. }
    rewrite E. rewrite (wrap32_small (2 ^ 30)) by lia.
    rewrite (wrap32_small (fy * 365 + _)) by lia.
    rewrite (wrap32_small (fy * 365 + _ + doy)) by lia.
    rewrite wrap32_small by lia. lia.
Qed.

(** X22: [sl_sleeptimer_build_datetime] stores its arguments (a year from
    1900 on is stored less 1900) before it validates them, so a refused
    call (InvalidParameter) has already overwritten the structure.  For an
    accepted date from 1970 on, zone 0, other than 1972-12-31, it returns Ok,
    and the day of the year it fills in is the one that
    [sl_sleeptimer_convert_time_to_date] reports for the date's timestamp;
    the day of the week is the same from 1973 on, and one day ahead of it in
    1970, 1971 and 1972. *)
Theorem build_datetime_days d0 y mo md h mi se :
  is_u16 y -> 0 <= mo -> 0 <= md -> 0 <= h -> 0 <= mi -> 0 <= se ->
  let yy := if y <? 1900 then y else y - 1900 in
  let d1 := mk_date se mi h md mo yy (day_of_week d0) (day_of_year d0) 0 in
  (is_valid_date (Some d1) = false ->
   sl_sleeptimer_build_datetime (Some d0) y mo md h mi se 0
     = Some (SL_STATUS_INVALID_PARAMETER, Some d1)) /\
  (is_valid_date (Some d1) = true -> 70 <= yy ->
   ~ (yy = 72 /\ mo = 11 /\ md = 31) ->
   exists dow doy t d',
     sl_sleeptimer_build_datetime (Some d0) y mo md h mi se 0
       = Some (SL_STATUS_OK, Some (mk_date se mi h md mo yy dow doy 0)) /\
     sl_sleeptimer_convert_date_to_time (Some (mk_date se mi h md mo yy dow doy 0)) 0
       = Some (SL_STATUS_OK, t) /\
     sl_sleeptimer_convert_time_to_date t 0 d0 = Some (SL_STATUS_OK, d') /\
     day_of_year d' = doy /\
     day_of_week d' = (if 73 <=? yy then dow else (dow + 6) mod 7)).
Proof.
  intros Hy Hmo Hmd Hh Hmi Hse yy d1.
  assert (Eyy : (if y <? TIME_NTP_EPOCH then y else wrap16 (wrap32 (y - TIME_NTP_EPOCH)))
                = yy).
  { unfold yy, is_u16 in *. change TIME_NTP_EPOCH with 1900.
    destruct (Z.ltb_spec y 1900); [done|].
    rewrite wrap32_small by lia. unfold wrap16. apply Z.mod_small. lia. }
  unfold sl_sleeptimer_build_datetime. rewrite Eyy. fold d1.
  split.
  - intros Hv. by rewrite Hv.
  - intros Hv Hyy Hne. rewrite Hv. simpl.
    destruct (is_valid_date_bounds d1 Hse Hmi Hh Hmd Hmo Hv)
      as (Hv0 & Hy' & Hmo' & Hmd' & _).
    simpl in Hy', Hmo', Hmd'.
    change (is_valid_date (Some (midnight yy mo md)) = true) in Hv0.
    set (row := days_in_month_row (is_leap_year yy)).
    pose proof (sumZ_take_bounds row (Z.to_nat mo) (days_in_month_row_bounds _)) as Hsb.
    assert (Hdoy : compute_day_of_year mo md (is_leap_year yy)
                   = Some (sumZ (take (Z.to_nat mo) row) + md)).
    { unfold compute_day_of_year. fold row.
      rewrite (add_month_days_sum row (Z.to_nat mo) 0 (days_in_month_row_bounds _));
        [|unfold row; destruct (is_leap_year _); simpl; lia|lia|lia].
      simpl. f_equal. unfold wrap16. apply Z.mod_small. lia. }
    rewrite Hdoy. simpl.
    set (doy := sumZ (take (Z.to_nat mo) row) + md) in *.
    set (dow := compute_day_of_week (build_datetime_day yy doy)) in *.
    set (b := mk_date se mi h md mo yy dow doy 0).
    destruct (date_to_time_days_date b 0)
      as (D & dow' & doy' & HD & Ht & Hdd & Hconv & Hdy & Hback); try done.
    simpl in Hdd, Hconv, Hdy, Hback, Ht.
    exists dow, doy. eexists. eexists.
    split; [done|]. split; [exact Hconv|].
    split; [apply Hback; apply valid_unix_time_zone_0; lia|].
    simpl. clear Hconv Hback Hdoy Hv Hv0 Eyy. clearbody yy.
    assert (HD1 : D <> 1095).
    { intros ->. change (days_date 1095) with (Some (30, 11, 72, 0, 365)) in Hdy.
      injection Hdy as E1 E2 E3 _ _.
      rewrite <- E1, <- E2, <- E3 in Hdd. vm_compute in Hdd. discriminate. }
    assert (HD2 : D <> 11322).
    { intros ->. vm_compute in Hdy. discriminate. }
    destruct (days_date_spec D ltac:(lia) HD1 HD2)
      as (fy & k & r & dim & Hdy' & Hfy & H68 & Hk & Hr & HDeq).
    cbv zeta in Hdy', Hk, HDeq. rewrite Hdy in Hdy'.
    injection Hdy' as Emd Emo Eyy' Edow Edoy.
    assert (Ek : Z.to_nat mo = k) by lia.
    unfold dow, doy, row in *. clear dow doy row b. subst yy.
    rewrite Ek in *. split; [lia|].
    rewrite Edow.
    rewrite build_datetime_day_spec by lia.
    replace (365 * fy + leap_days_before fy
             + (sumZ (take k (days_in_month_row (is_leap_year (70 + fy)))) + md) - 1)
      with D by lia.
    unfold compute_day_of_week.
    destruct (Z.gtb_spec fy 2), (Z.leb_spec 73 (70 + fy)); try lia.
    + by rewrite Z.add_0_r.
    + rewrite !wrap32_small by lia. Z.div_mod_to_equations. lia.
Qed.

Lemma build_datetime_days_witness :
  (exists t d',
     sl_sleeptimer_build_datetime (Some (mk_date 0 0 0 0 0 0 0 0 0)) 2024 1 29 12 45 30 0
       = Some (SL_STATUS_OK, Some (mk_date 30 45 12 29 1 124 4 60 0)) /\
     sl_sleeptimer_convert_date_to_time (Some (mk_date 30 45 12 29 1 124 4 60 0)) 0
       = Some (SL_STATUS_OK, t) /\
     sl_sleeptimer_convert_time_to_date t 0 (mk_date 0 0 0 0 0 0 0 0 0)
       = Some (SL_STATUS_OK, d') /\
     day_of_year d' = 60 /\ day_of_week d' = 4) /\
  sl_sleeptimer_build_datetime (Some (mk_date 0 0 0 0 0 0 0 0 0)) 2024 1 30 12 45 30 0
    = Some (SL_STATUS_INVALID_PARAMETER, Some (mk_date 30 45 12 30 1 124 0 0 0)).
Proof.
  split.
  - destruct (build_datetime_days (mk_date 0 0 0 0 0 0 0 0 0) 2024 1 29 12 45 30)
      as [_ H]; try lia; [vm_compute; split; [discriminate|reflexivity]|].
    destruct (H ltac:(reflexivity) ltac:(vm_compute; discriminate)
                ltac:(vm_compute; intros (E & _); discriminate E))
      as (dow & doy & t & d' & H1 & H2 & H3 & H4 & H5).
    vm_compute in H1. injection H1 as <- <-.
    exists t, d'. split; [reflexivity|]. split; [exact H2|].
    split; [exact H3|]. split; [exact H4 | exact H5].
  - destruct (build_datetime_days (mk_date 0 0 0 0 0 0 0 0 0) 2024 1 30 12 45 30)
      as [H _]; try lia; [vm_compute; split; [discriminate|reflexivity]|].
    apply H. reflexivity.
Defined.

(** * The timer interface *)

(** ** Is a timer running *)

(** X3: on a well-formed list [sl_sleeptimer_is_timer_running] returns Ok
    and stores [true] exactly when the handle is on the list; a [NULL]
    handle or a [NULL] output pointer gives NullPointer and the output is
    not written. *)
Theorem is_timer_running_iff fuel s l h r0 :
  chain (heap s) (timer_head s) l -> (length l <= fuel)%nat ->
  sl_sleeptimer_is_timer_running fuel (Some h) (Some r0) s
    = Some (SL_STATUS_OK, Some (bool_decide (h ∈ l))) /\
  sl_sleeptimer_is_timer_running fuel None (Some r0) s
    = Some (SL_STATUS_NULL_POINTER, Some r0) /\
  sl_sleeptimer_is_timer_running fuel (Some h) None s
    = Some (SL_STATUS_NULL_POINTER, None).
Proof.
  intros Hc Hf. unfold sl_sleeptimer_is_timer_running.
  rewrite (is_timer_running_loop_spec _ _ _ _ _ Hc Hf). done.
Qed.

Lemma is_timer_running_iff_witness :
  sl_sleeptimer_is_timer_running 2 (Some 2%positive) (Some false) sample_state
    = Some (SL_STATUS_OK, Some true) /\
  sl_sleeptimer_is_timer_running 2 (Some 3%positive) (Some true) sample_state
    = Some (SL_STATUS_OK, Some false).
Proof.
  split.
  - destruct (is_timer_running_iff 2 sample_state [1%positive; 2%positive]
                2%positive false) as [H _].
    + exact (proj1 sample_delta_list).
    + simpl. lia.
    + exact H.
  - destruct (is_timer_running_iff 2 sample_state [1%positive; 2%positive]
                3%positive true) as [H _].
    + exact (proj1 sample_delta_list).
    + simpl. lia.
    + exact H.
Defined.

(** ** Ageing the head *)

Lemma update_first_timer_delta_hal s s' :
  update_first_timer_delta s = Some s' ->
  hal_compare s' = hal_compare s /\ hal_int_enabled s' = hal_int_enabled s.
Proof.
  unfold update_first_timer_delta.
  destruct (timer_head s) as [hd|]; simpl.
  - destruct (heap s !! hd) as [hh|]; simpl; [|done].
    destruct (delta hh >=? _); intros [= <-]; done.
  - intros [= <-]. done.
Qed.

Lemma wrap32_rebase cnt last c :
  wrap32 (cnt + (c - wrap32 (cnt - last))) = wrap32 (last + c).
Proof.
  replace (cnt + (c - wrap32 (cnt - last))) with (cnt + c - wrap32 (cnt - last)) by lia.
  rewrite wrap32_sub_r. f_equal. lia.
Qed.

(** Ageing a head that is not overdue moves [last_delta_update_count] to
    the counter and keeps every deadline. *)
Lemma update_keeps_deadlines s l s1 :
  delta_list s l ->
  (forall hd, head l = Some hd -> elapsed s <= delta_at (heap s) hd) ->
  update_first_timer_delta s = Some s1 ->
  last_delta_update_count s1 = hal_counter s /\
  forall a, a ∈ l ->
    wrap32 (last_delta_update_count s1 + cum (delta_at (heap s1)) a l)
      = wrap32 (last_delta_update_count s + cum (delta_at (heap s)) a l).
Proof.
  intros Hdl Hfresh Hup.
  destruct (update_first_timer_delta_spec s l Hdl)
    as (s1' & Hup' & Hdl1 & _ & _ & _ & Hother & Hhd & Hlast).
  rewrite Hup in Hup'. injection Hup' as <-.
  destruct l as [|hd rest].
  - split; [|intros a Ha; by apply elem_of_nil in Ha].
    destruct Hdl as [Hc _]. apply chain_head in Hc. simpl in Hc.
    unfold update_first_timer_delta in Hup. rewrite Hc in Hup.
    by injection Hup as <-.
  - specialize (Hfresh hd eq_refl).
    assert (Hl : last_delta_update_count s1 = hal_counter s)
      by (apply (Hlast hd eq_refl); lia).
    split; [done|]. intros a Ha.
    pose proof (chain_NoDup _ _ _ (proj1 Hdl)) as Hnd.
    assert (Hd0 : 0 <= delta_at (heap s) hd < 2 ^ 32).
    { destruct Hdl as [_ Hall]. apply Forall_cons in Hall as [Hu _]. exact Hu. }
    assert (He : 0 <= elapsed s) by (unfold elapsed; apply wrap32_range).
    rewrite (cum_aged (delta_at (heap s)) (delta_at (heap s1)) (elapsed s) a
               (hd :: rest) Hnd Ha).
    + rewrite Hl. unfold elapsed, sleeptimer_hal_get_counter. apply wrap32_rebase.
    + intros b Hb. unfold delta_at. by rewrite Hother.
    + intros b [= <-]. rewrite (Hhd hd eq_refl). unfold aged_head_delta.
      destruct (Z.geb_spec (delta_at (heap s) hd) (elapsed s)); [|lia].
      apply wrap32_small. lia.
Qed.

(** ** Stopping a timer *)

Lemma stop_timer_missing fuel s l h :
  delta_list s l -> h ∉ l -> (length l <= fuel)%nat ->
  exists s1,
    update_first_timer_delta s = Some s1 /\
    sl_sleeptimer_stop_timer fuel (Some h) s = Some (SL_STATUS_INVALID_STATE, s1) /\
    delta_list s1 l /\
    (forall a, attrs <$> heap s1 !! a = attrs <$> heap s !! a).
Proof.
  intros Hdl Hn Hf.
  destruct (update_first_timer_delta_spec s l Hdl)
    as (s1 & Hup & Hdl1 & _ & _ & Hattrs & _).
  exists s1. split; [done|]. split; [|done].
  unfold sl_sleeptimer_stop_timer. rewrite Hup. simpl.
  assert (Hhead : timer_head s1 <> Some h).
  { rewrite (chain_head _ _ _ (proj1 Hdl1)). intros E. apply Hn.
    destruct l; [done|]. injection E as ->. left. }
  rewrite bool_decide_eq_false_2 by done.
  rewrite (delta_list_remove_timer_missing fuel s1 l h (proj1 Hdl1) Hn Hf). done.
Qed.

(** X4: [sl_sleeptimer_stop_timer] on a handle that is not on the list
    returns InvalidState; the list stays as it is, and the state is the one
    left by the ageing of the head that precedes the search.  On a [NULL]
    handle it returns NullPointer and touches nothing. *)
Theorem stop_timer_not_running fuel s l h :
  delta_list s l -> h ∉ l -> (length l <= fuel)%nat ->
  (exists s1,
     update_first_timer_delta s = Some s1 /\
     sl_sleeptimer_stop_timer fuel (Some h) s = Some (SL_STATUS_INVALID_STATE, s1) /\
     delta_list s1 l /\
     hal_compare s1 = hal_compare s /\ hal_int_enabled s1 = hal_int_enabled s) /\
  sl_sleeptimer_stop_timer fuel None s = Some (SL_STATUS_NULL_POINTER, s).
Proof.
  intros Hdl Hn Hf. split; [|done].
  destruct (stop_timer_missing fuel s l h Hdl Hn Hf) as (s1 & Hup & Hstop & Hdl1 & _).
  exists s1. split; [done|]. split; [done|]. split; [done|].
  by apply update_first_timer_delta_hal.
Qed.

Lemma stop_timer_not_running_witness :
  exists s1,
    sl_sleeptimer_stop_timer 2 (Some 3%positive) sample_state
      = Some (SL_STATUS_INVALID_STATE, s1) /\
    delta_list s1 [1%positive; 2%positive].
Proof.
  destruct (stop_timer_not_running 2 sample_state [1%positive; 2%positive] 3%positive)
    as [(s1 & _ & H1 & H2 & _) _].
  - exact sample_delta_list.
  - compute_done.
  - simpl. lia.
  - exists s1. split; [exact H1 | exact H2].
Defined.

Lemma head_is_member_iff (l1 : list addr) h l2 :
  NoDup (l1 ++ h :: l2) -> head (l1 ++ h :: l2) = Some h <-> l1 = [].
Proof.
  intros Hnd. split; [|by intros ->].
  destruct l1 as [|x l1]; [done|]. simpl. intros [= ->].
  apply NoDup_cons in Hnd as [Hx _]. exfalso. apply Hx.
  apply elem_of_app. right. left.
Qed.

Lemma stop_timer_listed fuel s l1 h l2 :
  delta_list s (l1 ++ h :: l2) -> (length (l1 ++ h :: l2) <= fuel)%nat ->
  exists s1 s',
    update_first_timer_delta s = Some s1 /\
    sl_sleeptimer_stop_timer fuel (Some h) s = Some (SL_STATUS_OK, s') /\
    delta_list s' (l1 ++ l2) /\
    last_delta_update_count s' = last_delta_update_count s1 /\
    hal_counter s' = hal_counter s /\
    (forall a, attrs <$> heap s' !! a = attrs <$> heap s !! a) /\
    heap s' !! h = heap s1 !! h /\
    (forall a, a ∈ l1 ++ l2 ->
       wrap32 (last_delta_update_count s' + cum (delta_at (heap s')) a (l1 ++ l2))
       = wrap32 (last_delta_update_count s1
                 + cum (delta_at (heap s1)) a (l1 ++ h :: l2))) /\
    (l1 <> [] ->
       hal_compare s' = hal_compare s /\ hal_int_enabled s' = hal_int_enabled s) /\
    (l1 = [] -> forall n, head l2 = Some n ->
       hal_compare s'
         = wrap32 (last_delta_update_count s' + delta_at (heap s') n) /\
       Z.testbit (hal_int_enabled s') 1 = true) /\
    (l1 = [] -> l2 = [] -> Z.testbit (hal_int_enabled s') 1 = false).
Proof.
  intros Hdl Hf.
  destruct (update_first_timer_delta_spec s _ Hdl)
    as (s1 & Hup & Hdl1 & Hhead1 & Hcnt1 & Hattrs1 & _).
  destruct (update_first_timer_delta_hal _ _ Hup) as [Hcmp1 Hint1].
  pose proof (chain_NoDup _ _ _ (proj1 Hdl1)) as Hnd.
  assert (Hhd1 : timer_head s1 = head (l1 ++ h :: l2))
    by (apply (chain_head _ _ _ (proj1 Hdl1))).
  set (sc := bool_decide (timer_head s1 = Some h)).
  set (s2 := if sc then sleeptimer_hal_disable_int SLEEPTIMER_EVENT_COMP s1 else s1).
  assert (Hheap2 : heap s2 = heap s1) by (unfold s2; by destruct sc).
  assert (Hhead2 : timer_head s2 = timer_head s1) by (unfold s2; by destruct sc).
  assert (Hlast2 : last_delta_update_count s2 = last_delta_update_count s1)
    by (unfold s2; by destruct sc).
  assert (Hcnt2 : hal_counter s2 = hal_counter s1) by (unfold s2; by destruct sc).
  assert (Hdl2 : delta_list s2 (l1 ++ h :: l2)) by (by apply (delta_list_ext s1)).
  destruct (delta_list_remove_timer_spec fuel s2 l1 h l2 (proj1 Hdl2))
    as (s3 & Hrem & Hc3 & Hsg & Hattrs3 & Hsame & Hnext & Hh3).
  { rewrite length_app in Hf. lia. }
  assert (Hlast3 : last_delta_update_count s3 = last_delta_update_count s2)
    by (by apply same_globals_last).
  assert (Hcnt3 : hal_counter s3 = hal_counter s2) by (by apply same_globals_counter).
  assert (Hcmp3 : hal_compare s3 = hal_compare s2 /\ hal_int_enabled s3 = hal_int_enabled s2).
  { unfold same_globals in Hsg. rewrite Hsg. done. }
  assert (Hdl3 : delta_list s3 (l1 ++ l2)).
  { split; [done|]. apply Forall_forall. intros a Ha.
    destruct (decide (head l2 = Some a)) as [E|E].
    - rewrite (Hnext a E). apply wrap32_range.
    - rewrite (Hsame a E). destruct Hdl2 as [_ Hall].
      apply (proj1 (Forall_forall _ _) Hall).
      apply elem_of_app in Ha as [Ha|Ha]; apply elem_of_app; [by left|].
      right. by right. }
  assert (Hfire3 : forall a, a ∈ l1 ++ l2 ->
            wrap32 (last_delta_update_count s3 + cum (delta_at (heap s3)) a (l1 ++ l2))
            = wrap32 (last_delta_update_count s1
                      + cum (delta_at (heap s1)) a (l1 ++ h :: l2))).
  { intros a Ha. rewrite Hlast3, Hlast2. rewrite <- Hheap2.
    apply cum_remove; try done.
    intros b _ Hb. by apply Hsame. }
  assert (Hattrs : forall a, attrs <$> heap s3 !! a = attrs <$> heap s !! a).
  { intros a. rewrite Hattrs3, Hheap2. apply Hattrs1. }
  exists s1. unfold sl_sleeptimer_stop_timer. rewrite Hup. simpl.
  fold sc. fold s2. rewrite Hrem. simpl.
  destruct (decide (SL_STATUS_OK = SL_STATUS_OK)) as [_|]; [|done].
  pose proof (head_is_member_iff l1 h l2 Hnd) as Hiff.
  destruct l1 as [|x l1'].
  - (* the handle was the head *)
    assert (Hsc : sc = true).
    { unfold sc. apply bool_decide_eq_true_2. by rewrite Hhd1. }
    rewrite Hsc. simpl.
    assert (Hint2 : Z.testbit (hal_int_enabled s2) 1 = false).
    { unfold s2. rewrite Hsc.
      unfold sleeptimer_hal_disable_int, set_hal_int_enabled. cbn [hal_int_enabled].
      rewrite Z.ldiff_spec. change (Z.testbit SLEEPTIMER_EVENT_COMP 1) with true.
      apply andb_false_r. }
    destruct l2 as [|n l2'].
    + assert (Hh3' : timer_head s3 = None) by (apply (chain_head _ _ _ Hc3)).
      rewrite bool_decide_eq_false_2 by (rewrite Hh3'; intros E; by apply E).
      exists s3. split; [done|]. split; [done|]. split; [done|].
      split; [lia|]. split; [lia|]. split; [done|].
      split; [by rewrite Hh3, Hheap2|]. split; [done|].
      split; [done|]. split; [done|].
      intros _ _. destruct Hcmp3 as [_ ->]. done.
    + assert (Hh3' : timer_head s3 = Some n) by (apply (chain_head _ _ _ Hc3)).
      rewrite bool_decide_eq_true_2 by (by rewrite Hh3').
      destruct (lseg_lookup _ _ _ _ n Hc3 ltac:(left)) as [nh Hnh].
      unfold set_comparator_for_next_timer. rewrite Hh3'. cbn -[Z.lor Z.testbit].
      rewrite Hnh. cbn -[Z.lor Z.testbit].
      eexists. split; [done|]. split; [reflexivity|].
      split; [by apply (delta_list_ext s3)|].
      split; [simpl; lia|]. split; [simpl; lia|]. split; [done|].
      split; [simpl; by rewrite Hh3, Hheap2|]. split; [done|].
      split; [done|]. split; [|done].
      intros _ n' [= <-]. cbn -[Z.lor Z.testbit]. split.
      * unfold delta_at. by rewrite Hnh.
      * change (Z.testbit (Z.lor (hal_int_enabled s3) SLEEPTIMER_EVENT_COMP) 1 = true).
        rewrite Z.lor_spec. change (Z.testbit SLEEPTIMER_EVENT_COMP 1) with true.
        apply orb_true_r.
  - (* the handle was further down *)
    assert (Hsc : sc = false).
    { unfold sc. apply bool_decide_eq_false_2. rewrite Hhd1. intros E.
      by apply Hiff in E. }
    assert (Es2 : s2 = s1) by (unfold s2; by rewrite Hsc).
    rewrite Hsc. simpl.
    exists s3. split; [done|]. split; [done|]. split; [done|].
    split; [lia|]. split; [lia|]. split; [done|].
    split; [by rewrite Hh3, Hheap2|]. split; [done|].
    split; [|split; [done|done]].
    intros _. destruct Hcmp3 as [-> ->]. rewrite Es2. done.
Qed.

(** X5: [sl_sleeptimer_stop_timer] on a handle of the list returns Ok and
    takes it off: the others stay in order, the handle is no longer
    running, and when the head was not overdue every remaining timer keeps
    its deadline.  Stopping the head programs the comparator for the new
    head, or masks the compare interrupt when the list became empty;
    stopping another timer leaves comparator and interrupt mask alone. *)
Theorem stop_timer_running fuel s l1 h l2 r0 :
  delta_list s (l1 ++ h :: l2) -> (length (l1 ++ h :: l2) <= fuel)%nat ->
  exists s',
    sl_sleeptimer_stop_timer fuel (Some h) s = Some (SL_STATUS_OK, s') /\
    delta_list s' (l1 ++ l2) /\
    sl_sleeptimer_is_timer_running fuel (Some h) (Some r0) s'
      = Some (SL_STATUS_OK, Some false) /\
    ((forall hd, head (l1 ++ h :: l2) = Some hd -> elapsed s <= delta_at (heap s) hd) ->
     forall a, a ∈ l1 ++ l2 ->
       wrap32 (last_delta_update_count s' + cum (delta_at (heap s')) a (l1 ++ l2))
       = wrap32 (last_delta_update_count s
                 + cum (delta_at (heap s)) a (l1 ++ h :: l2))) /\
    (l1 <> [] ->
       hal_compare s' = hal_compare s /\ hal_int_enabled s' = hal_int_enabled s) /\
    (l1 = [] -> forall n, head l2 = Some n ->
       hal_compare s'
         = wrap32 (last_delta_update_count s' + delta_at (heap s') n) /\
       Z.testbit (hal_int_enabled s') 1 = true) /\
    (l1 = [] -> l2 = [] -> Z.testbit (hal_int_enabled s') 1 = false).
Proof.
  intros Hdl Hf.
  destruct (stop_timer_listed fuel s l1 h l2 Hdl Hf)
    as (s1 & s' & Hup & Hstop & Hdl' & _ & _ & _ & _ & Hfire & Hc1 & Hc2 & Hc3).
  exists s'. split; [done|]. split; [done|].
  pose proof (chain_NoDup _ _ _ (proj1 Hdl)) as Hnd.
  assert (Hn : h ∉ l1 ++ l2).
  { apply NoDup_app in Hnd as (_ & Hdisj & Hnd2). apply NoDup_cons in Hnd2 as [Hh2 _].
    intros Hin. apply elem_of_app in Hin as [Hin|Hin]; [|done].
    apply (Hdisj h Hin). left. }
  split.
  { unfold sl_sleeptimer_is_timer_running.
    rewrite (is_timer_running_loop_spec _ _ _ _ _ (proj1 Hdl')).
    - by rewrite bool_decide_eq_false_2.
    - rewrite length_app in *. simpl in Hf. lia. }
  split; [|done].
  intros Hfresh a Ha. rewrite (Hfire a Ha).
  apply (update_keeps_deadlines s _ s1 Hdl Hfresh Hup).
  apply elem_of_app in Ha as [Ha|Ha]; apply elem_of_app; [by left|]. right. by right.
Qed.

Lemma stop_timer_running_witness :
  exists s',
    sl_sleeptimer_stop_timer 2 (Some 1%positive) sample_state
      = Some (SL_STATUS_OK, s') /\
    delta_list s' [2%positive] /\
    hal_compare s' = wrap32 (last_delta_update_count s' + delta_at (heap s') 2%positive).
Proof.
  destruct (stop_timer_running 2 sample_state [] 1%positive [2%positive] false)
    as (s' & H1 & H2 & _ & _ & _ & H3 & _).
  - exact sample_delta_list.
  - simpl. lia.
  - exists s'. split; [exact H1|]. split; [exact H2|].
    exact (proj1 (H3 eq_refl 2%positive eq_refl)).
Defined.

(** ** Where a timer is inserted *)

Lemma delta_list_insert_timer_full fuel s l handle timeout :
  delta_list s l -> handle ∉ l -> is_Some (heap s !! handle) ->
  is_u32 timeout -> (length l <= fuel)%nat ->
  exists s' l1 l2,
    delta_list_insert_timer fuel handle timeout s = Some s' /\
    l = l1 ++ l2 /\
    delta_list s' (l1 ++ handle :: l2) /\
    same_globals s s' /\
    (forall a, attrs <$> heap s' !! a = attrs <$> heap s !! a) /\
    cum (delta_at (heap s')) handle (l1 ++ handle :: l2) = timeout /\
    (forall a, a ∈ l ->
       cum (delta_at (heap s')) a (l1 ++ handle :: l2) = cum (delta_at (heap s)) a l) /\
    (forall a, a ∈ l1 -> cum (delta_at (heap s)) a l <= timeout) /\
    (forall a, a ∈ l2 -> timeout < cum (delta_at (heap s)) a l).
Proof.
  intros Hdl Hn Hh Hu Hf.
  destruct (delta_list_insert_timer_spec fuel s l handle timeout Hdl Hn Hh Hu Hf)
    as (s' & l1 & l2 & Hins & -> & Hdl' & Hsg & Hattrs & Hdh & Hpos & Hsame & Hnext).
  pose proof (chain_NoDup _ _ _ (proj1 Hdl)) as Hnd.
  pose proof Hnd as Hnd'. apply NoDup_app in Hnd' as (_ & Hdisj & _).
  assert (Hnn : forall b, b ∈ l1 ++ l2 -> 0 <= delta_at (heap s) b)
    by (intros b Hb; by apply (delta_at_nonneg _ _ _ (proj2 Hdl))).
  assert (Hsum : sum_of (delta_at (heap s)) l1 = timeout - delta_at (heap s') handle).
  { rewrite Hdh, sum_deltas_sum_of. lia. }
  exists s', l1, l2. split; [done|]. split; [done|]. split; [done|].
  split; [done|]. split; [done|]. split; [|split; [|split]].
  - rewrite cum_through by (intros H; apply Hn, elem_of_app; by left).
    rewrite (sum_of_ext (delta_at (heap s)) (delta_at (heap s'))); [lia|].
    intros b Hb. apply Hsame.
    + intros ->. apply Hn, elem_of_app. by left.
    + intros H. apply (Hdisj b Hb). destruct l2; [done|]. injection H as ->. left.
  - intros a Ha. apply cum_insert; try done.
    + intros b Hb Hhd. apply Hsame; [|done]. intros ->. by apply Hn.
    + intros c Hc. destruct (Hnext c Hc) as [-> _]. lia.
  - intros a Ha. rewrite cum_app_l by done.
    pose proof (cum_le_sum (delta_at (heap s)) a l1
                  ltac:(intros b Hb; apply Hnn, elem_of_app; by left)). lia.
  - intros a Ha.
    rewrite cum_app_r by (intros H; by apply (Hdisj a H)).
    destruct l2 as [|c l2']; [by apply elem_of_nil in Ha|].
    destruct (Hnext c eq_refl) as [Hc Hcpos].
    pose proof (cum_ge_head (delta_at (heap s)) a c l2'
                  ltac:(intros b Hb; apply Hnn, elem_of_app; right; by right)). lia.
Qed.

(** X2: [delta_list_insert_timer] places a handle by its timeout alone,
    whatever the priorities: it goes behind every timer that is due no
    later than it and in front of every timer due later; after the insertion
    its deltas sum to the timeout and every other timer is due as before. *)
Theorem insert_position_by_deadline fuel s l handle timeout :
  delta_list s l -> handle ∉ l -> is_Some (heap s !! handle) ->
  is_u32 timeout -> (length l <= fuel)%nat ->
  exists s' l1 l2,
    delta_list_insert_timer fuel handle timeout s = Some s' /\
    l = l1 ++ l2 /\
    delta_list s' (l1 ++ handle :: l2) /\
    cum (delta_at (heap s')) handle (l1 ++ handle :: l2) = timeout /\
    (forall a, a ∈ l ->
       cum (delta_at (heap s')) a (l1 ++ handle :: l2) = cum (delta_at (heap s)) a l) /\
    (forall a, a ∈ l1 -> cum (delta_at (heap s)) a l <= timeout) /\
    (forall a, a ∈ l2 -> timeout < cum (delta_at (heap s)) a l).
Proof.
  intros Hdl Hn Hh Hu Hf.
  destruct (delta_list_insert_timer_full fuel s l handle timeout Hdl Hn Hh Hu Hf)
    as (s' & l1 & l2 & H1 & H2 & H3 & _ & _ & H4 & H5 & H6 & H7).
  exists s', l1, l2. done.
Qed.

Lemma insert_position_by_deadline_witness :
  exists s',
    delta_list_insert_timer 2 3%positive 10 sample_state = Some s' /\
    delta_list s' [1%positive; 3%positive; 2%positive].
Proof.
  destruct (insert_position_by_deadline 2 sample_state [1%positive; 2%positive]
              3%positive 10)
    as (s' & l1 & l2 & H1 & H2 & H3 & _).
  - exact sample_delta_list.
  - compute_done.
  - eexists. reflexivity.
  - unfold is_u32. lia.
  - simpl. lia.
  - exists s'. split; [exact H1|].
    vm_compute in H1. injection H1 as <-.
    split.
    + unfold chain. simpl. split; [done|]. eexists. split; [reflexivity|]. simpl.
      split; [done|]. eexists. split; [reflexivity|]. simpl.
      split; [done|]. eexists. split; [reflexivity|]. done.
    + repeat constructor; vm_compute; done.
Defined.

(** ** Starting a timer *)

Lemma elapsed_zero s :
  last_delta_update_count s = hal_counter s -> elapsed s = 0.
Proof.
  intros E. unfold elapsed, sleeptimer_hal_get_counter. rewrite E, Z.sub_diag. done.
Qed.

Lemma create_timer_arm_full fuel s l h timeout :
  delta_list s l -> h ∉ l -> is_Some (heap s !! h) -> is_u32 timeout ->
  (length l < fuel)%nat ->
  exists s1 s' l1 l2,
    update_first_timer_delta s = Some s1 /\
    create_timer_arm fuel h timeout s = Some s' /\
    l = l1 ++ l2 /\
    delta_list s' (l1 ++ h :: l2) /\
    cum (delta_at (heap s')) h (l1 ++ h :: l2) = timeout /\
    (forall a, a ∈ l ->
       cum (delta_at (heap s')) a (l1 ++ h :: l2) = cum (delta_at (heap s1)) a l) /\
    last_delta_update_count s' = last_delta_update_count s1 /\
    hal_counter s' = hal_counter s /\
    (forall a, attrs <$> heap s' !! a = attrs <$> heap s !! a).
Proof.
  intros Hdl Hn Hh Hu Hf.
  destruct (update_first_timer_delta_spec s l Hdl)
    as (s1 & Hupd & Hdl1 & _ & Hcnt1 & Hattrs1 & _).
  assert (Hh1 : is_Some (heap s1 !! h)).
  { destruct Hh as [hh Hh]. specialize (Hattrs1 h). rewrite Hh in Hattrs1.
    destruct (heap s1 !! h); [eauto|done]. }
  destruct (delta_list_insert_timer_full fuel s1 l h timeout Hdl1 Hn Hh1 Hu ltac:(lia))
    as (s2 & l1 & l2 & Hins & -> & Hdl2 & Hsg & Hattrs2 & Hcum & Hkeep & _).
  assert (Hattrs : forall a, attrs <$> heap s2 !! a = attrs <$> heap s !! a)
    by (intros a; by rewrite Hattrs2, Hattrs1).
  unfold create_timer_arm. rewrite Hupd. simpl. rewrite Hins. simpl.
  exists s1.
  destruct (decide (timer_head s2 = Some h)).
  - destruct (set_comparator_for_next_timer_spec s2 _ Hdl2)
      as (s3 & Hset & Hheap & Hhd & Hlast & Hcnt3); [by destruct l1|].
    exists s3, l1, l2. split; [done|]. split; [done|]. split; [done|].
    split; [by apply (delta_list_ext s2)|]. rewrite Hheap.
    split; [done|]. split; [done|].
    split; [rewrite Hlast; by apply same_globals_last|].
    split; [rewrite Hcnt3, <- Hcnt1; by apply same_globals_counter|]. done.
  - exists s2, l1, l2. split; [done|]. split; [done|]. split; [done|].
    split; [done|]. split; [done|]. split; [done|].
    split; [by apply same_globals_last|].
    split; [rewrite <- Hcnt1; by apply same_globals_counter|]. done.
Qed.

(** [create_timer] with a timeout that is not zero: the handle's fields are
    written, the head is aged, the handle is inserted. *)
Lemma create_timer_nonzero run_callback fuel s l h ti tp cb cb_data prio flags :
  delta_list s l -> h ∉ l -> is_Some (heap s !! h) ->
  0 < ti < 2 ^ 32 -> (length l < fuel)%nat ->
  exists s' l1 l2,
    create_timer run_callback fuel h ti tp cb cb_data prio flags s
      = Some ([], SL_STATUS_OK, s') /\
    l = l1 ++ l2 /\
    delta_list s' (l1 ++ h :: l2) /\
    cum (delta_at (heap s')) h (l1 ++ h :: l2) = ti /\
    hal_counter s' = hal_counter s /\
    attrs <$> heap s' !! h = Some (cb_data, prio, flags, cb, tp) /\
    (forall a, a <> h -> attrs <$> heap s' !! a = attrs <$> heap s !! a) /\
    ((forall hd, head l = Some hd -> elapsed s <= delta_at (heap s) hd) ->
     last_delta_update_count s' = hal_counter s /\
     forall a, a ∈ l ->
       wrap32 (last_delta_update_count s' + cum (delta_at (heap s')) a (l1 ++ h :: l2))
       = wrap32 (last_delta_update_count s + cum (delta_at (heap s)) a l)).
Proof.
  intros Hdl Hn [hh Hh] Hti Hf.
  unfold create_timer. rewrite Hh. simpl.
  destruct (Z.eqb_spec ti 0) as [|_]; [lia|].
  set (hh1 := mk_handle cb_data prio flags None cb tp (delta hh)).
  set (s0 := set_heap (<[h := hh1]> (heap s)) s).
  assert (Hsame0 : forall a, a ∈ l -> heap s0 !! a = heap s !! a).
  { intros a Ha. unfold s0. simpl. apply lookup_insert_ne. intros ->. by apply Hn. }
  assert (Hdl0 : delta_list s0 l) by (by apply (delta_list_frame s)).
  assert (Hd0 : forall a, a ∈ l -> delta_at (heap s0) a = delta_at (heap s) a)
    by (intros a Ha; unfold delta_at; by rewrite Hsame0).
  destruct (create_timer_arm_full fuel s0 l h ti Hdl0 Hn)
    as (s1 & s' & l1 & l2 & Hup & Harm & -> & Hdl' & Hcum & Hkeep & Hlast & Hcnt & Hattrs);
    [unfold s0; simpl; rewrite lookup_insert_eq; eauto | unfold is_u32; lia | done |].
  rewrite Harm. simpl.
  exists s', l1, l2. split; [done|]. split; [done|]. split; [done|].
  split; [done|]. split; [done|].
  split; [rewrite Hattrs; unfold s0; simpl; by rewrite lookup_insert_eq|].
  split.
  { intros a Ha. rewrite Hattrs. unfold s0. simpl. by rewrite lookup_insert_ne. }
  intros Hfresh.
  assert (Hfresh0 : forall hd, head (l1 ++ l2) = Some hd ->
            elapsed s0 <= delta_at (heap s0) hd).
  { intros hd Hhd. rewrite Hd0 by (by apply head_Some_elem_of). by apply Hfresh. }
  destruct (update_keeps_deadlines s0 _ s1 Hdl0 Hfresh0 Hup) as [Hl1 Hfire].
  split; [by rewrite Hlast, Hl1|].
  intros a Ha. rewrite Hlast, (Hkeep a Ha), (Hfire a Ha).
  change (last_delta_update_count s0) with (last_delta_update_count s).
  f_equal. f_equal. apply cum_ext. intros b Hb. by apply Hd0.
Qed.

(** X6: started with a non-zero timeout on a handle that is not running,
    without the head being overdue, [sl_sleeptimer_start_timer] returns Ok
    and invokes nothing; the handle is then running with the fields it was
    given, [sl_sleeptimer_get_timer_time_remaining] asked at the same
    counter value returns Ok and the timeout, and every timer that was
    running is due when it was. *)
Theorem start_then_time_remaining run_callback fuel s l h timeout cb cb_data prio flags v :
  delta_list s l -> h ∉ l -> is_Some (heap s !! h) ->
  0 < timeout < 2 ^ 32 -> (length l < fuel)%nat ->
  (forall hd, head l = Some hd -> elapsed s <= delta_at (heap s) hd) ->
  exists s' s'' l1 l2,
    sl_sleeptimer_start_timer run_callback fuel (Some h) timeout cb cb_data prio flags s
      = Some ([], SL_STATUS_OK, s') /\
    l = l1 ++ l2 /\ delta_list s' (l1 ++ h :: l2) /\
    attrs <$> heap s' !! h = Some (cb_data, prio, flags, cb, 0) /\
    sl_sleeptimer_is_timer_running fuel (Some h) (Some false) s'
      = Some (SL_STATUS_OK, Some true) /\
    sl_sleeptimer_get_timer_time_remaining fuel (Some h) (Some v) s'
      = Some (SL_STATUS_OK, Some timeout, s'') /\
    (forall a, a ∈ l ->
       wrap32 (last_delta_update_count s' + cum (delta_at (heap s')) a (l1 ++ h :: l2))
       = wrap32 (last_delta_update_count s + cum (delta_at (heap s)) a l)).
Proof.
  intros Hdl Hn Hh Hti Hf Hfresh.
  destruct (create_timer_nonzero run_callback fuel s l h timeout 0 cb cb_data prio flags
              Hdl Hn Hh Hti Hf)
    as (s' & l1 & l2 & Hct & -> & Hdl' & Hcum & Hcnt & Hat & _ & Hrest).
  destruct (Hrest Hfresh) as [Hlast Hfire].
  assert (Hlen : (length (l1 ++ h :: l2) <= fuel)%nat).
  { rewrite length_app in *. simpl. lia. }
  assert (Hin : h ∈ l1 ++ h :: l2) by (apply elem_of_app; right; left).
  assert (He : elapsed s' = 0) by (apply elapsed_zero; lia).
  destruct (time_remaining_listed fuel s' l1 h l2 v Hdl') as (s'' & _ & Hrem).
  { rewrite length_app in Hf. lia. }
  { intros hd Hhd. rewrite He.
    apply (delta_at_nonneg _ _ _ (proj2 Hdl')). by apply head_Some_elem_of. }
  exists s', s'', l1, l2.
  split.
  { unfold sl_sleeptimer_start_timer, sl_sleeptimer_is_timer_running.
    rewrite (is_timer_running_loop_spec (heap s) h (l1 ++ l2) (timer_head s) fuel
               (proj1 Hdl)) by lia.
    simpl. rewrite bool_decide_eq_false_2 by done.
    destruct (decide (Some false = Some true)) as [|_]; [done|]. exact Hct. }
  split; [done|]. split; [done|]. split; [done|].
  split.
  { unfold sl_sleeptimer_is_timer_running.
    rewrite (is_timer_running_loop_spec _ _ _ _ _ (proj1 Hdl') Hlen).
    by rewrite bool_decide_eq_true_2. }
  split; [|done].
  rewrite Hrem, Hcum, He, Z.sub_0_r. rewrite wrap32_small by lia. done.
Qed.

Lemma start_then_time_remaining_witness :
  exists s' s'',
    sl_sleeptimer_start_timer no_callback 3 (Some 3%positive) 12 (Some 9%positive) 4 2 0
      (set_last_delta_update_count 103 sample_state)
      = Some ([], SL_STATUS_OK, s') /\
    sl_sleeptimer_get_timer_time_remaining 3 (Some 3%positive) (Some 0) s'
      = Some (SL_STATUS_OK, Some 12, s'').
Proof.
  destruct (start_then_time_remaining no_callback 3
              (set_last_delta_update_count 103 sample_state)
              [1%positive; 2%positive] 3%positive 12 (Some 9%positive) 4 2 0 0)
    as (s' & s'' & l1 & l2 & H1 & _ & _ & _ & _ & H2 & _).
  - apply (delta_list_ext sample_state); [done|done|exact sample_delta_list].
  - compute_done.
  - eexists. reflexivity.
  - lia.
  - simpl. lia.
  - intros hd [= <-]. vm_compute. discriminate.
  - exists s', s''. split; [exact H1 | exact H2].
Defined.

(** ** Restarting a timer *)



(** ** No timer with the flags *)

(** X23: when no timer of the list carries the requested option flags (an
    empty list included), [sl_sleeptimer_get_remaining_time_of_first_timer]
    returns Empty and does not write the output. *)
Theorem first_timer_none_is_empty fuel s l flags v :
  chain (heap s) (timer_head s) l ->
  (forall a, a ∈ l -> flags_at (heap s) a <> flags) ->
  (length l <= fuel)%nat ->
  sl_sleeptimer_get_remaining_time_of_first_timer fuel flags v s
    = Some (SL_STATUS_EMPTY, v).
Proof.
  intros Hc Hnone Hf. unfold sl_sleeptimer_get_remaining_time_of_first_timer.
  rewrite (first_timer_loop_none _ _ _ _ _ _ Hc Hnone Hf). done.
Qed.

Lemma first_timer_none_is_empty_witness :
  sl_sleeptimer_get_remaining_time_of_first_timer 2 4 77 sample_state
    = Some (SL_STATUS_EMPTY, 77) /\
  sl_sleeptimer_get_remaining_time_of_first_timer 0 0 77 idle_state
    = Some (SL_STATUS_EMPTY, 77).
Proof.
  split.
  - apply (first_timer_none_is_empty 2 sample_state [1%positive; 2%positive]).
    + exact (proj1 sample_delta_list).
    + intros a Ha. apply list_elem_of_In in Ha. simpl in Ha.
      destruct Ha as [<-|[<-|[]]]; vm_compute; discriminate.
    + simpl. lia.
  - apply (first_timer_none_is_empty 0 idle_state []).
    + exact (proj1 idle_delta_list).
    + intros a Ha. by apply elem_of_nil in Ha.
    + simpl. lia.
Defined.

(** ** Periodic timers *)

(** Every callback returns within [budget] ticks. *)
Definition callback_takes_at_most (budget : Z)
    (run_callback : callback_id -> addr -> Z -> state -> state) : Prop :=
  forall cb h d s,
    wrap32 (hal_counter (run_callback cb h d s) - hal_counter s) <= budget.

Lemma delta_list_set_head_delta s l hd hh d0 s0 :
  delta_list s (hd :: l) -> heap s !! hd = Some hh ->
  heap s0 = <[hd := set_delta d0 hh]> (heap s) ->
  timer_head s0 = timer_head s -> is_u32 d0 ->
  delta_list s0 (hd :: l) /\
  delta_at (heap s0) hd = d0 /\
  forall a, a <> hd -> delta_at (heap s0) a = delta_at (heap s) a.
Proof.
  intros [Hc Hall] Hh Hs0 Hh0 Hu0.
  pose proof (chain_NoDup _ _ _ Hc) as Hnd. apply NoDup_cons in Hnd as [Hnot _].
  unfold chain in Hc. simpl in Hc. destruct Hc as (Hhd & hh' & Hh' & Hc).
  rewrite Hh in Hh'. injection Hh' as <-.
  apply Forall_cons in Hall as [_ Hall].
  split; [split|split].
  - unfold chain. simpl. rewrite Hs0, Hh0. split; [done|]. eexists.
    rewrite lookup_insert_eq. split; [done|]. simpl.
    eapply lseg_frame; [|exact Hc]. intros a Ha.
    rewrite lookup_insert_ne; [done|]. intros ->. done.
  - rewrite Hs0. apply Forall_cons. split.
    + by rewrite delta_at_insert_eq.
    + apply Forall_forall. intros a Ha.
      rewrite delta_at_insert_ne by (intros ->; done).
      by apply (proj1 (Forall_forall _ _) Hall).
  - rewrite Hs0. by rewrite delta_at_insert_eq.
  - intros a Ha. rewrite Hs0. by rewrite delta_at_insert_ne.
Qed.

(** The dispatch loop stops at once when the head is not due. *)
Lemma dispatch_loop_idle run_callback fuel wfuel s l dt cnt :
  delta_list s l ->
  (forall hd, head l = Some hd -> dt < delta_at (heap s) hd) ->
  dispatch_loop run_callback fuel wfuel dt cnt s = Some ([], dt, cnt, s).
Proof.
  intros [Hc _] Hidle.
  destruct l as [|hd rest].
  - apply chain_head in Hc. simpl in Hc. destruct fuel; simpl; by rewrite Hc.
  - unfold chain in Hc. simpl in Hc. destruct Hc as (Hhd & hh & Hh & _).
    specialize (Hidle hd eq_refl). unfold delta_at in Hidle. rewrite Hh in Hidle.
    simpl in Hidle.
    destruct fuel; simpl; rewrite Hhd; simpl; rewrite Hh; simpl;
      (replace (dt >=? delta hh) with false by (symmetry; rewrite Z.geb_leb; lia));
      done.
Qed.

Lemma wrap32_two_rebases c c' last x :
  wrap32 (c' + (x - (wrap32 (c - last) + wrap32 (c' - c)))) = wrap32 (last + x).
Proof.
  replace (c' + (x - (wrap32 (c - last) + wrap32 (c' - c))))
    with (c' + x - wrap32 (c - last) - wrap32 (c' - c)) by lia.
  rewrite wrap32_sub_r.
  replace (c' + x - wrap32 (c - last) - (c' - c))
    with (c + x - wrap32 (c - last)) by lia.
  rewrite wrap32_sub_r. f_equal. lia.
Qed.

Lemma cum_head d a l : cum d a (a :: l) = d a.
Proof. simpl. destruct (decide (a = a)); [lia|done]. Qed.

(** One pass of the compare branch over a list whose head [H] alone is due
    and periodic. *)
Lemma periodic_pass run_callback fuel wfuel budget s H rest :
  callback_keeps_list run_callback ->
  callback_takes_at_most budget run_callback -> 0 <= budget ->
  delta_list s (H :: rest) -> (length (H :: rest) <= wfuel)%nat -> (1 <= fuel)%nat ->
  0 < period_at (heap s) H < 2 ^ 32 ->
  delta_at (heap s) H <= elapsed s ->
  elapsed s - delta_at (heap s) H + budget < period_at (heap s) H ->
  (forall n, head rest = Some n ->
     elapsed s - delta_at (heap s) H + budget < delta_at (heap s) n) ->
  exists s5 l' w,
    dispatch_loop run_callback fuel wfuel (elapsed s) (hal_counter s) s
      = Some (callback_log H (callback_at (heap s) H) (data_at (heap s) H),
              elapsed s - delta_at (heap s) H + w, hal_counter s5, s5) /\
    w = wrap32 (hal_counter s5 - hal_counter s) /\ 0 <= w <= budget /\
    delta_list s5 l' /\ H ∈ l' /\ (forall a, a ∈ rest -> a ∈ l') /\
    cum (delta_at (heap s5)) H l' = period_at (heap s) H /\
    (forall a, a ∈ rest ->
       cum (delta_at (heap s5)) a l' + delta_at (heap s) H
       = cum (delta_at (heap s)) a (H :: rest)) /\
    (forall hd, head l' = Some hd ->
       elapsed s - delta_at (heap s) H + w < delta_at (heap s5) hd).
Proof.
  intros Hk Hb Hb0 Hdl Hwf Hfuel Hp Hdue Hlate Hnext.
  pose proof Hdl as [Hc Hall].
  pose proof (chain_NoDup _ _ _ Hc) as Hnd.
  pose proof Hnd as Hnd'. apply NoDup_cons in Hnd' as [HnH _].
  assert (Hhd : timer_head s = Some H).
  { unfold chain in Hc. simpl in Hc. by destruct Hc as [? _]. }
  destruct (lseg_lookup _ _ _ _ H Hc ltac:(left)) as [hh Hh].
  assert (Hdh : delta_at (heap s) H = delta hh) by (unfold delta_at; by rewrite Hh).
  assert (Hph : period_at (heap s) H = timeout_periodic hh)
    by (unfold period_at; by rewrite Hh).
  assert (Hd0 : 0 <= delta_at (heap s) H < 2 ^ 32).
  { apply Forall_cons in Hall as [Hu _]. exact Hu. }
  assert (He : 0 <= elapsed s < 2 ^ 32) by (unfold elapsed; apply wrap32_range).
  assert (Hnn : forall b, b ∈ rest -> 0 <= delta_at (heap s) b).
  { intros b Hb'. apply (delta_at_nonneg _ _ _ Hall). by right. }
  rewrite Hhd in Hc.
  destruct (expired_scan_spec (heap s) (H :: rest) H (elapsed s) wfuel Hc Hall He Hdue Hwf)
    as (X & Hscan & HXin & HXfit & _).
  assert (X = H) as ->.
  { apply elem_of_cons in HXin as [->|HXin]; [done|exfalso].
    assert (HXH : X <> H) by (intros ->; done).
    simpl in HXfit. destruct (decide (H = X)) as [E|_]; [by symmetry in E|].
    destruct rest as [|n rest']; [by apply elem_of_nil in HXin|].
    specialize (Hnext n eq_refl).
    pose proof (cum_ge_head (delta_at (heap s)) X n rest'
                  ltac:(intros b Hb'; apply Hnn; by right)). lia. }
  set (c := hal_counter s) in *.
  set (s1 := set_last_delta_update_count c s).
  set (s2 := set_heap (<[H := set_delta 0 hh]> (heap s1)) s1).
  destruct (dispatch_unlink wfuel s2 s [] H rest hh Hdl Hh eq_refl eq_refl ltac:(simpl; lia))
    as (s3 & Hrem & Hdl3 & Hsg3 & HX3 & Hattrs3 & Hd3).
  simpl in Hdl3.
  destruct (delta_list_insert_timer_full wfuel s3 rest H (period_at (heap s) H) Hdl3 HnH)
    as (s4 & l1 & l2 & Hins & Hrest & Hdl4 & Hsg4 & Hattrs4 & Hcum4 & Hkeep4 & _);
    [eauto | unfold is_u32; lia | simpl in Hwf; lia |].
  assert (Hattrs : forall a, attrs <$> heap s4 !! a = attrs <$> heap s !! a).
  { intros a. by rewrite Hattrs4, Hattrs3. }
  destruct (attrs_eq_inv _ _ H (Hattrs H)) as (_ & _ & Hcb & Hdata & Hsome).
  destruct (proj2 Hsome ltac:(eauto)) as [ch4 Hch4].
  assert (Hcnt4 : hal_counter s4 = c).
  { rewrite (same_globals_counter _ _ Hsg4), (same_globals_counter _ _ Hsg3). done. }
  set (s5 := after_callback run_callback H (callback_at (heap s) H)
               (data_at (heap s) H) s4).
  destruct (after_callback_keeps run_callback H (callback_at (heap s) H)
              (data_at (heap s) H) s4 Hk) as [Hheap5 Hhead5].
  fold s5 in Hheap5, Hhead5.
  assert (Hdl5 : delta_list s5 (l1 ++ H :: l2)) by (by apply (delta_list_ext s4)).
  set (w := wrap32 (hal_counter s5 - c)).
  assert (Hw : 0 <= w <= budget).
  { split; [apply wrap32_range|]. unfold w, s5, after_callback.
    destruct (callback_at (heap s) H) as [cb|].
    - rewrite <- Hcnt4. apply Hb.
    - rewrite Hcnt4, Z.sub_diag. by change (wrap32 0) with 0. }
  set (dt1 := elapsed s - delta_at (heap s) H) in *.
  assert (Hdt2 : wrap32 (wrap32 dt1 + (hal_counter s5 - c)) = dt1 + w).
  { rewrite wrap32_add_l, <- wrap32_add_r. fold w. apply wrap32_small. lia. }
  assert (Hidle : forall hd, head (l1 ++ H :: l2) = Some hd ->
            dt1 + w < delta_at (heap s5) hd).
  { intros hd Hhd'. rewrite Hheap5.
    destruct l1 as [|n l1'].
    - injection Hhd' as <-. cbn [app] in Hcum4. rewrite cum_head in Hcum4. lia.
    - injection Hhd' as <-.
      assert (Hn : n ∈ rest) by (rewrite Hrest; left).
      pose proof (Hkeep4 n Hn) as Hkn. cbn [app] in Hkn. rewrite cum_head in Hkn.
      rewrite Hrest in Hkn. cbn [app] in Hkn. rewrite cum_head in Hkn.
      rewrite Hkn, Hd3 by (intros ->; done).
      specialize (Hnext n ltac:(by rewrite Hrest)). lia. }
  exists s5, (l1 ++ H :: l2), w.
  split.
  { destruct fuel as [|fuel']; [lia|].
    simpl. rewrite Hhd. simpl. rewrite Hh. simpl.
    replace (elapsed s >=? delta hh) with true by (symmetry; rewrite Z.geb_leb; lia).
    change (heap (set_last_delta_update_count c s)) with (heap s).
    rewrite Hscan. simpl. rewrite Hh. simpl.
    fold s1. change (set_heap (<[H:=set_delta 0 hh]> (heap s)) s1) with s2.
    rewrite Hrem. simpl. rewrite HX3. simpl.
    rewrite <- Hph.
    destruct (Z.eqb_spec (period_at (heap s) H) 0) as [|_]; [lia|].
    rewrite Hins. simpl.
    unfold invoke_callback. rewrite Hch4. simpl.
    unfold callback_at, data_at in Hcb, Hdata. rewrite Hch4, Hh in Hcb, Hdata.
    simpl in Hcb, Hdata.
    assert (Hs5 : s5 = match callback ch4 with
                       | Some cb => run_callback cb H (callback_data ch4) s4
                       | None => s4
                       end).
    { unfold s5, after_callback, callback_at, data_at. rewrite Hh. simpl.
      rewrite <- Hcb, <- Hdata. done. }
    assert (Hlog : callback_log H (callback_at (heap s) H) (data_at (heap s) H)
                   = match callback ch4 with
                     | Some cb => [Invoke cb H (callback_data ch4)]
                     | None => []
                     end).
    { unfold callback_log, callback_at, data_at. rewrite Hh. simpl.
      rewrite <- Hcb, <- Hdata. done. }
    rewrite Hlog.
    assert (Hloop2 : dispatch_loop run_callback fuel' wfuel (dt1 + w) (hal_counter s5) s5
                     = Some ([], dt1 + w, hal_counter s5, s5))
      by (by apply (dispatch_loop_idle _ _ _ _ (l1 ++ H :: l2))).
    rewrite <- Hdh. fold dt1.
    destruct (callback ch4) as [cb|]; simpl; rewrite <- Hs5;
      unfold sleeptimer_hal_get_counter; rewrite Hdt2, Hloop2; simpl; done. }
  split; [done|]. split; [done|]. split; [done|].
  split; [apply elem_of_app; right; left|].
  split.
  { intros a Ha. rewrite Hrest in Ha.
    apply elem_of_app in Ha as [?|?]; apply elem_of_app; [by left|right; by right]. }
  split; [by rewrite Hheap5|]. split; [|done].
  intros a Ha. rewrite Hheap5, (Hkeep4 a Ha).
  assert (HaH : a <> H) by (intros ->; done).
  simpl. destruct (decide (H = a)) as [E|_]; [by symmetry in E|].
  rewrite (cum_ext (delta_at (heap s3)) (delta_at (heap s))); [lia|].
  intros b Hb'. symmetry. apply Hd3. intros ->. done.
Qed.

(** X25: a periodic timer at the head of the list that alone is due when
    the compare interrupt is served (its lateness plus the time its callback
    takes staying below its period and below the delta of the next timer) is
    called once and put back on the list; its new deadline is its old
    deadline plus its period, whatever the latency of the interrupt and the
    duration of the callback, every other timer keeps its deadline, and the
    comparator is programmed for the new head. *)
Theorem periodic_timer_keeps_its_period run_callback f fuel wfuel budget s H rest :
  callback_keeps_list run_callback ->
  callback_takes_at_most budget run_callback -> 0 <= budget ->
  delta_list s (H :: rest) -> (length (H :: rest) <= wfuel)%nat -> (1 <= fuel)%nat ->
  0 < period_at (heap s) H < 2 ^ 32 ->
  delta_at (heap s) H <= elapsed s ->
  elapsed s - delta_at (heap s) H + budget < period_at (heap s) H ->
  (forall n, head rest = Some n ->
     elapsed s - delta_at (heap s) H + budget < delta_at (heap s) n) ->
  exists s' l',
    process_timer_irq f run_callback fuel wfuel SLEEPTIMER_EVENT_COMP s
      = Some (callback_log H (callback_at (heap s) H) (data_at (heap s) H), s') /\
    delta_list s' l' /\ H ∈ l' /\ (forall a, a ∈ rest -> a ∈ l') /\
    wrap32 (last_delta_update_count s' + cum (delta_at (heap s')) H l')
      = wrap32 (last_delta_update_count s
                + (delta_at (heap s) H + period_at (heap s) H)) /\
    (forall a, a ∈ rest ->
       wrap32 (last_delta_update_count s' + cum (delta_at (heap s')) a l')
       = wrap32 (last_delta_update_count s + cum (delta_at (heap s)) a (H :: rest))) /\
    (forall hd, head l' = Some hd ->
       hal_compare s'
       = wrap32 (last_delta_update_count s' + delta_at (heap s') hd)).
Proof.
  intros Hk Hb Hb0 Hdl Hwf Hfuel Hp Hdue Hlate Hnext.
  destruct (periodic_pass run_callback fuel wfuel budget s H rest Hk Hb Hb0 Hdl Hwf Hfuel
              Hp Hdue Hlate Hnext)
    as (s5 & l' & w & Hloop & Hwdef & Hw & Hdl5 & HH & Hin & HcumH & Hcum & Hidle).
  assert (He : 0 <= elapsed s < 2 ^ 32) by (unfold elapsed; apply wrap32_range).
  set (dt2 := elapsed s - delta_at (heap s) H + w) in *.
  destruct l' as [|hd l'']; [by apply elem_of_nil in HH|].
  specialize (Hidle hd eq_refl).
  pose proof (chain_NoDup _ _ _ (proj1 Hdl5)) as Hnd5.
  assert (Hhd5 : timer_head s5 = Some hd).
  { destruct Hdl5 as [Hc5 _]. unfold chain in Hc5. simpl in Hc5. by destruct Hc5. }
  destruct (lseg_lookup _ _ _ _ hd (proj1 Hdl5) ltac:(left)) as [h5 Hh5].
  assert (Hd5 : delta_at (heap s5) hd = delta h5) by (unfold delta_at; by rewrite Hh5).
  assert (Hu5 : 0 <= delta_at (heap s5) hd < 2 ^ 32).
  { destruct Hdl5 as [_ Hall5]. apply Forall_cons in Hall5 as [Hu _]. exact Hu. }
  set (s6 := set_heap (<[hd := set_delta (wrap32 (delta h5 - dt2)) h5]> (heap s5)) s5).
  set (s7 := set_last_delta_update_count (hal_counter s5) s6).
  destruct (delta_list_set_head_delta s5 l'' hd h5 (wrap32 (delta h5 - dt2)) s7
              Hdl5 Hh5 eq_refl eq_refl (wrap32_range _))
    as (Hdl7 & Hdhd7 & Hdrest7).
  set (h7 := set_delta (wrap32 (delta h5 - dt2)) h5).
  assert (Hh7 : heap s7 !! hd = Some h7) by (apply lookup_insert_eq).
  assert (Hd7 : delta_at (heap s7) hd = delta h7) by (unfold delta_at; by rewrite Hh7).
  set (s8 := sleeptimer_hal_set_compare
               (wrap32 (last_delta_update_count s7 + delta h7))
               (sleeptimer_hal_enable_int SLEEPTIMER_EVENT_COMP s7)).
  assert (Hdl8 : delta_list s8 (hd :: l'')) by (by apply (delta_list_ext s7)).
  assert (Hage : forall a, a ∈ hd :: l'' ->
            cum (delta_at (heap s8)) a (hd :: l'')
            = cum (delta_at (heap s5)) a (hd :: l'') - dt2).
  { intros a Ha. change (heap s8) with (heap s7).
    apply (cum_aged (delta_at (heap s5))); try done.
    - intros b Hb'. apply Hdrest7. intros ->. by apply Hb'.
    - intros b [= <-]. rewrite Hdhd7, <- Hd5. apply wrap32_small. lia. }
  exists s8, (hd :: l''). split.
  { rewrite process_timer_irq_compare. unfold process_compare.
    change (dispatch_loop run_callback fuel wfuel
              (wrap32 (sleeptimer_hal_get_counter s - last_delta_update_count s))
              (sleeptimer_hal_get_counter s) s)
      with (dispatch_loop run_callback fuel wfuel (elapsed s) (hal_counter s) s).
    rewrite Hloop. simpl. rewrite Hhd5. simpl. rewrite Hh5. simpl.
    unfold set_comparator_for_next_timer. simpl. rewrite Hhd5. simpl.
    rewrite lookup_insert_eq. simpl. done. }
  split; [done|]. split; [done|]. split; [done|].
  change (last_delta_update_count s8) with (hal_counter s5).
  assert (Hdt2 : dt2 = wrap32 (hal_counter s - last_delta_update_count s)
                       + wrap32 (hal_counter s5 - hal_counter s)
                       - delta_at (heap s) H).
  { unfold dt2, elapsed, sleeptimer_hal_get_counter. lia. }
  split; [|split].
  - rewrite (Hage H HH), HcumH, Hdt2.
    etrans; [|apply (wrap32_two_rebases (hal_counter s) (hal_counter s5))].
    f_equal. lia.
  - intros a Ha. rewrite (Hage a (Hin a Ha)), <- (Hcum a Ha), Hdt2.
    etrans; [|apply (wrap32_two_rebases (hal_counter s) (hal_counter s5))].
    f_equal. lia.
  - intros hd' [= <-].
    change (hal_compare s8) with (wrap32 (last_delta_update_count s7 + delta h7)).
    change (heap s8) with (heap s7). rewrite Hd7. reflexivity.
Qed.

(** Timer 1 (period 50, callback 7) was due at tick 110 and is served at
    tick 115; timer 2 is due 100 ticks after it. *)
Definition periodic_heap : gmap addr sl_sleeptimer_timer_handle_t :=
  <[1%positive := mk_handle 0 5 0 (Some 2%positive) (Some 7%positive) 50 10]>
  (<[2%positive := mk_handle 0 1 0 None (Some 8%positive) 0 100]> ∅).

Definition periodic_state : state :=
  mk_state periodic_heap 0 0 0 0 0 0 (Some 1%positive) 100 true 0 115 110 3.

Lemma periodic_delta_list : delta_list periodic_state [1%positive; 2%positive].
Proof.
  split.
  - unfold chain. simpl. split; [done|]. eexists. split; [reflexivity|]. simpl.
    split; [done|]. eexists. split; [reflexivity|]. done.
  - repeat constructor; vm_compute; done.
Qed.

Lemma no_callback_takes_no_time : callback_takes_at_most 0 no_callback.
Proof. intros cb h d s. unfold no_callback. rewrite Z.sub_diag. done. Qed.

Lemma periodic_timer_keeps_its_period_witness :
  exists s' l',
    process_timer_irq 32768 no_callback 2 2 SLEEPTIMER_EVENT_COMP periodic_state
      = Some ([Invoke 7%positive 1%positive 0], s') /\
    delta_list s' l' /\
    wrap32 (last_delta_update_count s' + cum (delta_at (heap s')) 1%positive l')
      = 160.
Proof.
  destruct (periodic_timer_keeps_its_period no_callback 32768 2 2 0 periodic_state
              1%positive [2%positive])
    as (s' & l' & H1 & H2 & _ & _ & H3 & _).
  - exact no_callback_keeps_list.
  - exact no_callback_takes_no_time.
  - lia.
  - exact periodic_delta_list.
  - simpl. lia.
  - lia.
  - vm_compute. split; reflexivity.
  - vm_compute. discriminate.
  - vm_compute. reflexivity.
  - intros n [= <-]. vm_compute. reflexivity.
  - exists s', l'. split; [exact H1|]. split; [exact H2 | exact H3].
Defined.

(** ** Starting a periodic timer *)

(** X26: [sl_sleeptimer_start_periodic_timer] with a non-zero timeout on a
    handle that is not running, without the head being overdue, returns Ok
    and invokes nothing; the handle is then running with the timeout as its
    period, [sl_sleeptimer_get_timer_time_remaining] asked at the same
    counter value returns Ok and the timeout, and every timer that was
    running is due when it was. *)
Theorem start_periodic_then_time_remaining
    run_callback fuel s l h timeout cb cb_data prio flags v :
  delta_list s l -> h ∉ l -> is_Some (heap s !! h) ->
  0 < timeout < 2 ^ 32 -> (length l < fuel)%nat ->
  (forall hd, head l = Some hd -> elapsed s <= delta_at (heap s) hd) ->
  exists s' s'' l1 l2,
    sl_sleeptimer_start_periodic_timer run_callback fuel (Some h) timeout cb cb_data
      prio flags s = Some ([], SL_STATUS_OK, s') /\
    l = l1 ++ l2 /\ delta_list s' (l1 ++ h :: l2) /\
    attrs <$> heap s' !! h = Some (cb_data, prio, flags, cb, timeout) /\
    sl_sleeptimer_get_timer_time_remaining fuel (Some h) (Some v) s'
      = Some (SL_STATUS_OK, Some timeout, s'') /\
    (forall a, a ∈ l ->
       wrap32 (last_delta_update_count s' + cum (delta_at (heap s')) a (l1 ++ h :: l2))
       = wrap32 (last_delta_update_count s + cum (delta_at (heap s)) a l)).
Proof.
  intros Hdl Hn Hh Hti Hf Hfresh.
  destruct (create_timer_nonzero run_callback fuel s l h timeout timeout cb cb_data
              prio flags Hdl Hn Hh Hti Hf)
    as (s' & l1 & l2 & Hct & -> & Hdl' & Hcum & Hcnt & Hat & _ & Hrest).
  destruct (Hrest Hfresh) as [Hlast Hfire].
  assert (He : elapsed s' = 0) by (apply elapsed_zero; lia).
  destruct (time_remaining_listed fuel s' l1 h l2 v Hdl') as (s'' & _ & Hrem).
  { rewrite length_app in Hf. lia. }
  { intros hd Hhd. rewrite He.
    apply (delta_at_nonneg _ _ _ (proj2 Hdl')). by apply head_Some_elem_of. }
  exists s', s'', l1, l2.
  split.
  { unfold sl_sleeptimer_start_periodic_timer, sl_sleeptimer_is_timer_running.
    rewrite (is_timer_running_loop_spec (heap s) h (l1 ++ l2) (timer_head s) fuel
               (proj1 Hdl)) by lia.
    simpl. rewrite bool_decide_eq_false_2 by done.
    destruct (decide (Some false = Some true)) as [|_]; [done|]. exact Hct. }
  split; [done|]. split; [done|]. split; [done|]. split; [|done].
  rewrite Hrem, Hcum, He, Z.sub_0_r. rewrite wrap32_small by lia. done.
Qed.

Lemma start_periodic_then_time_remaining_witness :
  exists s' s'',
    sl_sleeptimer_start_periodic_timer no_callback 3 (Some 3%positive) 12
      (Some 9%positive) 4 2 0 (set_last_delta_update_count 103 sample_state)
      = Some ([], SL_STATUS_OK, s') /\
    attrs <$> heap s' !! 3%positive = Some (4, 2, 0, Some 9%positive, 12) /\
    sl_sleeptimer_get_timer_time_remaining 3 (Some 3%positive) (Some 0) s'
      = Some (SL_STATUS_OK, Some 12, s'').
Proof.
  destruct (start_periodic_then_time_remaining no_callback 3
              (set_last_delta_update_count 103 sample_state)
              [1%positive; 2%positive] 3%positive 12 (Some 9%positive) 4 2 0 0)
    as (s' & s'' & l1 & l2 & H1 & _ & _ & H2 & H3 & _).
  - apply (delta_list_ext sample_state); [done|done|exact sample_delta_list].
  - compute_done.
  - eexists. reflexivity.
  - lia.
  - simpl. lia.
  - intros hd [= <-]. vm_compute. discriminate.
  - exists s', s''. split; [exact H1|]. split; [exact H2 | exact H3].
Defined.

(** ** A one-shot timer that is due *)

Lemma one_shot_pass run_callback fuel wfuel budget s H rest :
  callback_keeps_list run_callback ->
  callback_takes_at_most budget run_callback -> 0 <= budget ->
  delta_list s (H :: rest) -> (length (H :: rest) <= wfuel)%nat -> (1 <= fuel)%nat ->
  period_at (heap s) H = 0 ->
  delta_at (heap s) H <= elapsed s ->
  elapsed s - delta_at (heap s) H + budget < 2 ^ 32 ->
  (forall n, head rest = Some n ->
     elapsed s - delta_at (heap s) H + budget < delta_at (heap s) n) ->
  exists s5 w,
    dispatch_loop run_callback fuel wfuel (elapsed s) (hal_counter s) s
      = Some (callback_log H (callback_at (heap s) H) (data_at (heap s) H),
              elapsed s - delta_at (heap s) H + w, hal_counter s5, s5) /\
    w = wrap32 (hal_counter s5 - hal_counter s) /\ 0 <= w <= budget /\
    delta_list s5 rest /\
    (forall a, a <> H -> delta_at (heap s5) a = delta_at (heap s) a).
Proof.
  intros Hk Hb Hb0 Hdl Hwf Hfuel Hp Hdue Hlate Hnext.
  pose proof Hdl as [Hc Hall].
  pose proof (chain_NoDup _ _ _ Hc) as Hnd.
  pose proof Hnd as Hnd'. apply NoDup_cons in Hnd' as [HnH _].
  assert (Hhd : timer_head s = Some H).
  { unfold chain in Hc. simpl in Hc. by destruct Hc as [? _]. }
  destruct (lseg_lookup _ _ _ _ H Hc ltac:(left)) as [hh Hh].
  assert (Hdh : delta_at (heap s) H = delta hh) by (unfold delta_at; by rewrite Hh).
  assert (Hph : period_at (heap s) H = timeout_periodic hh)
    by (unfold period_at; by rewrite Hh).
  assert (Hd0 : 0 <= delta_at (heap s) H < 2 ^ 32).
  { apply Forall_cons in Hall as [Hu _]. exact Hu. }
  assert (He : 0 <= elapsed s < 2 ^ 32) by (unfold elapsed; apply wrap32_range).
  assert (Hnn : forall b, b ∈ rest -> 0 <= delta_at (heap s) b).
  { intros b Hb'. apply (delta_at_nonneg _ _ _ Hall). by right. }
  rewrite Hhd in Hc.
  destruct (expired_scan_spec (heap s) (H :: rest) H (elapsed s) wfuel Hc Hall He Hdue Hwf)
    as (X & Hscan & HXin & HXfit & _).
  assert (X = H) as ->.
  { apply elem_of_cons in HXin as [->|HXin]; [done|exfalso].
    assert (HXH : X <> H) by (intros ->; done).
    simpl in HXfit. destruct (decide (H = X)) as [E|_]; [by symmetry in E|].
    destruct rest as [|n rest']; [by apply elem_of_nil in HXin|].
    specialize (Hnext n eq_refl).
    pose proof (cum_ge_head (delta_at (heap s)) X n rest'
                  ltac:(intros b Hb'; apply Hnn; by right)). lia. }
  set (c := hal_counter s) in *.
  set (s1 := set_last_delta_update_count c s).
  set (s2 := set_heap (<[H := set_delta 0 hh]> (heap s1)) s1).
  destruct (dispatch_unlink wfuel s2 s [] H rest hh Hdl Hh eq_refl eq_refl ltac:(simpl; lia))
    as (s3 & Hrem & Hdl3 & Hsg3 & HX3 & Hattrs3 & Hd3).
  simpl in Hdl3.
  destruct (attrs_eq_inv _ _ H (Hattrs3 H)) as (_ & _ & Hcb & Hdata & _).
  assert (Hcnt3 : hal_counter s3 = c) by (by rewrite (same_globals_counter _ _ Hsg3)).
  assert (Hlast3 : last_delta_update_count s3 = c)
    by (by rewrite (same_globals_last _ _ Hsg3)).
  set (s5 := after_callback run_callback H (callback_at (heap s) H)
               (data_at (heap s) H) s3).
  destruct (after_callback_keeps run_callback H (callback_at (heap s) H)
              (data_at (heap s) H) s3 Hk) as [Hheap5 Hhead5].
  fold s5 in Hheap5, Hhead5.
  assert (Hdl5 : delta_list s5 rest) by (by apply (delta_list_ext s3)).
  set (w := wrap32 (hal_counter s5 - c)).
  assert (Hw : 0 <= w <= budget).
  { split; [apply wrap32_range|]. unfold w, s5, after_callback.
    destruct (callback_at (heap s) H) as [cb|].
    - rewrite <- Hcnt3. apply Hb.
    - rewrite Hcnt3, Z.sub_diag. by change (wrap32 0) with 0. }
  set (dt1 := elapsed s - delta_at (heap s) H) in *.
  assert (Hdt2 : wrap32 (wrap32 dt1 + (hal_counter s5 - c)) = dt1 + w).
  { rewrite wrap32_add_l, <- wrap32_add_r. fold w. apply wrap32_small. lia. }
  assert (Hidle : forall hd, head rest = Some hd -> dt1 + w < delta_at (heap s5) hd).
  { intros hd Hhd'. rewrite Hheap5.
    assert (hd ∈ rest) by (by apply head_Some_elem_of).
    rewrite Hd3 by (intros ->; done). specialize (Hnext hd Hhd'). lia. }
  exists s5, w.
  split.
  { destruct fuel as [|fuel']; [lia|].
    simpl. rewrite Hhd. simpl. rewrite Hh. simpl.
    replace (elapsed s >=? delta hh) with true by (symmetry; rewrite Z.geb_leb; lia).
    change (heap (set_last_delta_update_count c s)) with (heap s).
    rewrite Hscan. simpl. rewrite Hh. simpl.
    fold s1. change (set_heap (<[H:=set_delta 0 hh]> (heap s)) s1) with s2.
    rewrite Hrem. simpl. rewrite HX3. simpl.
    rewrite <- Hph. rewrite Hp. simpl.
    unfold invoke_callback. rewrite HX3. simpl.
    assert (Hs5 : s5 = match callback hh with
                       | Some cb => run_callback cb H (callback_data hh) s3
                       | None => s3
                       end).
    { unfold s5, after_callback, callback_at, data_at. rewrite Hh. done. }
    assert (Hlog : callback_log H (callback_at (heap s) H) (data_at (heap s) H)
                   = match callback hh with
                     | Some cb => [Invoke cb H (callback_data hh)]
                     | None => []
                     end).
    { unfold callback_log, callback_at, data_at. rewrite Hh. done. }
    rewrite Hlog.
    assert (Hloop2 : dispatch_loop run_callback fuel' wfuel (dt1 + w) (hal_counter s5) s5
                     = Some ([], dt1 + w, hal_counter s5, s5))
      by (by apply (dispatch_loop_idle _ _ _ _ rest)).
    rewrite <- Hdh. fold dt1.
    destruct (callback hh) as [cb|]; simpl; rewrite <- Hs5;
      unfold sleeptimer_hal_get_counter; rewrite Hdt2, Hloop2; simpl; done. }
  split; [done|]. split; [done|]. split; [done|].
  intros a Ha. rewrite Hheap5. by apply Hd3.
Qed.

(** X27: a one-shot timer at the head of the list that alone is due when
    the compare interrupt is served is called once and taken off the list.
    Every other timer keeps its deadline; the comparator is programmed for
    the new head with the compare interrupt enabled, or the compare
    interrupt is masked when the list became empty. *)
Theorem one_shot_timer_fires_once run_callback f fuel wfuel budget s H rest r0 :
  callback_keeps_list run_callback ->
  callback_takes_at_most budget run_callback -> 0 <= budget ->
  delta_list s (H :: rest) -> (length (H :: rest) <= wfuel)%nat -> (1 <= fuel)%nat ->
  period_at (heap s) H = 0 ->
  delta_at (heap s) H <= elapsed s ->
  elapsed s - delta_at (heap s) H + budget < 2 ^ 32 ->
  (forall n, head rest = Some n ->
     elapsed s - delta_at (heap s) H + budget < delta_at (heap s) n) ->
  exists s',
    process_timer_irq f run_callback fuel wfuel SLEEPTIMER_EVENT_COMP s
      = Some (callback_log H (callback_at (heap s) H) (data_at (heap s) H), s') /\
    delta_list s' rest /\
    sl_sleeptimer_is_timer_running wfuel (Some H) (Some r0) s'
      = Some (SL_STATUS_OK, Some false) /\
    (forall a, a ∈ rest ->
       wrap32 (last_delta_update_count s' + cum (delta_at (heap s')) a rest)
       = wrap32 (last_delta_update_count s + cum (delta_at (heap s)) a (H :: rest))) /\
    (forall hd, head rest = Some hd ->
       hal_compare s'
         = wrap32 (last_delta_update_count s' + delta_at (heap s') hd) /\
       Z.testbit (hal_int_enabled s') 1 = true) /\
    (rest = [] -> Z.testbit (hal_int_enabled s') 1 = false).
Proof.
  intros Hk Hb Hb0 Hdl Hwf Hfuel Hp Hdue Hlate Hnext.
  destruct (one_shot_pass run_callback fuel wfuel budget s H rest Hk Hb Hb0 Hdl Hwf Hfuel
              Hp Hdue Hlate Hnext)
    as (s5 & w & Hloop & Hwdef & Hw & Hdl5 & Hsame).
  assert (He : 0 <= elapsed s < 2 ^ 32) by (unfold elapsed; apply wrap32_range).
  pose proof (chain_NoDup _ _ _ (proj1 Hdl)) as Hnd.
  apply NoDup_cons in Hnd as [HnH Hndr].
  set (dt2 := elapsed s - delta_at (heap s) H + w) in *.
  assert (Hrun : forall s', delta_list s' rest ->
            sl_sleeptimer_is_timer_running wfuel (Some H) (Some r0) s'
            = Some (SL_STATUS_OK, Some false)).
  { intros s' Hdl'. unfold sl_sleeptimer_is_timer_running.
    rewrite (is_timer_running_loop_spec _ _ _ _ _ (proj1 Hdl')) by (simpl in Hwf; lia).
    by rewrite bool_decide_eq_false_2. }
  assert (Hirq : process_timer_irq f run_callback fuel wfuel SLEEPTIMER_EVENT_COMP s
                 = '(tr, delta_tot, current_cnt, s1) ←
                     Some (callback_log H (callback_at (heap s) H) (data_at (heap s) H),
                           dt2, hal_counter s5, s5);
                   match timer_head s1 with
                   | Some hd =>
                     hh ← heap s1 !! hd;
                     let s2 := set_heap (<[hd := set_delta (wrap32 (delta hh - delta_tot)) hh]>
                                           (heap s1)) s1 in
                     let s3 := set_last_delta_update_count current_cnt s2 in
                     s4 ← set_comparator_for_next_timer s3;
                     Some (tr, s4)
                   | None => Some (tr, sleeptimer_hal_disable_int SLEEPTIMER_EVENT_COMP s1)
                   end).
  { rewrite process_timer_irq_compare. unfold process_compare.
    change (dispatch_loop run_callback fuel wfuel
              (wrap32 (sleeptimer_hal_get_counter s - last_delta_update_count s))
              (sleeptimer_hal_get_counter s) s)
      with (dispatch_loop run_callback fuel wfuel (elapsed s) (hal_counter s) s).
    by rewrite Hloop. }
  rewrite Hirq. clear Hirq. cbn [mbind option_bind].
  destruct rest as [|hd l''].
  - assert (Hh5 : timer_head s5 = None) by (apply (chain_head _ _ _ (proj1 Hdl5))).
    rewrite Hh5.
    set (s' := sleeptimer_hal_disable_int SLEEPTIMER_EVENT_COMP s5).
    assert (Hdl' : delta_list s' []) by (by apply (delta_list_ext s5)).
    exists s'. split; [done|]. split; [done|]. split; [by apply Hrun|].
    split; [intros a Ha; by apply elem_of_nil in Ha|]. split; [done|].
    intros _. unfold s', sleeptimer_hal_disable_int, set_hal_int_enabled.
    cbn [hal_int_enabled]. rewrite Z.ldiff_spec.
    change (Z.testbit SLEEPTIMER_EVENT_COMP 1) with true. apply andb_false_r.
  - assert (Hidle : dt2 < delta_at (heap s5) hd).
    { rewrite Hsame by (intros ->; apply HnH; left).
      specialize (Hnext hd eq_refl). lia. }
    assert (Hhd5 : timer_head s5 = Some hd).
    { destruct Hdl5 as [Hc5 _]. unfold chain in Hc5. simpl in Hc5. by destruct Hc5. }
    destruct (lseg_lookup _ _ _ _ hd (proj1 Hdl5) ltac:(left)) as [h5 Hh5].
    assert (Hd5 : delta_at (heap s5) hd = delta h5) by (unfold delta_at; by rewrite Hh5).
    assert (Hu5 : 0 <= delta_at (heap s5) hd < 2 ^ 32).
    { destruct Hdl5 as [_ Hall5]. apply Forall_cons in Hall5 as [Hu _]. exact Hu. }
    set (s6 := set_heap (<[hd := set_delta (wrap32 (delta h5 - dt2)) h5]> (heap s5)) s5).
    set (s7 := set_last_delta_update_count (hal_counter s5) s6).
    destruct (delta_list_set_head_delta s5 l'' hd h5 (wrap32 (delta h5 - dt2)) s7
                Hdl5 Hh5 eq_refl eq_refl (wrap32_range _))
      as (Hdl7 & Hdhd7 & Hdrest7).
    set (h7 := set_delta (wrap32 (delta h5 - dt2)) h5).
    assert (Hh7 : heap s7 !! hd = Some h7) by (apply lookup_insert_eq).
    assert (Hd7 : delta_at (heap s7) hd = delta h7) by (unfold delta_at; by rewrite Hh7).
    set (s8 := sleeptimer_hal_set_compare
                 (wrap32 (last_delta_update_count s7 + delta h7))
                 (sleeptimer_hal_enable_int SLEEPTIMER_EVENT_COMP s7)).
    assert (Hdl8 : delta_list s8 (hd :: l'')) by (by apply (delta_list_ext s7)).
    assert (Hage : forall a, a ∈ hd :: l'' ->
              cum (delta_at (heap s8)) a (hd :: l'')
              = cum (delta_at (heap s5)) a (hd :: l'') - dt2).
    { intros a Ha. change (heap s8) with (heap s7).
      apply (cum_aged (delta_at (heap s5))); try done.
      - intros b Hb'. apply Hdrest7. intros ->. by apply Hb'.
      - intros b [= <-]. rewrite Hdhd7, <- Hd5. apply wrap32_small. lia. }
    exists s8. split.
    { rewrite Hhd5. simpl. rewrite Hh5. simpl.
      unfold set_comparator_for_next_timer. simpl. rewrite Hhd5. simpl.
      rewrite lookup_insert_eq. simpl. done. }
    split; [done|]. split; [by apply Hrun|].
    change (last_delta_update_count s8) with (hal_counter s5).
    assert (Hdt2 : dt2 = wrap32 (hal_counter s - last_delta_update_count s)
                         + wrap32 (hal_counter s5 - hal_counter s)
                         - delta_at (heap s) H).
    { unfold dt2, elapsed, sleeptimer_hal_get_counter. lia. }
    split; [|split; [|done]].
    + intros a Ha. rewrite (Hage a Ha), Hdt2.
      rewrite (cum_ext (delta_at (heap s)) (delta_at (heap s5)) a (hd :: l'')).
      2:{ intros b Hb'. apply Hsame. intros ->. by apply HnH. }
      assert (HaH : a <> H) by (intros ->; by apply HnH).
      cbn [cum]. destruct (decide (H = a)) as [E|_]; [by symmetry in E|].
      etrans; [|apply (wrap32_two_rebases (hal_counter s) (hal_counter s5))].
      f_equal. cbn [cum]. lia.
    + intros hd' [= <-]. split.
      * change (hal_compare s8) with (wrap32 (last_delta_update_count s7 + delta h7)).
        change (heap s8) with (heap s7). rewrite Hd7. reflexivity.
      * change (Z.testbit (Z.lor (hal_int_enabled s7) SLEEPTIMER_EVENT_COMP) 1 = true).
        rewrite Z.lor_spec. change (Z.testbit SLEEPTIMER_EVENT_COMP 1) with true.
        apply orb_true_r.
Qed.

Lemma one_shot_timer_fires_once_witness :
  exists s',
    process_timer_irq 32768 no_callback 2 2 SLEEPTIMER_EVENT_COMP
      (set_hal_counter 112 due_state) = Some ([Invoke 7%positive 1%positive 0], s') /\
    delta_list s' [2%positive] /\
    hal_compare s' = 115.
Proof.
  destruct (one_shot_timer_fires_once no_callback 32768 2 2 0
              (set_hal_counter 112 due_state) 1%positive [2%positive] false)
    as (s' & H1 & H2 & _ & H3 & H4 & _).
  - exact no_callback_keeps_list.
  - exact no_callback_takes_no_time.
  - lia.
  - apply (delta_list_ext due_state); [done|done|exact due_delta_list].
  - simpl. lia.
  - lia.
  - vm_compute. reflexivity.
  - vm_compute. discriminate.
  - vm_compute. reflexivity.
  - intros n [= <-]. vm_compute. reflexivity.
  - exists s'. split; [exact H1|]. split; [exact H2|].
    destruct (H4 2%positive eq_refl) as [-> _].
    specialize (H3 2%positive ltac:(left)).
    rewrite cum_head in H3. exact H3.
Defined.

(** ** Ageing an overdue head *)

(** X28: when more ticks have elapsed than the head's delta,
    [update_first_timer_delta] zeroes that delta and sets
    [last_delta_update_count] to the counter less the old delta; the deltas
    behind stay, so the deadline of every other timer moves by the elapsed
    ticks less twice the old head delta (by the full elapsed time when the
    head's delta was already 0). *)
Theorem update_with_overdue_head s hd l :
  delta_list s (hd :: l) ->
  delta_at (heap s) hd < elapsed s ->
  exists s',
    update_first_timer_delta s = Some s' /\
    delta_list s' (hd :: l) /\
    delta_at (heap s') hd = 0 /\
    last_delta_update_count s' = wrap32 (hal_counter s - delta_at (heap s) hd) /\
    forall a, a ∈ l ->
      wrap32 (last_delta_update_count s' + cum (delta_at (heap s')) a (hd :: l))
      = wrap32 (last_delta_update_count s + cum (delta_at (heap s)) a (hd :: l)
                + (elapsed s - 2 * delta_at (heap s) hd)).
Proof.
  intros Hdl Hover.
  pose proof Hdl as [Hc Hall].
  pose proof (chain_NoDup _ _ _ Hc) as Hnd.
  assert (Hhd : timer_head s = Some hd).
  { unfold chain in Hc. simpl in Hc. by destruct Hc as [? _]. }
  destruct (lseg_lookup _ _ _ _ hd Hc ltac:(left)) as [hh Hh].
  assert (Hdh : delta_at (heap s) hd = delta hh) by (unfold delta_at; by rewrite Hh).
  set (s' := set_heap (<[hd := set_delta 0 hh]> (heap s))
               (set_last_delta_update_count
                  (wrap32 (sleeptimer_hal_get_counter s - delta hh)) s)).
  destruct (delta_list_set_head_delta s l hd hh 0 s' Hdl Hh eq_refl eq_refl
              ltac:(unfold is_u32; lia))
    as (Hdl' & Hd0 & Hrest).
  exists s'. split.
  { unfold update_first_timer_delta. rewrite Hhd, Hh. simpl. fold (elapsed s).
    replace (delta hh >=? elapsed s) with false by (symmetry; rewrite Z.geb_leb; lia).
    done. }
  split; [done|]. split; [done|].
  split; [unfold s'; simpl; by rewrite Hdh|].
  intros a Ha.
  assert (Hal : a ∈ hd :: l) by (by right).
  rewrite (cum_aged (delta_at (heap s)) (delta_at (heap s')) (delta_at (heap s) hd) a
             (hd :: l) Hnd Hal).
  - change (last_delta_update_count s') with (wrap32 (hal_counter s - delta hh)).
    rewrite wrap32_add_l. unfold elapsed, sleeptimer_hal_get_counter.
    rewrite <- Hdh.
    set (d := delta_at (heap s) hd). set (C := cum (delta_at (heap s)) a (hd :: l)).
    replace (last_delta_update_count s + C
             + (wrap32 (hal_counter s - last_delta_update_count s) - 2 * d))
      with (wrap32 (hal_counter s - last_delta_update_count s)
            + (last_delta_update_count s + C - 2 * d)) by lia.
    rewrite wrap32_add_l. f_equal. lia.
  - intros b Hb. apply Hrest. intros ->. by apply Hb.
  - intros b [= <-]. rewrite Hd0. lia.
Qed.

Lemma update_with_overdue_head_witness :
  exists s',
    update_first_timer_delta due_state = Some s' /\
    last_delta_update_count s' = 110 /\
    wrap32 (last_delta_update_count s' + cum (delta_at (heap s')) 2%positive
                                             [1%positive; 2%positive]) = 115.
Proof.
  destruct (update_with_overdue_head due_state 1%positive [2%positive])
    as (s' & H1 & _ & _ & H2 & H3).
  - exact due_delta_list.
  - vm_compute. reflexivity.
  - exists s'. split; [exact H1|]. split; [exact H2|].
    exact (H3 2%positive ltac:(left)).
Defined.
